(* ===== verification/_CoqProject ===== *)
-Q . S2P
Prelude.v
QtString.v
Patterns.v
Regex.v
ClipboardItem.v
PatternRegex.v
History.v
HistorySpec.v
Search.v
Manager.v
Views.v
RowText.v
HistoryWidget.v
MainWindow.v
PopupWidget.v
Tray.v
App.v
TrayManager.v
