(* ===== verification/Prelude.v ===== *)
(** * A verified model of the clipboard-history engine of clipboard_manager

    This development models, in Rocq, the non-visual engine of the Qt
    program under [src/src/]: how a clipboard snapshot is classified into
    a [ClipboardItem], how [ClipboardManager] keeps a bounded, deduplicated,
    most-recent-first history of such items, how the history is searched
    and filtered, and how the two widgets that show the history turn a
    click on a row back into a history index; and the tray layer around
    it: the popup's visibility, search field and position, and the main
    window's hide-to-tray behaviour.  Window chrome, style sheets and
    drawing are not modelled.

    ** The program and how its parts interact

    - [ClipboardItem.cpp] turns a [QMimeData] snapshot (image, HTML or
      plain text flags) into an immutable item: its text, its type
      ([Text], [Image], [Html], [Url], [File], [Code]), a cached preview
      and a time stamp.  Plain text is typed by three regular
      expressions tried in order (URL, code, file path).
    - [ClipboardManager.cpp] owns the history ([m_history], a [QList]),
      its bound [m_maxHistorySize] (an [int], default 100) and a
      single-shot [QTimer].  Its slot [onClipboardChanged] reads the
      clipboard, builds an item, drops empty items and repeats of the
      newest item, and calls [addItem], which removes an equal item,
      prepends the new one and trims the tail.  [removeItem],
      [clearHistory] and [setMaxHistorySize] are called by the widgets.
      Every mutation reports itself through the [historyChanged] signal.
    - [ClipboardHistoryWidget.cpp] and [TrayPopupWidget.cpp] subscribe
      to [historyChanged], display the result of [search] (and, in the
      main widget, a type filter), and on a click copy an item back to
      the clipboard ([ClipboardItem::copyToClipboard]); the clipboard
      then signals a change, which the manager ingests again.
    - [SystemTrayManager.cpp] shows the item count in the tray tooltip
      on every [historyChanged], toggles the popup on a click of the tray
      icon (placing it under the icon with [positionTrayPopup]), and shows
      the main window on a middle click or from the menu.
      [MainWindow.cpp] hides itself to the tray on close and minimise;
      [main.cpp] keeps the application running without windows.

    ** Files, modules and their correspondence with the code

    - [Prelude] (this file): the [clip_scope] notations, the [clip] hint
      database, tactics, and generic lemmas on lists (duplicate-freedom
      up to a boolean equality, sublists, filters, [take], folds of
      commuting actions over a permutation) shared by all files.
    - [QtString]: [QString] as a list of Latin-1 code units ([ascii]),
      with [QChar::isSpace], [QString::trimmed], [simplified], [toLower],
      [contains], [left], [isEmpty] and the decimal rendering of
      [QString::arg(int)], and the classes [\s] and [\w] of PCRE2; the
      reference [Words] (split at whitespace, join with one space) that
      characterises [simplified]; and module [QArg]: [QString::arg] on a
      string argument, over UTF-16 code units ([list N]), with Qt 6's
      escape rules.  These are Qt's, not the repository's: they are
      modelled, not mapped.
    - [Patterns] (module [Patterns]): one executable recogniser for each
      regular expression of [ClipboardItem::determineType] (URL, code,
      file path), following PCRE2's semantics of [^], [$], [\b] and
      unanchored search.
    - [Regex] (module [Regex]): the reference semantics of
      [QRegularExpression] for the constructs the patterns use: a regex
      syntax (classes, concatenation, alternation, star, [^], [$], [\b])
      with a matching relation on positions that remember the characters
      before them, and [hasMatch], the search over start positions.
      Qt's, not mapped.
    - [ClipboardItem] (module [Item]): [enum ItemType], the snapshot
      read from [QMimeData], the item record, both constructors with
      [determineType], [generatePreview], [truncateText], [loadIcon],
      [typeString], [operator==], [formattedTimestamp] and what
      [copyToClipboard] writes to the clipboard; [wellTyped], the type
      invariant of an item.
    - [PatternRegex] (module [PatternRegex]): the three regular
      expressions of [determineType] as [Regex] terms, and the proof that
      each recogniser of [Patterns] decides its expression.
    - [History] (module [History]): the store of [ClipboardManager]
      ([m_history], [m_maxHistorySize]) and its operations [addItem]
      (its [for] loop with [break] and its [while] trimming loop are
      fuelled fixpoints), [isDuplicate], [removeItem], [clearHistory],
      [setMaxHistorySize], [itemCount]; each returns the new store and
      the signals it emits, in order.  [operator==] is a setoid
      equivalence with [Proper] instances for the operations that only
      read an item's key.
    - [HistorySpec]: the abstract store of the spec (section 4.3) as an
      interface, the classes [BoundedRecentStore] and
      [BoundedRecentStoreLaws]; client theorems proved against the
      interface only; the instance for [History.Store], whose laws are
      the refinement theorem of the code.
    - [Search] (module [Search]): [ClipboardManager::search], the type
      filter of [ClipboardHistoryWidget::getFilteredItems] and the
      statistics label of [updateStats].
    - [Manager] (module [Manager]): [onClipboardChanged] and the
      constructor over the manager's state (store, timer, unused
      [m_lastClipboardText]); the program as a transition system on the
      manager, the clipboard's [QMimeData] and the log of signals, with
      events for an external copy, a copy-back from a widget, the
      widgets' remove, clear and resize requests and the timer's expiry;
      [Reachable] states and their invariant.
    - [Views] (module [Views]): the rows of [ClipboardHistoryWidget] and
      [TrayPopupWidget], the history entry a clicked row designates, the
      context-menu removal and the tray tooltip.
    - [RowText] (module [RowText]): the [QListWidgetItem] each
      [createHistoryItem] builds (text, icon, index data, tooltip) with
      its chained [QString::arg] calls, in the main widget and in the
      popup.
    - [HistoryWidget] (module [HistoryWidget]): the
      [ClipboardHistoryWidget] object on its own: its members, the
      constructor and [setupUI], [setClipboardManager] with [disconnect]
      and [connect] (connections as the list of their senders), the
      null-manager guards, the slots, and the requests its double click,
      context menu and clear button make of a manager.
    - [MainWindow] (module [MainWindow]): the window's members, its
      constructor with [QWidget]'s size rules, [setupUI],
      [setClipboardManager] (handed on to the history widget) and
      [showPreferences].
    - [PopupWidget] (module [PopupWidget]): the [TrayPopupWidget]
      object on its own: its constructor, [updateHistoryList],
      [showEvent] and [hideEvent] with the clearing of the search field,
      [QWidget::show] and [hide], the search slot, a click on a row,
      the Clear and Open App buttons and the Escape key.
    - [Tray] (module [Tray]): [QRect] as Qt defines it, the platform as
      an environment ([Q_OS_MACOS], the tray and screen geometry, the
      availability of a tray), [positionTrayPopup], and the interface
      state (popup visible, its geometry and search text, main window
      visible, the [static firstTime] of [closeEvent], a quit request,
      the tooltip) with [uiStep] for each event of
      [SystemTrayManager], [TrayPopupWidget] and [MainWindow];
      [UiReachable] states and runs of events ([uiRun]).
    - [App] (module [App]): the whole application as [main.cpp] wires
      it: the manager's system, the interface state, the main widget's
      search text, filter, rows, statistics label and list tooltip with
      its pending [singleShot] timers, and the popup's rows; the three slots connected to [historyChanged] in connection
      order and the synchronous delivery of the signals an operation
      emits; [appStep] for every event the program handles (clipboard
      changes, the widgets' slots, the popup's slots, the tray and
      window events); [AppReachable] states; [main], which exits with
      code 1 without a system tray and otherwise enters the event loop
      in the initial state.
    - [TrayManager] (module [TrayManager]): the [SystemTrayManager]
      object with its tray icon, menu, popup and main window, its
      constructor in the order of the source, [show] and [hide],
      [updateTrayIcon] and [onHistoryChanged]; the objects [main] builds
      and the delivery of [historyChanged] to the three objects connected
      to it.

    ** What the theorems show

    - Store: every operation keeps the invariant (bound at least one,
      history within the bound, no two entries equal under
      [operator==]); [addItem], [removeItem], [clearHistory] and
      [setMaxHistorySize] behave as stated on each branch, with their
      signals; the trimming loop terminates with the code's fuel and
      computes [take]; the spec's promote and capacity examples hold.
    - Refinement: the code's store implements the abstract store of the
      spec (insertion with promotion, removal by index, clear, resize).
    - Classification: the spec's examples, time invariance, the priority
      of image over HTML over text, the bound of 103 characters on a
      preview, the equality of image items, the time labels' bounds.
    - Strings: [simplified] equals the join of the words with single
      spaces (so it is idempotent and keeps the words); [trimmed] strips
      exactly a whitespace run at each end.
    - Rows: what each widget's row shows, and its tooltip, as the plain
      concatenation the templates describe (in the main widget when the
      preview has no [%]).  The concatenations that stand for
      [QString::arg(int)] elsewhere ([imageDescriptor], the relative
      time labels, the statistics label, the tray tooltip) are proved
      equal to [QArg.arg] on the source's templates.
    - Program: the invariant of every reachable state; every copy with a
      non-empty text ends up as the newest entry; an ingestion's
      behaviour on each branch; a copy-back from a widget promotes the
      entry without growing the history.
    - Search and views: the search returns the matching sublist in order,
      ignores the query's case, and composes with the type filter; without
      a search the rows of the main widget designate what they show.
    - Tray: the popup fits the screen horizontally (and on macOS
      vertically) when the screen is large enough, while elsewhere its
      top is always 5 pixels under the tray icon; every
      reachable interface state has an empty search field while the
      popup is hidden and has shown the keep-running explanation at most
      once; only the menu's Quit action requests a quit.
    - Regular expressions: [determineType] returns [Url], [Code], [File]
      or [Text] exactly as the source's three expressions, read with
      PCRE2's semantics, match; the executable recognisers are the
      optimised routine and [Regex.Matches] the reference.
    - Widgets: a reachable history widget is connected exactly to the
      manager it points to (a change is delivered once, a replaced
      manager's never); without a manager every guard returns early;
      [resize] keeps the window between its minimum and maximum sizes.
      [PopupWidget] and [TrayManager] hold object models without
      theorems of their own: the program's behaviour is proved on [App],
      written from the same lines.
    - Application: in every reachable state of the composed program the
      main widget's rows and the tray tooltip show the current history,
      the popup's rows do when its search field is empty, and every
      entry is well typed; from every reachable state three user actions
      bring up the whole history (a liveness property); the three slots
      of [historyChanged] commute, so the order of delivery does not
      matter; without a search a double click puts the entry the row
      shows on the clipboard and shows the "Copied to clipboard!"
      feedback, which the pending timers always clear (liveness).
    - Findings, each proved: the timer of the echo guard is never
      started, so the guard never fires; [setMaxHistorySize] is silent
      when it drops entries; with a search, rows designate other entries,
      and the placeholder row designates the newest entry; an HTML entry
      copied back is recorded again as text; an empty snapshot is
      recorded as "Unknown format"; the URL pattern only knows http(s)
      and the file pattern accepts a bare file name; outside macOS the
      popup can be placed entirely below the available screen area; the
      tray tooltip keeps the old count after a silent resize; the main
      widget's statistics label is not refreshed by a search or a
      filter; the popup lists the whole history under a query after a
      change of the history; in the running application a double click
      under a search copies another entry; the main widget's row text
      splices its subtitle into a preview holding [%0] or [%1] (a URL
      with [%0A]) because of the chained [arg] calls; a second double
      click within a second has its feedback cleared by the first
      click's timer.  Each finding is a theorem over all inputs (or all
      reachable states), with a witness at the concrete input that shows
      it.

    ** What is left

    Done in the sittings so far: the regular expressions ([Regex],
    [PatternRegex]); the composition of the manager, the tray and the
    widgets with the delivery of [historyChanged] ([App]); [trimmed] and
    [simplified] characterised; the order of delivery; the rows' text
    ([RowText]); [QString::arg] and the templates of the program; [main];
    the "Copied to clipboard!" feedback and its timers; the history
    widget and the main window as objects ([HistoryWidget],
    [MainWindow], [PopupWidget]); the [SystemTrayManager] object and the
    objects [main] builds ([TrayManager]).  What a later development
    could add: one row type for
    [Views] and [RowText], so that the application's rows carry their
    text (with the time of rendering: relative time labels are not
    refreshed until the next change).

    ** Bounds and fuel

    The two [while]/[for] loops of [ClipboardManager] are fixpoints with
    an explicit fuel argument; the code calls them with the length of the
    list as fuel, and a theorem shows this fuel is enough (each iteration
    removes one element).  Integers that the code keeps as [int]
    ([m_maxHistorySize], the index given to [removeItem], the size given
    to [setMaxHistorySize]) are [Z]; list lengths are [nat].  The history
    is bounded by at most [2^31 - 1] in the code; no arithmetic on these
    values can overflow there, so [Z] is exact.
    In [Tray] the geometry is [Z], and a theorem bounds every [int] that
    [positionTrayPopup] computes within 32 bits for coordinates within
    [2^29], which covers any real screen.

    ** Not modelled

    Pixels of images, icons' bitmaps, fonts, style sheets, the layout of
    the widgets and the message boxes' contents are not modelled (they have no state
    that the engine reads).  Dates are modelled as seconds; the absolute
    date format ["MMM dd, hh:mm"] is left abstract.  [QString] is
    restricted to the Latin-1 range, where [QChar::isSpace] and
    [toLower] are given exactly; only the rows' text, whose templates
    hold a bullet (U+2022), is a list of UTF-16 code units.  [arg]
    follows Qt 6, which reads only ASCII digits in an escape; Qt 5 also
    reads the superscript digits of Latin-1 (U+00B2, U+00B3, U+00B9), so
    there a [%] followed by one of them in a preview is an escape too.
    The uncovered lines of the widgets' sources are their [setupUI]
    layouts and [applyMacStyle] style sheets, the tray icon's image and
    the About box: they set no state that any code of the program reads.
    Qt's event loop ([app.exec()]) is the reachability relation of
    [App]: any enabled event may come next. *)

From Stdlib Require Export Ascii String ZArith Lia.
From stdpp Require Export base list strings.

Declare Scope clip_scope.
Delimit Scope clip_scope with clip.

(** The hint database of the development: list and sublist facts used to
    carry invariants through the operations of the history. *)
Create HintDb clip discriminated.

(** ** Tactics *)

(** Case analysis on the first [if] of the goal, keeping the equation. *)
Ltac case_if :=
  match goal with
  | |- context [if ?b then _ else _] =>
      let E := fresh "E" in destruct b eqn:E
  end.

(** Turn boolean conjunctions and disjunctions of hypotheses into Prop. *)
Ltac bool_hyps :=
  repeat match goal with
  | H : (_ && _)%bool = true |- _ => apply andb_prop in H as [? ?]
  | H : (_ || _)%bool = false |- _ => apply orb_false_elim in H as [? ?]
  | H : negb _ = true |- _ => apply negb_true_iff in H
  | H : negb _ = false |- _ => apply negb_false_iff in H
  end.

(** ** Lists without duplicates up to a boolean equality

    The code compares items with [operator==], which is coarser than
    equality of the records; duplicate-freedom is therefore stated with
    the boolean test itself. *)
Section NoDupBy.
Context {A : Type} (eqb : A -> A -> bool).

Fixpoint nodup_by (l : list A) : bool :=
  match l with
  | [] => true
  | x :: l' => negb (existsb (eqb x) l') && nodup_by l'
  end.

Lemma existsb_sublist (f : A -> bool) (l1 l2 : list A) :
  l1 `sublist_of` l2 -> existsb f l1 = true -> existsb f l2 = true.
Proof.
  induction 1 as [|x l1 l2 _ IH|x l1 l2 _ IH]; simpl; [done| |].
  - intros [->|]%orb_prop; [done|]. rewrite IH; [apply orb_true_r|done].
  - intros H. rewrite IH; [apply orb_true_r|done].
Qed.

Lemma nodup_by_sublist (l1 l2 : list A) :
  l1 `sublist_of` l2 -> nodup_by l2 = true -> nodup_by l1 = true.
Proof.
  induction 1 as [|x l1 l2 Hs IH|x l1 l2 _ IH]; simpl; [done| |].
  - intros H; bool_hyps. rewrite IH by done. rewrite andb_true_r.
    apply negb_true_iff. destruct (existsb (eqb x) l1) eqn:E; [|done].
    by rewrite (existsb_sublist _ _ _ Hs E) in *.
  - intros H; bool_hyps. by apply IH.
Qed.

Lemma nodup_by_cons (x : A) (l : list A) :
  nodup_by (x :: l) = true <-> existsb (eqb x) l = false /\ nodup_by l = true.
Proof.
  simpl. split.
  - intros H; bool_hyps. done.
  - intros [-> ->]. done.
Qed.
End NoDupBy.

#[export] Hint Resolve sublist_take sublist_delete sublist_cons sublist_skip
  sublist_nil_l : clip.
#[export] Hint Resolve nodup_by_sublist : clip.

(** ** Generic list facts *)

(** [QList::removeLast] is Stdlib's [removelast]: it keeps a prefix. *)
Lemma removelast_take {A} (l : list A) :
  removelast l = take (length l - 1) l.
Proof.
  induction l as [|x l IH]; [done|].
  destruct l as [|y l]; [done|].
  change (removelast (x :: y :: l)) with (x :: removelast (y :: l)).
  rewrite IH. simpl. rewrite Nat.sub_0_r. done.
Qed.

Lemma removelast_sublist {A} (l : list A) : removelast l `sublist_of` l.
Proof. rewrite removelast_take. apply sublist_take. Qed.

Lemma length_removelast {A} (l : list A) :
  length (removelast l) = length l - 1.
Proof. rewrite removelast_take, length_take. lia. Qed.

#[export] Hint Resolve removelast_sublist : clip.

(** [List.filter] keeps a sublist, in order. *)
Lemma filter_sublist {A} (f : A -> bool) (l : list A) :
  List.filter f l `sublist_of` l.
Proof.
  induction l as [|x l IH]; simpl; [done|].
  destruct (f x); auto with clip.
Qed.

#[export] Hint Resolve filter_sublist : clip.

Lemma existsb_false_In {A} (f : A -> bool) (l : list A) (y : A) :
  existsb f l = false -> In y l -> f y = false.
Proof.
  intros Hl Hy. destruct (f y) eqn:E; [|done].
  assert (existsb f l = true) by (apply existsb_exists; eauto). congruence.
Qed.

(** A filter that keeps every element is the identity. *)
Lemma filter_id {A} (f : A -> bool) (l : list A) :
  (forall y, In y l -> f y = true) -> List.filter f l = l.
Proof.
  induction l as [|x l IH]; intros H; simpl; [done|].
  rewrite (H x) by (left; done). rewrite IH; [done|]. intros y Hy. apply H. right. done.
Qed.

Lemma In_filter_false {A} (f : A -> bool) (l : list A) (y : A) :
  In y (List.filter (fun x => negb (f x)) l) -> f y = false.
Proof. intros [_ H]%filter_In. apply negb_true_iff. done. Qed.

(** A property of every element holds on a sublist. *)
Lemma Forall_sublist_of {A} (P : A -> Prop) (l1 l2 : list A) :
  l1 `sublist_of` l2 -> Forall P l2 -> Forall P l1.
Proof.
  induction 1 as [|x l1 l2 _ IH|x l1 l2 _ IH]; intros HF; [done| |];
    inversion HF; subst; auto.
Qed.

#[export] Hint Resolve Forall_sublist_of : clip.

(** ** Folding commuting actions

    Slots connected to one signal run in connection order; when every two
    of them commute, the order does not matter. *)
Section FoldComm.
Context {A B : Type} (f : A -> B -> A).

Lemma fold_left_perm_comm (l l' : list B) (a : A) :
  l ≡ₚ l' ->
  (forall x y b, x ∈ l -> y ∈ l -> f (f b x) y = f (f b y) x) ->
  fold_left f l a = fold_left f l' a.
Proof.
  intros Hp. revert a. induction Hp as [|x l l' Hp IH|x y l|l l' l'' Hp1 IH1 Hp2 IH2];
    intros a Hc; simpl.
  - done.
  - apply IH. intros u v b Hu Hv. apply Hc; by apply list_elem_of_further.
  - rewrite (Hc y x a); [done|apply list_elem_of_here|].
    apply list_elem_of_further, list_elem_of_here.
  - rewrite IH1 by done. apply IH2. intros u v b Hu Hv.
    apply Hc; rewrite Hp1; done.
Qed.
End FoldComm.
