(* ===== verification/QtString.v ===== *)
(** * QtString: the [QString] and [QChar] operations the program calls

    A [QString] is modelled as the list of its code units, restricted to
    the Latin-1 range (one [ascii] per unit, read as a code point below
    256).  In that range the Qt functions used by [ClipboardItem.cpp] and
    [ClipboardManager.cpp] are given exactly: [QChar::isSpace] (which,
    above 127, also holds for U+0085 and U+00A0), [QChar::toLower],
    [QString::trimmed], [simplified], [toLower], [contains], [left],
    [isEmpty] and the decimal rendering of [QString::arg(int)].  The
    character classes [\s] and [\w] of PCRE2, which [QRegularExpression]
    uses without Unicode properties, match ASCII characters only.

    Also here: the words of a string (module [Words]), the reference
    against which [simplified] is proved to join the words with single
    spaces, and [QString::arg] with a string argument (module [QArg]) on
    UTF-16 code units, for the templates of the list rows.  Theorems:
    [simplified_spec] and [trimmed_spec]. *)

From Stdlib Require Import DecimalString DecimalNat.
From S2P Require Import Prelude.

Abbreviation QString := (list ascii).

(** String literals of the source, as [QString]s. *)
Definition qstr (s : string) : QString := list_ascii_of_string s.

Module QChar.
Definition code (c : ascii) : nat := nat_of_ascii c.

(** [QChar::isSpace]: U+0009..U+000D, U+0020, U+0085, U+00A0. *)
Definition isSpace (c : ascii) : bool :=
  let n := code c in
  (n =? 32) || ((9 <=? n) && (n <=? 13)) || (n =? 133) || (n =? 160).

(** [QChar::toLower] on Latin-1: A-Z and U+00C0..U+00DE except U+00D7. *)
Definition isUpper (c : ascii) : bool :=
  let n := code c in
  ((65 <=? n) && (n <=? 90)) || ((192 <=? n) && (n <=? 222) && negb (n =? 215)).

Definition toLower (c : ascii) : ascii :=
  if isUpper c then ascii_of_nat (code c + 32) else c.

(** PCRE2 [\s] without [PCRE2_UCP]: space, \t, \n, \v, \f, \r. *)
Definition pcreSpace (c : ascii) : bool :=
  let n := code c in (n =? 32) || ((9 <=? n) && (n <=? 13)).

(** [a-zA-Z0-9]. *)
Definition isAsciiAlnum (c : ascii) : bool :=
  let n := code c in
  ((48 <=? n) && (n <=? 57)) || ((65 <=? n) && (n <=? 90)) || ((97 <=? n) && (n <=? 122)).

(** [QChar::isDigit] on Latin-1: the decimal digits 0-9 only. *)
Definition isDigit (c : ascii) : bool := (48 <=? code c) && (code c <=? 57).

(** PCRE2 [\w] without [PCRE2_UCP]: [a-zA-Z0-9_]. *)
Definition pcreWord (c : ascii) : bool := isAsciiAlnum c || (code c =? 95).

Lemma pcreSpace_isSpace c : pcreSpace c = true -> isSpace c = true.
Proof.
  unfold pcreSpace, isSpace. intros H. apply orb_prop in H as [H|H];
    rewrite H; rewrite ?orb_true_r; done.
Qed.
End QChar.

Module QStr.
Definition isEmpty (s : QString) : bool :=
  match s with [] => true | _ => false end.

Fixpoint dropWhile (p : ascii -> bool) (s : QString) : QString :=
  match s with
  | [] => []
  | c :: s' => if p c then dropWhile p s' else s
  end.

(** [QString::trimmed]: whitespace removed at both ends. *)
Definition trimmed (s : QString) : QString :=
  rev (dropWhile QChar.isSpace (rev (dropWhile QChar.isSpace s))).

(** [QString::simplified]: the loop of [QStringAlgorithms::simplified_helper]
    copies the non-space characters, writes one space before a word
    that follows a word, and drops leading and trailing whitespace.
    [started] says a word was already written, [pend] that whitespace
    was seen since. *)
Fixpoint simplify_from (started pend : bool) (s : QString) : QString :=
  match s with
  | [] => []
  | c :: s' =>
      if QChar.isSpace c then simplify_from started started s'
      else (if pend then [" "%char; c] else [c]) ++ simplify_from true false s'
  end.

Definition simplified (s : QString) : QString := simplify_from false false s.

Definition toLower (s : QString) : QString := map QChar.toLower s.

(** [QString::left(n)] for [n >= 0]: the whole string when [n] is past
    its end. *)
Definition left (n : nat) (s : QString) : QString := take n s.

Fixpoint isPrefix (p s : QString) : bool :=
  match p, s with
  | [], _ => true
  | a :: p', b :: s' => Ascii.eqb a b && isPrefix p' s'
  | _ :: _, [] => false
  end.

(** [QString::contains(needle)]: [indexOf(needle) != -1]; the empty
    needle is found at position 0. *)
Fixpoint contains (hay needle : QString) : bool :=
  isPrefix needle hay ||
  match hay with
  | [] => false
  | _ :: hay' => contains hay' needle
  end.

(** Decimal rendering of a non-negative [int], as [QString::arg(int)]. *)
Definition number (n : nat) : QString :=
  list_ascii_of_string (NilEmpty.string_of_uint (Nat.to_uint n)).
End QStr.

(** ** Reference definitions: the words of a string and their join

    [simplified] is characterised against a specification that does not
    follow the helper's loop: split the string at every whitespace
    character, keep the non-empty pieces (the words), and join them with
    one plain space. *)
Module Words.
Fixpoint splitBy (p : ascii -> bool) (s : QString) : list QString :=
  match s with
  | [] => [[]]
  | c :: s' =>
      if p c then [] :: splitBy p s'
      else match splitBy p s' with w :: ws => (c :: w) :: ws | [] => [[c]] end
  end.

Definition nonEmpty (w : QString) : bool := negb (QStr.isEmpty w).

Definition words (s : QString) : list QString :=
  List.filter nonEmpty (splitBy QChar.isSpace s).

Fixpoint joinSpace (ws : list QString) : QString :=
  match ws with
  | [] => []
  | [w] => w
  | w :: ws' => w ++ " "%char :: joinSpace ws'
  end.

(** A space and the join, unless there is nothing to join. *)
Definition spaceJoin (ws : list QString) : QString :=
  match ws with [] => [] | _ => " "%char :: joinSpace ws end.

(** A word: non-empty, without whitespace. *)
Definition isWord (w : QString) : Prop :=
  w <> [] /\ Forall (fun c => QChar.isSpace c = false) w.
End Words.

(** ** [QString::arg(const QString&)] on UTF-16 code units

    The rows of the list widgets are built with [QString::arg], whose
    templates contain U+2022 (a bullet) outside the Latin-1 range; these
    strings are lists of UTF-16 code units ([N]), and a Latin-1 string is
    widened unit by unit.  [arg] follows Qt 6's [findArgEscapes] and
    [replaceArgEscapes]: an escape is [%], an optional [L], and one or two
    ASCII digits ([qArgDigitValue]); a [%] not followed by one is plain
    text.  The escapes with the lowest number are all replaced by the
    argument, the others are left as they are; without any escape the
    string is returned unchanged (with a warning). *)
Module QArg.
Definition widen (s : QString) : list N := map (fun c => N.of_nat (nat_of_ascii c)) s.

Definition percent : N := 37.

(** The Latin-1 string holds a [%]. *)
Definition hasPercent (s : QString) : bool := existsb (Ascii.eqb "%") s.
Definition letterL : N := 76.
Definition lineFeed : N := 10.
Definition bullet : N := 8226.

(** [qArgDigitValue]. *)
Definition digitValue (u : N) : option N :=
  if (48 <=? u)%N && (u <=? 57)%N then Some (u - 48)%N else None.

(** The string cut into plain units and escapes, as [findArgEscapes]
    scans it; an escape keeps its text. *)
Inductive Piece := Lit (u : N) | Esc (n : N) (raw : list N).

Fixpoint pieces (s : list N) : list Piece :=
  match s with
  | [] => []
  | u :: s1 =>
      if (u =? percent)%N then
        match s1 with
        | [] => [Lit u]
        | c :: s2 =>
            if (c =? letterL)%N then
              match s2 with
              | [] => [Lit u; Lit c]
              | d :: s3 =>
                  match digitValue d with
                  | Some e =>
                      match s3 with
                      | f :: s4 =>
                          match digitValue f with
                          | Some e' => Esc (10 * e + e') [u; c; d; f] :: pieces s4
                          | None => Esc e [u; c; d] :: pieces s3
                          end
                      | [] => [Esc e [u; c; d]]
                      end
                  | None => Lit u :: Lit c :: pieces s2
                  end
              end
            else
              match digitValue c with
              | Some e =>
                  match s2 with
                  | f :: s3 =>
                      match digitValue f with
                      | Some e' => Esc (10 * e + e') [u; c; f] :: pieces s3
                      | None => Esc e [u; c] :: pieces s2
                      end
                  | [] => [Esc e [u; c]]
                  end
              | None => Lit u :: pieces s1
              end
        end
      else Lit u :: pieces s1
  end.

(** [d.min_escape], when [d.occurrences > 0]. *)
Fixpoint minEscape (ps : list Piece) : option N :=
  match ps with
  | [] => None
  | Lit _ :: ps' => minEscape ps'
  | Esc n _ :: ps' =>
      match minEscape ps' with Some m => Some (N.min n m) | None => Some n end
  end.

(** [replaceArgEscapes] with field width 0: every escape numbered [n]
    becomes [a], the rest is copied. *)
Fixpoint render (n : N) (a : list N) (ps : list Piece) : list N :=
  match ps with
  | [] => []
  | Lit u :: ps' => u :: render n a ps'
  | Esc m raw :: ps' => (if (m =? n)%N then a else raw) ++ render n a ps'
  end.

Definition arg (s a : list N) : list N :=
  let ps := pieces s in
  match minEscape ps with
  | Some n => render n a ps
  | None => s
  end.
End QArg.

(** ** Facts about the string operations *)

Lemma isPrefix_spec (p s : QString) :
  QStr.isPrefix p s = true <-> exists r, s = p ++ r.
Proof.
  revert s. induction p as [|a p IH]; intros [|b s]; simpl.
  - split; eauto.
  - split; eauto.
  - split; [done|]. intros [r Hr]; done.
  - rewrite andb_true_iff, Ascii.eqb_eq, IH. split.
    + intros [-> [r ->]]. eauto.
    + intros [r Hr]. injection Hr as -> ->. eauto.
Qed.

(** [contains] finds exactly the factors of the haystack. *)
Lemma contains_spec (hay needle : QString) :
  QStr.contains hay needle = true <-> exists u v, hay = u ++ needle ++ v.
Proof.
  induction hay as [|c hay IH]; simpl; rewrite orb_true_iff, isPrefix_spec.
  - split.
    + intros [[r Hr]|?]; [|done]. exists [], r. done.
    + intros (u & v & Huv). left. exists v.
      destruct u; [done|discriminate].
  - rewrite IH. split.
    + intros [[r Hr]|(u & v & ->)]; [exists [], r; done|].
      exists (c :: u), v. done.
    + intros (u & v & Huv). destruct u as [|d u].
      * left. exists v. done.
      * right. injection Huv as -> ->. eauto.
Qed.

Lemma contains_app_r (hay needle w : QString) :
  QStr.contains hay needle = true -> QStr.contains (hay ++ w) needle = true.
Proof.
  rewrite !contains_spec. intros (u & v & ->). exists u, (v ++ w).
  rewrite <- !app_assoc. done.
Qed.

Lemma contains_refl (s : QString) : QStr.contains s s = true.
Proof. apply contains_spec. exists [], []. rewrite app_nil_r. done. Qed.

Lemma length_toLower s : length (QStr.toLower s) = length s.
Proof. apply length_map. Qed.

Lemma length_left n s : length (QStr.left n s) = Nat.min n (length s).
Proof. apply length_take. Qed.

(** [simplified] writes no more than it reads. *)
Lemma length_simplify_from started pend s :
  length (QStr.simplify_from started pend s) <= length s + (if pend then 1 else 0).
Proof.
  revert started pend. induction s as [|c s IH]; intros started pend; simpl.
  - destruct pend; lia.
  - destruct (QChar.isSpace c).
    + specialize (IH started started). destruct started, pend; simpl in *; lia.
    + rewrite length_app. specialize (IH true false).
      destruct pend; simpl in *; lia.
Qed.

Lemma length_simplified s : length (QStr.simplified s) <= length s.
Proof.
  pose proof (length_simplify_from false false s) as H. cbn iota in H.
  unfold QStr.simplified. lia.
Qed.

(** The only whitespace [simplified] writes is a plain space, and it never
    writes one first. *)
Lemma simplify_from_no_lead started pend s c r :
  (pend = true -> started = true) ->
  QStr.simplify_from started pend s = c :: r -> QChar.isSpace c = true -> started = true.
Proof.
  revert started pend. induction s as [|d s IH]; intros started pend Hp; simpl; [done|].
  destruct (QChar.isSpace d) eqn:Hd.
  - intros H Hc. exact (IH _ _ (fun H => H) H Hc).
  - destruct pend; [auto|]. simpl. intros [= -> _]. congruence.
Qed.

Lemma simplified_no_leading_space s c r :
  QStr.simplified s = c :: r -> QChar.isSpace c = false.
Proof.
  intros H. destruct (QChar.isSpace c) eqn:E; [|done].
  exfalso. pose proof (simplify_from_no_lead _ _ _ _ _ (fun H => H) H E). done.
Qed.

(** Decimal rendering writes digits only. *)
Lemma number_digits n : Forall (fun c => QChar.isDigit c = true) (QStr.number n).
Proof.
  unfold QStr.number. generalize (Nat.to_uint n) as d.
  induction d; simpl; constructor; auto.
Qed.

(** Decimal rendering is injective: distinct numbers print differently. *)
Lemma number_inj n m : QStr.number n = QStr.number m -> n = m.
Proof.
  unfold QStr.number. intros H.
  apply (f_equal string_of_list_ascii) in H. rewrite !string_of_list_ascii_of_string in H.
  apply (f_equal NilEmpty.uint_of_string) in H. rewrite !NilEmpty.usu in H.
  injection H as H. rewrite <- (Unsigned.of_to n), <- (Unsigned.of_to m), H. done.
Qed.

(** ** [simplified] against the words specification *)

Lemma joinSpace_cons w ws : Words.joinSpace (w :: ws) = w ++ Words.spaceJoin ws.
Proof. destruct ws; simpl; [rewrite app_nil_r|]; done. Qed.

(** The three states of the helper's loop: before the first word, after
    whitespace that follows a word, inside a word. *)
Lemma simplify_from_words s :
  QStr.simplify_from false false s = Words.joinSpace (Words.words s) /\
  QStr.simplify_from true true s = Words.spaceJoin (Words.words s) /\
  QStr.simplify_from true false s =
    match Words.splitBy QChar.isSpace s with
    | w :: ws => w ++ Words.spaceJoin (List.filter Words.nonEmpty ws)
    | [] => []
    end.
Proof.
  unfold Words.words. induction s as [|c s (IH1 & IH2 & IH3)]; [done|].
  cbn [QStr.simplify_from Words.splitBy].
  destruct (QChar.isSpace c); cbn [List.filter Words.nonEmpty QStr.isEmpty negb].
  - rewrite IH2. done.
  - destruct (Words.splitBy QChar.isSpace s) as [|w ws];
      cbn [List.filter Words.nonEmpty QStr.isEmpty negb]; rewrite IH3;
      cbn [Words.spaceJoin app];
      rewrite ?joinSpace_cons; cbn [Words.spaceJoin app]; split_and!; done.
Qed.

Lemma simplified_words s : QStr.simplified s = Words.joinSpace (Words.words s).
Proof. apply simplify_from_words. Qed.

Lemma splitBy_pieces s :
  Forall (Forall (fun c => QChar.isSpace c = false)) (Words.splitBy QChar.isSpace s).
Proof.
  induction s as [|c s IH]; simpl; [repeat constructor|].
  destruct (QChar.isSpace c) eqn:Hc; [by constructor|].
  destruct (Words.splitBy QChar.isSpace s) as [|w ws]; [repeat constructor; done|].
  apply Forall_cons in IH as [Hw Hws]. by repeat constructor.
Qed.

Lemma words_isWord s : Forall Words.isWord (Words.words s).
Proof.
  unfold Words.words. induction (splitBy_pieces s) as [|w ws Hw _ IH]; simpl; [done|].
  destruct w as [|c w]; simpl; [done|]. constructor; [split|]; done.
Qed.

(** A space-free piece followed by whitespace is one piece of the split. *)
Lemma splitBy_word_sep w c r :
  Forall (fun c => QChar.isSpace c = false) w -> QChar.isSpace c = true ->
  Words.splitBy QChar.isSpace (w ++ c :: r) = w :: Words.splitBy QChar.isSpace r.
Proof.
  intros Hw Hc. induction Hw as [|d w Hd _ IH]; simpl; [by rewrite Hc|].
  by rewrite Hd, IH.
Qed.

Lemma splitBy_word w :
  Forall (fun c => QChar.isSpace c = false) w -> Words.splitBy QChar.isSpace w = [w].
Proof. induction 1 as [|d w Hd _ IH]; simpl; [done|]. by rewrite Hd, IH. Qed.

(** Joining words and splitting again gives the words back. *)
Lemma words_joinSpace ws : Forall Words.isWord ws -> Words.words (Words.joinSpace ws) = ws.
Proof.
  induction 1 as [|w ws [Hne Hw] Hws IH]; [done|].
  rewrite joinSpace_cons. destruct ws as [|w' ws'].
  - rewrite app_nil_r. unfold Words.words. rewrite splitBy_word by done.
    destruct w; [done|]. done.
  - unfold Words.spaceJoin. unfold Words.words in *.
    rewrite splitBy_word_sep by done. cbn [List.filter]. rewrite IH.
    destruct w; [done|]. done.
Qed.

(** [QString::simplified] returns the words of the string (the
    maximal runs of non-whitespace characters) joined by single plain
    spaces; it keeps the words, so applying it twice changes nothing. *)
Theorem simplified_spec s :
  QStr.simplified s = Words.joinSpace (Words.words s) /\
  Forall Words.isWord (Words.words s) /\
  Words.words (QStr.simplified s) = Words.words s /\
  QStr.simplified (QStr.simplified s) = QStr.simplified s.
Proof.
  assert (Hw : Words.words (QStr.simplified s) = Words.words s).
  { rewrite simplified_words. apply words_joinSpace, words_isWord. }
  split_and!; [apply simplified_words|apply words_isWord|exact Hw|].
  rewrite (simplified_words (QStr.simplified s)), Hw. symmetry. apply simplified_words.
Qed.

(** ** [trimmed] *)

Lemma dropWhile_prefix p s :
  exists l, s = l ++ QStr.dropWhile p s /\ Forall (fun c => p c = true) l.
Proof.
  induction s as [|c s (l & Hl & Hp)]; simpl; [by exists []|].
  destruct (p c) eqn:Hc; [|by exists []].
  exists (c :: l). rewrite Hl at 1. by split; [|constructor].
Qed.

Lemma dropWhile_head p s c r : QStr.dropWhile p s = c :: r -> p c = false.
Proof.
  induction s as [|d s IH]; simpl; [done|].
  destruct (p d) eqn:Hd; [exact IH|]. by intros [= <- _].
Qed.

(** [QString::trimmed] removes a run of whitespace at each end and
    nothing else: the input is the result between two runs of
    whitespace, and the result neither starts nor ends with whitespace. *)
Theorem trimmed_spec s :
  exists l r,
    s = l ++ QStr.trimmed s ++ r /\
    Forall (fun c => QChar.isSpace c = true) l /\
    Forall (fun c => QChar.isSpace c = true) r /\
    (forall c m, QStr.trimmed s = c :: m -> QChar.isSpace c = false) /\
    (forall c m, QStr.trimmed s = m ++ [c] -> QChar.isSpace c = false).
Proof.
  unfold QStr.trimmed.
  set (a := QStr.dropWhile QChar.isSpace s).
  destruct (dropWhile_prefix QChar.isSpace s) as (l & Hl & Hsl). fold a in Hl.
  set (b := QStr.dropWhile QChar.isSpace (rev a)).
  destruct (dropWhile_prefix QChar.isSpace (rev a)) as (l2 & Hl2 & Hs2). fold b in Hl2.
  assert (Ha : a = rev b ++ rev l2).
  { rewrite <- (rev_involutive a), Hl2, rev_app_distr. done. }
  exists l, (rev l2). split_and!.
  - rewrite Hl at 1. rewrite Ha. done.
  - exact Hsl.
  - by apply Forall_rev.
  - intros c m Hb. apply (dropWhile_head QChar.isSpace s c (m ++ rev l2)).
    fold a. rewrite Ha, Hb. done.
  - intros c m Hb. apply (dropWhile_head QChar.isSpace (rev a) c (rev m)).
    fold b. rewrite <- (rev_involutive b), Hb, rev_app_distr. done.
Qed.

(** ** [arg] *)

Lemma pieces_lits (s t : list N) :
  Forall (fun u => u <> QArg.percent) s ->
  QArg.pieces (s ++ t) = map QArg.Lit s ++ QArg.pieces t.
Proof.
  induction 1 as [|u s Hu _ IH]; [done|]. cbn [app QArg.pieces].
  rewrite (proj2 (N.eqb_neq _ _) Hu), IH. done.
Qed.

Lemma minEscape_lits (s : list N) ps :
  QArg.minEscape (map QArg.Lit s ++ ps) = QArg.minEscape ps.
Proof. induction s; done. Qed.

Lemma render_lits n a (s : list N) ps :
  QArg.render n a (map QArg.Lit s ++ ps) = s ++ QArg.render n a ps.
Proof. induction s as [|u s IH]; simpl; [done|]. by rewrite IH. Qed.

Lemma digitValue_widen c : QChar.isDigit c = false -> QArg.digitValue (N.of_nat (nat_of_ascii c)) = None.
Proof. destruct c as [[] [] [] [] [] [] [] []]; vm_compute; intros; congruence. Qed.

(** An escape of one digit at the front, not followed by a digit. *)
Lemma pieces_escape1 (u : N) e t :
  QArg.digitValue u = Some e ->
  match t with f :: _ => QArg.digitValue f = None | [] => True end ->
  QArg.pieces (QArg.percent :: u :: t) = QArg.Esc e [QArg.percent; u] :: QArg.pieces t.
Proof.
  intros Hu Ht. cbn [QArg.pieces]. rewrite N.eqb_refl.
  assert (Hl : (u =? QArg.letterL)%N = false).
  { apply N.eqb_neq. intros ->. discriminate. }
  rewrite Hl, Hu. destruct t as [|f t]; [done|]. rewrite Ht. done.
Qed.

(** A widened Latin-1 string has no [%] when the string has none. *)
Lemma widen_no_percent (s : QString) :
  QArg.hasPercent s = false -> Forall (fun u => u <> QArg.percent) (QArg.widen s).
Proof.
  induction s as [|c s IH]; cbn [QArg.hasPercent existsb]; intros Hs; [constructor|].
  apply orb_false_elim in Hs as [Hc Hs]. constructor; [|by apply IH].
  intros Hp. apply Ascii.eqb_neq in Hc. apply Hc.
  assert (Hn : nat_of_ascii c = 37) by (apply Nat2N.inj; exact Hp).
  rewrite <- (ascii_nat_embedding c), Hn. done.
Qed.

(** Plain text before the template passes through [arg]. *)
Lemma arg_lits_l (s t a : list N) :
  Forall (fun u => u <> QArg.percent) s -> QArg.arg (s ++ t) a = s ++ QArg.arg t a.
Proof.
  intros Hs. unfold QArg.arg. rewrite pieces_lits, minEscape_lits by done.
  destruct (QArg.minEscape (QArg.pieces t)); [apply render_lits|done].
Qed.

Lemma widen_app (s t : QString) : QArg.widen (s ++ t) = QArg.widen s ++ QArg.widen t.
Proof. apply map_app. Qed.

Lemma number_no_percent n : existsb (Ascii.eqb "%") (QStr.number n) = false.
Proof.
  apply not_true_iff_false. intros (c & Hc & He)%existsb_exists.
  apply Ascii.eqb_eq in He as <-.
  pose proof (proj1 (Forall_forall _ _) (number_digits n) "%"%char) as Hd.
  rewrite list_elem_of_In in Hd. specialize (Hd Hc). discriminate.
Qed.

Lemma number_widen_no_percent n :
  Forall (fun u => u <> QArg.percent) (QArg.widen (QStr.number n)).
Proof. apply widen_no_percent, number_no_percent. Qed.

(** Side conditions of [arg_lits_l]: a rendered number or a literal of
    the program holds no [%]. *)
Ltac no_percent :=
  first [ apply number_widen_no_percent
        | vm_compute; repeat constructor; discriminate ].
