(* ===== verification/Patterns.v ===== *)
(** * Patterns: the three regular expressions of [ClipboardItem::determineType]

    Each regular expression of [ClipboardItem.cpp] (lines 90, 97 and 104)
    is given by an executable recogniser that follows the PCRE2 semantics
    that [QRegularExpression] uses with its default options:
    - [^] matches at the start of the subject only, and [$] at the end or
      before a final newline;
    - [\s] and [\w] are the ASCII classes of [QtString.QChar];
    - [\b] holds between a [\w] character and a non-[\w] character or an
      end of the subject;
    - an unanchored pattern is searched at every start position.
    [urlMatch] and [fileMatch] are applied by the code to the trimmed text
    and [codeMatch] to the whole text. *)

From S2P Require Import Prelude QtString.

Module Patterns.
Definition newline : ascii := ascii_of_nat 10.
Definition tab : ascii := ascii_of_nat 9.

(** The rest of the subject after a literal prefix, when it has it. *)
Fixpoint afterPrefix (p s : QString) : option QString :=
  match p, s with
  | [], _ => Some s
  | a :: p', b :: s' => if Ascii.eqb a b then afterPrefix p' s' else None
  | _ :: _, [] => None
  end.

(** [X$]: [X] matches the rest, or the rest less a final newline. *)
Definition dollar (p : QString -> bool) (r : QString) : bool :=
  p r ||
  match rev r with
  | c :: x => Ascii.eqb c newline && p (rev x)
  | [] => false
  end.

(** ** [^https?://[^\s]+$] *)

(** [[^\s]+]: a non-empty run of non-space characters. *)
Definition nonSpacePlus (x : QString) : bool :=
  negb (QStr.isEmpty x) && forallb (fun c => negb (QChar.pcreSpace c)) x.

Definition urlAfterScheme (r : QString) : bool := dollar nonSpacePlus r.

(** [s?] is greedy; after ["http"] the next character decides. *)
Definition urlMatch (s : QString) : bool :=
  match afterPrefix (qstr "https://") s with
  | Some r => urlAfterScheme r
  | None => false
  end ||
  match afterPrefix (qstr "http://") s with
  | Some r => urlAfterScheme r
  | None => false
  end.

(** ** [\b(function|class|...|return)\b|[{}();]|\s{4,}|\t] *)

Definition keywords : list QString :=
  map qstr ["function"; "class"; "import"; "export"; "const"; "let"; "var";
            "if"; "else"; "for"; "while"; "return"]%string.

(** [\b] before a word character: the previous character is not [\w]. *)
Definition boundaryBefore (prev : option ascii) : bool :=
  match prev with
  | None => true
  | Some c => negb (QChar.pcreWord c)
  end.

(** [\b] after a word character: the next character is not [\w]. *)
Definition boundaryAfter (rest : QString) : bool :=
  match rest with
  | [] => true
  | c :: _ => negb (QChar.pcreWord c)
  end.

Definition keywordAt (prev : option ascii) (s : QString) : bool :=
  boundaryBefore prev &&
  existsb (fun kw => match afterPrefix kw s with
                     | Some r => boundaryAfter r
                     | None => false
                     end) keywords.

(** [[{}();]] *)
Definition isCodePunct (c : ascii) : bool :=
  existsb (Ascii.eqb c) (qstr "{}();").

(** [\s{4,}] matches where four [\s] characters start. *)
Definition spaces4At (s : QString) : bool :=
  match s with
  | a :: b :: c :: d :: _ =>
      QChar.pcreSpace a && QChar.pcreSpace b && QChar.pcreSpace c && QChar.pcreSpace d
  | _ => false
  end.

(** One of the four alternatives matches at this position. *)
Definition codeAt (prev : option ascii) (s : QString) : bool :=
  keywordAt prev s ||
  match s with
  | c :: _ => isCodePunct c || Ascii.eqb c tab
  | [] => false
  end ||
  spaces4At s.

(** The search tries every start position, remembering the character
    before it for [\b]. *)
Fixpoint codeSearch (prev : option ascii) (s : QString) : bool :=
  codeAt prev s ||
  match s with
  | [] => false
  | c :: s' => codeSearch (Some c) s'
  end.

Definition codeMatch (s : QString) : bool := codeSearch None s.

(** ** [^[/\\]?([^/\\]+[/\\])*[^/\\]+\.[a-zA-Z0-9]+$] *)

Definition isSep (c : ascii) : bool :=
  Ascii.eqb c "/"%char || Ascii.eqb c "\"%char.

(** The segments between separators: [splitSeps "a/b/"] is
    [["a"; "b"; ""]]. *)
Fixpoint splitSeps (s : QString) : list QString :=
  match s with
  | [] => [[]]
  | c :: s' =>
      let segs := splitSeps s' in
      if isSep c then [] :: segs
      else match segs with
           | seg :: rest => (c :: seg) :: rest
           | [] => [[c]]
           end
  end.

Fixpoint spanAlnum (r : QString) : QString * QString :=
  match r with
  | c :: r' =>
      if QChar.isAsciiAlnum c then let '(a, b) := spanAlnum r' in (c :: a, b)
      else ([], r)
  | [] => ([], [])
  end.

(** [[^/\\]+\.[a-zA-Z0-9]+] on a segment without separators: the
    extension is the longest alphanumeric suffix, and it is non-empty,
    preceded by a dot that is not the first character. *)
Definition extensionOk (seg : QString) : bool :=
  let '(ext, rest) := spanAlnum (rev seg) in
  negb (QStr.isEmpty ext) &&
  match rest with
  | d :: stem => Ascii.eqb d "."%char && negb (QStr.isEmpty stem)
  | [] => false
  end.

Definition fileMatch (s : QString) : bool :=
  let body := match s with
              | c :: s' => if isSep c then s' else s
              | [] => []
              end in
  let segs := splitSeps body in
  forallb (fun seg => negb (QStr.isEmpty seg)) (removelast segs) &&
  dollar extensionOk (List.last segs []).

(** ** Facts about the recognisers *)

Lemma afterPrefix_app p s r : afterPrefix p s = Some r -> s = p ++ r.
Proof.
  revert s. induction p as [|a p IH]; intros [|b s]; simpl; try congruence.
  destruct (Ascii.eqb_spec a b) as [->|]; [|done]. intros H. by rewrite (IH s H).
Qed.

(** [urlMatch] accepts only subjects that start with [http://] or
    [https://]. *)
Lemma urlMatch_scheme s :
  urlMatch s = true -> exists r, s = qstr "https://" ++ r \/ s = qstr "http://" ++ r.
Proof.
  unfold urlMatch. rewrite orb_true_iff.
  intros [H|H]; [destruct (afterPrefix (qstr "https://") s) eqn:E
                |destruct (afterPrefix (qstr "http://") s) eqn:E]; try done;
    apply afterPrefix_app in E; eauto.
Qed.

Lemma splitSeps_single s : forallb (fun c => negb (isSep c)) s = true -> splitSeps s = [s].
Proof.
  induction s as [|c s IH]; simpl; [done|]. rewrite andb_true_iff, negb_true_iff.
  intros [-> Hs]. by rewrite IH.
Qed.

Lemma spanAlnum_stop a c r :
  forallb QChar.isAsciiAlnum a = true -> QChar.isAsciiAlnum c = false ->
  spanAlnum (a ++ c :: r) = (a, c :: r).
Proof.
  intros Ha Hc. induction a as [|x a IH]; simpl in *; [by rewrite Hc|].
  apply andb_true_iff in Ha as [-> Ha]. by rewrite IH.
Qed.
End Patterns.
