(* ===== verification/Regex.v ===== *)
(** * Regex: the regular expressions of [QRegularExpression], as PCRE2 reads them

    The reference semantics for the three patterns of
    [ClipboardItem::determineType].  A regular expression is built from
    the constructs those patterns use: character classes, concatenation,
    alternation, the Kleene star, [^], [$] and [\b]; literals, [?], [+]
    and [{n,}] are derived forms.  A position in the subject is the pair
    of the characters before it (reversed, nearest first) and the rest of
    the subject, so that [^], [$] and [\b] see the context they need.

    [Matches r p p'] holds when [r] can match from [p] to [p'].  The
    anchors follow PCRE2 with its default options, as [QRegularExpression]
    sets them: [^] only at the start of the subject, [$] at its end or
    before a newline that ends it, [\b] between a [\w] and a non-[\w]
    character (the ends of the subject count as non-[\w]).
    [QRegularExpression::match] searches every start position;
    [hasMatch r s] holds when some start position has a match.  Whether a
    match exists does not depend on PCRE2's backtracking order, which
    only decides which match is reported. *)

From S2P Require Import Prelude QtString.

Module Regex.
Inductive regex :=
  | Eps
  | Class (f : ascii -> bool)
  | Seq (r1 r2 : regex)
  | Alt (r1 r2 : regex)
  | Star (r : regex)
  | Bol
  | Eol
  | WordB.

(** The characters before the position, nearest first, and the rest. *)
Abbreviation Pos := (list ascii * QString)%type.

Definition newline : ascii := ascii_of_nat 10.

Definition wordBefore (b : list ascii) : bool :=
  match b with c :: _ => QChar.pcreWord c | [] => false end.

Definition wordAfter (x : QString) : bool :=
  match x with c :: _ => QChar.pcreWord c | [] => false end.

Inductive Matches : regex -> Pos -> Pos -> Prop :=
  | m_eps p : Matches Eps p p
  | m_class (f : ascii -> bool) b c x :
      f c = true -> Matches (Class f) (b, c :: x) (c :: b, x)
  | m_seq r1 r2 p1 p2 p3 :
      Matches r1 p1 p2 -> Matches r2 p2 p3 -> Matches (Seq r1 r2) p1 p3
  | m_alt_l r1 r2 p p' : Matches r1 p p' -> Matches (Alt r1 r2) p p'
  | m_alt_r r1 r2 p p' : Matches r2 p p' -> Matches (Alt r1 r2) p p'
  | m_star_nil r p : Matches (Star r) p p
  | m_star_cons r p1 p2 p3 :
      Matches r p1 p2 -> Matches (Star r) p2 p3 -> Matches (Star r) p1 p3
  | m_bol x : Matches Bol ([], x) ([], x)
  | m_eol_end b : Matches Eol (b, []) (b, [])
  | m_eol_nl b : Matches Eol (b, [newline]) (b, [newline])
  | m_wordb b x : wordBefore b <> wordAfter x -> Matches WordB (b, x) (b, x).

(** ** Derived forms *)

Definition Chr (c : ascii) : regex := Class (fun d => Ascii.eqb d c).

(** A literal. *)
Fixpoint Str (w : QString) : regex :=
  match w with
  | [] => Eps
  | c :: w' => Seq (Chr c) (Str w')
  end.

(** [r?], [r+], and [r1|...|rn] for [n >= 1]. *)
Definition Opt (r : regex) : regex := Alt r Eps.
Definition Plus (r : regex) : regex := Seq r (Star r).

Fixpoint Alts (rs : list regex) : regex :=
  match rs with
  | [] => Class (fun _ => false)
  | [r] => r
  | r :: rs' => Alt r (Alts rs')
  end.

(** [QRegularExpression::match(s).hasMatch()]. *)
Definition hasMatch (r : regex) (s : QString) : Prop :=
  exists i p', i <= length s /\ Matches r (rev (take i s), drop i s) p'.

(** ** The semantics of each construct *)

(** A match consumes a prefix of the rest and moves it before the position. *)
Lemma matches_consumes r p p' :
  Matches r p p' -> exists w, p.2 = w ++ p'.2 /\ p'.1 = rev w ++ p.1.
Proof.
  induction 1; simpl.
  - exists []. done.
  - exists [c]. done.
  - destruct IHMatches1 as (w1 & H1 & H1'), IHMatches2 as (w2 & H2 & H2').
    exists (w1 ++ w2). rewrite H1, H2, H2', H1', rev_app_distr, !app_assoc. done.
  - done.
  - done.
  - exists []. done.
  - destruct IHMatches1 as (w1 & H1 & H1'), IHMatches2 as (w2 & H2 & H2').
    exists (w1 ++ w2). rewrite H1, H2, H2', H1', rev_app_distr, !app_assoc. done.
  - exists []. done.
  - exists []. done.
  - exists []. done.
  - exists []. done.
Qed.

Lemma Eps_iff p p' : Matches Eps p p' <-> p' = p.
Proof. split; [inversion 1; done|intros ->; constructor]. Qed.

Lemma Class_iff f b x p' :
  Matches (Class f) (b, x) p' <-> exists c x', x = c :: x' /\ f c = true /\ p' = (c :: b, x').
Proof.
  split.
  - inversion 1; subst. eauto.
  - intros (c & x' & -> & Hf & ->). constructor. done.
Qed.

Lemma Seq_iff r1 r2 p p'' :
  Matches (Seq r1 r2) p p'' <-> exists p', Matches r1 p p' /\ Matches r2 p' p''.
Proof.
  split.
  - inversion 1; subst. eauto.
  - intros (p' & H1 & H2). econstructor; eauto.
Qed.

Lemma Alt_iff r1 r2 p p' :
  Matches (Alt r1 r2) p p' <-> Matches r1 p p' \/ Matches r2 p p'.
Proof.
  split.
  - inversion 1; subst; auto.
  - intros [H|H]; [apply m_alt_l|apply m_alt_r]; done.
Qed.

Lemma Opt_iff r p p' : Matches (Opt r) p p' <-> Matches r p p' \/ p' = p.
Proof. unfold Opt. rewrite Alt_iff, Eps_iff. done. Qed.

Lemma Bol_iff b x p' : Matches Bol (b, x) p' <-> b = [] /\ p' = (b, x).
Proof.
  split.
  - inversion 1; subst. done.
  - intros [-> ->]. constructor.
Qed.

Lemma Eol_iff b x p' : Matches Eol (b, x) p' <-> (x = [] \/ x = [newline]) /\ p' = (b, x).
Proof.
  split.
  - inversion 1; subst; auto.
  - intros [[-> | ->] ->]; constructor.
Qed.

Lemma WordB_iff b x p' :
  Matches WordB (b, x) p' <-> wordBefore b <> wordAfter x /\ p' = (b, x).
Proof.
  split.
  - inversion 1; subst. done.
  - intros [H ->]. constructor. done.
Qed.

Lemma Chr_iff c b x p' :
  Matches (Chr c) (b, x) p' <-> exists x', x = c :: x' /\ p' = (c :: b, x').
Proof.
  unfold Chr. rewrite Class_iff. split.
  - intros (d & x' & -> & Hd & ->). apply Ascii.eqb_eq in Hd as ->. eauto.
  - intros (x' & -> & ->). exists c, x'. rewrite Ascii.eqb_refl. done.
Qed.

Lemma Str_iff w b x p' :
  Matches (Str w) (b, x) p' <-> exists x', x = w ++ x' /\ p' = (rev w ++ b, x').
Proof.
  revert b x p'. induction w as [|c w IH]; intros b x p'; simpl.
  - rewrite Eps_iff. split; [intros ->; eauto|intros (x' & -> & ->); done].
  - rewrite Seq_iff. split.
    + intros ([b1 x1] & H1 & H2). apply Chr_iff in H1 as (x1' & -> & Hp). simplify_eq.
      apply IH in H2 as (x' & -> & ->). exists x'. rewrite <- app_assoc. done.
    + intros (x' & -> & ->). exists (c :: b, w ++ x'). split; [apply Chr_iff; eauto|].
      apply IH. exists x'. rewrite <- app_assoc. done.
Qed.

Lemma Alts_iff rs p p' :
  rs <> [] -> Matches (Alts rs) p p' <-> Exists (fun r => Matches r p p') rs.
Proof.
  intros Hne. induction rs as [|r rs IH]; [done|].
  destruct rs as [|r' rs].
  - simpl. rewrite Exists_cons, Exists_nil. tauto.
  - change (Alts (r :: r' :: rs)) with (Alt r (Alts (r' :: rs))).
    rewrite Alt_iff, Exists_cons, IH by done. done.
Qed.

Lemma Star_class_iff f b x p' :
  Matches (Star (Class f)) (b, x) p' <->
  exists w x', x = w ++ x' /\ Forall (fun c => f c = true) w /\ p' = (rev w ++ b, x').
Proof.
  split.
  - intros H. remember (Star (Class f)) as r eqn:Er. remember (b, x) as p eqn:Ep.
    revert b x Ep. induction H; intros b0 x0 Ep; simplify_eq.
    + exists [], x0. done.
    + apply Class_iff in H as (c & x1 & -> & Hc & ->).
      destruct (IHMatches2 eq_refl _ _ eq_refl) as (w & x' & -> & Hw & ->).
      exists (c :: w), x'. split; [done|]. split; [constructor; done|].
      simpl. rewrite <- app_assoc. done.
  - intros (w & x' & -> & Hw & ->). revert b. induction Hw as [|c w Hc Hw IH]; intros b.
    + constructor.
    + eapply m_star_cons; [constructor; done|].
      replace (rev (c :: w) ++ b) with (rev w ++ c :: b) by (simpl; rewrite <- app_assoc; done).
      apply IH.
Qed.

Lemma Plus_class_iff f b x p' :
  Matches (Plus (Class f)) (b, x) p' <->
  exists w x', w <> [] /\ x = w ++ x' /\ Forall (fun c => f c = true) w /\ p' = (rev w ++ b, x').
Proof.
  unfold Plus. rewrite Seq_iff. split.
  - intros (p1 & H1 & H2). apply Class_iff in H1 as (c & x1 & -> & Hc & ->).
    apply Star_class_iff in H2 as (w & x' & -> & Hw & ->).
    exists (c :: w), x'. split; [done|]. split; [done|]. split; [constructor; done|].
    simpl. rewrite <- app_assoc. done.
  - intros ([|c w] & x' & Hne & -> & Hw & ->); [done|]. apply Forall_cons in Hw as [Hc Hw].
    exists (c :: b, w ++ x'). split; [apply Class_iff; eauto|].
    apply Star_class_iff. exists w, x'. split; [done|]. split; [done|].
    simpl. rewrite <- app_assoc. done.
Qed.

(** The search of [hasMatch], from any position: a match starts after
    some prefix of the rest. *)
Lemma hasMatch_iff r s :
  hasMatch r s <-> exists w x p', s = w ++ x /\ Matches r (rev w, x) p'.
Proof.
  split.
  - intros (i & p' & Hi & H). exists (take i s), (drop i s), p'. rewrite take_drop. done.
  - intros (w & x & p' & -> & H). exists (length w), p'.
    rewrite length_app, take_app_length, drop_app_length. split; [lia|done].
Qed.


Lemma Star_iff r p p'' :
  Matches (Star r) p p'' <-> p'' = p \/ exists p1, Matches r p p1 /\ Matches (Star r) p1 p''.
Proof.
  split.
  - inversion 1; subst; eauto.
  - intros [->|(p1 & H1 & H2)]; [apply m_star_nil|eapply m_star_cons; eauto].
Qed.

(** A literal followed by more. *)
Lemma Seq_Str_iff w r b x p' :
  Matches (Seq (Str w) r) (b, x) p' <-> exists x', x = w ++ x' /\ Matches r (rev w ++ b, x') p'.
Proof.
  rewrite Seq_iff. split.
  - intros (p1 & H1 & H2). apply Str_iff in H1 as (x' & -> & ->). eauto.
  - intros (x' & -> & H). exists (rev w ++ b, x'). split; [apply Str_iff; eauto|done].
Qed.

Lemma Seq_Opt_iff r1 r2 p p' :
  Matches (Seq (Opt r1) r2) p p' <-> Matches (Seq r1 r2) p p' \/ Matches r2 p p'.
Proof.
  rewrite !Seq_iff. split.
  - intros (p1 & H1 & H2). apply Opt_iff in H1 as [H1| ->]; eauto.
  - intros [(p1 & H1 & H2)|H]; [exists p1|exists p]; rewrite Opt_iff; auto.
Qed.

Lemma Seq_Class_iff f r b x p' :
  Matches (Seq (Class f) r) (b, x) p' <->
  exists c x', x = c :: x' /\ f c = true /\ Matches r (c :: b, x') p'.
Proof.
  rewrite Seq_iff. split.
  - intros (p1 & H1 & H2). apply Class_iff in H1 as (c & x' & -> & Hc & ->). eauto.
  - intros (c & x' & -> & Hc & H). exists (c :: b, x'). split; [apply Class_iff; eauto|done].
Qed.


Lemma Seq_Chr_iff c r b x p' :
  Matches (Seq (Chr c) r) (b, x) p' <-> exists x', x = c :: x' /\ Matches r (c :: b, x') p'.
Proof.
  unfold Chr. rewrite Seq_Class_iff. split.
  - intros (d & x' & -> & Hd & H). apply Ascii.eqb_eq in Hd as ->. eauto.
  - intros (x' & -> & H). exists c, x'. rewrite Ascii.eqb_refl. done.
Qed.

(** A pattern that starts with [^] matches only from the start. *)
Lemma anchored_iff r s : hasMatch (Seq Bol r) s <-> exists p', Matches r ([], s) p'.
Proof.
  rewrite hasMatch_iff. split.
  - intros (w & x & p' & -> & (p1 & H1 & H2)%Seq_iff). apply Bol_iff in H1 as [Hw ->].
    destruct w as [|c w]; [eauto|]. simpl in Hw. destruct (rev w); discriminate.
  - intros (p' & H). exists [], s, p'. split; [done|]. apply Seq_iff.
    exists ([], s). split; [apply Bol_iff|]; done.
Qed.
End Regex.
