(* ===== verification/ClipboardItem.v ===== *)
(** * ClipboardItem: classification of a clipboard snapshot

    Models [src/src/ClipboardItem.h] and [ClipboardItem.cpp]: the item
    type, the snapshot read from [QMimeData], both constructors with
    [determineType], [generatePreview], [truncateText] and [loadIcon],
    [typeString], [operator==], [formattedTimestamp] and what
    [copyToClipboard] writes back.  The time stamp
    [QDateTime::currentDateTime()] is an argument [now] (in seconds).

    Theorems: the spec's classification examples, determinism of the
    classification, the priority order of the constructor, the preview
    bounds, the equality of image items, and the write-back of an item. *)

From S2P Require Import Prelude QtString Patterns.

Module Item.
(** [enum ItemType]. *)
Inductive ItemType := Text | Image | Html | Url | File | Code.

#[export] Instance ItemType_eq_dec : EqDecision ItemType.
Proof. solve_decision. Defined.

(** A [QPixmap]: [None] is the null pixmap (zero width and height). *)
Record Raster := mkRaster { r_width : nat; r_height : nat; r_pixels : list N }.
Definition Pixmap := option Raster.

Definition width (p : Pixmap) : nat := match p with Some r => r_width r | None => 0 end.
Definition height (p : Pixmap) : nat := match p with Some r => r_height r | None => 0 end.
Definition isNull (p : Pixmap) : bool := match p with None => true | Some _ => false end.

(** A [QMimeData] snapshot: [hasImage], [hasHtml] and [hasText] are the
    presence of each field; [md_image] is [qvariant_cast<QPixmap>] of
    [imageData()], null when the conversion fails. *)
Record MimeData := mkMime {
  md_image : option Pixmap;
  md_html : option QString;
  md_text : option QString
}.

(** [QStyle::StandardPixmap] values used by [loadIcon]. *)
Inductive StandardPixmap :=
  SP_FileDialogDetailView | SP_ComputerIcon | SP_DriveNetIcon | SP_FileIcon.

Record ClipboardItem := mkItem {
  m_text : QString;
  m_preview : QString;
  m_type : ItemType;
  m_timestamp : Z;
  m_icon : StandardPixmap;
  m_image : Pixmap
}.

(** [typeString]. *)
Definition typeString (t : ItemType) : QString :=
  qstr match t with
       | Text => "Text" | Image => "Image" | Html => "HTML"
       | Url => "URL" | File => "File" | Code => "Code"
       end.

(** [determineType]: URL on the trimmed text, then code (the regular
    expression or a triple backtick) on the whole text, then file path
    on the trimmed text, else [Text]. *)
Definition determineType (text : QString) : ItemType :=
  if Patterns.urlMatch (QStr.trimmed text) then Url
  else if Patterns.codeMatch text || QStr.contains text (qstr "```") then Code
  else if Patterns.fileMatch (QStr.trimmed text) then File
  else Text.

(** [QString("Image (%1x%2)").arg(width).arg(height)]. *)
Definition imageDescriptor (p : Pixmap) : QString :=
  qstr "Image (" ++ QStr.number (width p) ++ qstr "x" ++
  QStr.number (height p) ++ qstr ")".

(** [truncateText(text, maxLength)]. *)
Definition truncateText (text : QString) (maxLength : nat) : QString :=
  if length text <=? maxLength then text
  else QStr.left maxLength text ++ qstr "...".

(** [generatePreview], with the default [maxLength] of 100. *)
Definition generatePreview (ty : ItemType) (img : Pixmap) (text : QString) : QString :=
  if decide (ty = Image) then imageDescriptor img
  else truncateText (QStr.simplified text) 100.

(** [loadIcon]. *)
Definition loadIcon (ty : ItemType) : StandardPixmap :=
  match ty with
  | Text | Image | Code => SP_FileDialogDetailView
  | Html => SP_ComputerIcon
  | Url => SP_DriveNetIcon
  | File => SP_FileIcon
  end.

(** The three fields the constructor body sets, in its branch order. *)
Definition classifyMime (md : MimeData) : Pixmap * ItemType * QString :=
  match md_image md with
  | Some pm => (pm, Image, imageDescriptor pm)
  | None =>
      match md_html md with
      | Some h => (None, Html, h)
      | None =>
          match md_text md with
          | Some t => (None, determineType t, t)
          | None => (None, Text, qstr "Unknown format")
          end
      end
  end.

(** [ClipboardItem(const QMimeData* )]. *)
Definition fromMimeData (md : MimeData) (now : Z) : ClipboardItem :=
  let '(img, ty, text) := classifyMime md in
  mkItem text (generatePreview ty img text) ty now (loadIcon ty) img.

(** [ClipboardItem(const QString& text, ItemType type = Text)]. *)
Definition fromText (text : QString) (type : ItemType) (now : Z) : ClipboardItem :=
  let ty := if decide (type = Text) then determineType text else type in
  mkItem text (generatePreview ty None text) ty now (loadIcon ty) None.

(** [operator==]: same text and same type. *)
Definition item_eqb (a b : ClipboardItem) : bool :=
  bool_decide (m_text a = m_text b) && bool_decide (m_type a = m_type b).

(** [formattedTimestamp]: the label, before it is rendered. *)
Inductive TimeLabel :=
  | JustNow
  | MinutesAgo (minutes : Z)
  | HoursAgo (hours : Z)
  | AbsoluteDate (timestamp : Z).

Definition formattedTimestamp (timestamp now : Z) : TimeLabel :=
  let secondsAgo := (now - timestamp)%Z in
  if (secondsAgo <? 60)%Z then JustNow
  else if (secondsAgo <? 3600)%Z then MinutesAgo (Z.quot secondsAgo 60)
  else if (secondsAgo <? 86400)%Z then HoursAgo (Z.quot secondsAgo 3600)
  else AbsoluteDate timestamp.

(** What [copyToClipboard] hands to [QClipboard]: [setPixmap] for a
    non-null image, [setText] otherwise. *)
Inductive ClipboardWrite := SetPixmap (p : Pixmap) | SetText (t : QString).

Definition copyToClipboard (it : ClipboardItem) : ClipboardWrite :=
  if bool_decide (m_type it = Image) && negb (isNull (m_image it))
  then SetPixmap (m_image it) else SetText (m_text it).

(** The clipboard's [QMimeData] after the write. *)
Definition mimeOfWrite (w : ClipboardWrite) : MimeData :=
  match w with
  | SetPixmap p => mkMime (Some p) None None
  | SetText t => mkMime None None (Some t)
  end.

(** The label as [formattedTimestamp] renders it; the absolute date
    format is left to a function of the time stamp. *)
Definition pluralSuffix (n : Z) : QString := if (n =? 1)%Z then [] else qstr "s".

Definition renderTimeLabel (dateString : Z -> QString) (l : TimeLabel) : QString :=
  match l with
  | JustNow => qstr "Just now"
  | MinutesAgo m => QStr.number (Z.to_nat m) ++ qstr " minute" ++ pluralSuffix m ++ qstr " ago"
  | HoursAgo h => QStr.number (Z.to_nat h) ++ qstr " hour" ++ pluralSuffix h ++ qstr " ago"
  | AbsoluteDate ts => dateString ts
  end.

(** The type invariant of an item the constructors build: the preview
    and the icon are those of its type, an image item's text is its
    dimension descriptor, only image items carry a pixmap, and a text
    item's type is what [determineType] gives for its text. *)
Definition wellTyped (it : ClipboardItem) : Prop :=
  m_preview it = generatePreview (m_type it) (m_image it) (m_text it) /\
  m_icon it = loadIcon (m_type it) /\
  (m_type it = Image -> m_text it = imageDescriptor (m_image it)) /\
  (m_type it <> Image -> m_image it = None) /\
  (m_type it = Image \/ m_type it = Html \/ m_type it = determineType (m_text it)).

(** ** Helper lemmas *)

(** The item built from a snapshot has an empty text exactly when the
    snapshot has no image and an empty HTML string, or no HTML and an
    empty text. *)
Lemma fromMimeData_text_empty md now :
  QStr.isEmpty (m_text (fromMimeData md now)) = true <->
  md_image md = None /\ (md_html md = Some [] \/ (md_html md = None /\ md_text md = Some [])).
Proof.
  unfold fromMimeData, classifyMime.
  destruct md as [[p|] [[|c h]|] [[|d t]|]]; cbn; unfold imageDescriptor; intuition congruence.
Qed.

(** An HTML item is written back as its text. *)
Lemma copyToClipboard_html it : m_type it = Html -> copyToClipboard it = SetText (m_text it).
Proof. intros H. unfold copyToClipboard. by rewrite H. Qed.

Lemma determineType_text_kinds t :
  determineType t <> Image /\ determineType t <> Html.
Proof. unfold determineType. repeat case_if; split; done. Qed.

(** A run of digits followed by ["x"] is split in one way only. *)
Lemma digits_x_cancel (a c r1 r2 : QString) :
  Forall (fun ch => QChar.isDigit ch = true) a -> Forall (fun ch => QChar.isDigit ch = true) c ->
  a ++ "x"%char :: r1 = c ++ "x"%char :: r2 -> a = c /\ r1 = r2.
Proof.
  revert c. induction a as [|x a IH]; intros [|y c] Ha Hc; simpl.
  - intros [= ->]. done.
  - intros [= <- _]. inversion Hc; subst. done.
  - intros [= -> _]. inversion Ha; subst. done.
  - intros [= -> H]. inversion Ha; inversion Hc; subst.
    destruct (IH c) as [-> ->]; done.
Qed.

Lemma imageDescriptor_inj p q :
  imageDescriptor p = imageDescriptor q -> width p = width q /\ height p = height q.
Proof.
  unfold imageDescriptor. intros H. apply app_inv_head in H.
  destruct (digits_x_cancel _ _ _ _ (number_digits (width p)) (number_digits (width q)) H)
    as [Hw Hh].
  apply app_inv_tail in Hh. split; apply number_inj; done.
Qed.

Lemma item_eqb_iff a b :
  item_eqb a b = true <-> m_text a = m_text b /\ m_type a = m_type b.
Proof. unfold item_eqb. rewrite andb_true_iff, !bool_decide_eq_true. done. Qed.

(** [imageDescriptor] is what [QString("Image (%1x%2)").arg(w).arg(h)]
    builds. *)
Lemma imageDescriptor_arg p :
  QArg.widen (imageDescriptor p) =
  QArg.arg (QArg.arg (QArg.widen (qstr "Image (%1x%2)")) (QArg.widen (QStr.number (width p))))
           (QArg.widen (QStr.number (height p))).
Proof.
  set (w := QArg.widen (QStr.number (width p))). set (h := QArg.widen (QStr.number (height p))).
  change (QArg.arg (QArg.widen (qstr "Image (%1x%2)")) w)
    with (QArg.widen (qstr "Image (") ++ w ++ QArg.widen (qstr "x%2)")).
  rewrite !arg_lits_l by no_percent.
  change (QArg.arg (QArg.widen (qstr "x%2)")) h) with (QArg.widen (qstr "x") ++ h ++ QArg.widen (qstr ")")).
  unfold imageDescriptor. rewrite !widen_app. reflexivity.
Qed.

(** The relative labels are what [QString("%1 minute%2 ago")] and
    [QString("%1 hour%2 ago")] give with [.arg(n).arg(n == 1 ? "" : "s")]. *)
Lemma renderTimeLabel_arg dateString m :
  QArg.widen (renderTimeLabel dateString (MinutesAgo m)) =
  QArg.arg (QArg.arg (QArg.widen (qstr "%1 minute%2 ago")) (QArg.widen (QStr.number (Z.to_nat m))))
           (QArg.widen (pluralSuffix m)) /\
  QArg.widen (renderTimeLabel dateString (HoursAgo m)) =
  QArg.arg (QArg.arg (QArg.widen (qstr "%1 hour%2 ago")) (QArg.widen (QStr.number (Z.to_nat m))))
           (QArg.widen (pluralSuffix m)).
Proof.
  set (n := QArg.widen (QStr.number (Z.to_nat m))). set (u := QArg.widen (pluralSuffix m)).
  change (QArg.arg (QArg.widen (qstr "%1 minute%2 ago")) n)
    with (n ++ QArg.widen (qstr " minute%2 ago")).
  change (QArg.arg (QArg.widen (qstr "%1 hour%2 ago")) n)
    with (n ++ QArg.widen (qstr " hour%2 ago")).
  rewrite !arg_lits_l by no_percent.
  change (QArg.arg (QArg.widen (qstr " minute%2 ago")) u)
    with (QArg.widen (qstr " minute") ++ u ++ QArg.widen (qstr " ago")).
  change (QArg.arg (QArg.widen (qstr " hour%2 ago")) u)
    with (QArg.widen (qstr " hour") ++ u ++ QArg.widen (qstr " ago")).
  cbn [renderTimeLabel]. rewrite !widen_app. split; reflexivity.
Qed.

Lemma truncateText_length text n :
  length (truncateText text n) <= n + 3.
Proof.
  unfold truncateText. case_if.
  - apply Nat.leb_le in E. lia.
  - rewrite length_app, length_left. simpl. lia.
Qed.

(** Every item built from a snapshot is well typed. *)
Lemma fromMimeData_wellTyped md now : wellTyped (fromMimeData md now).
Proof.
  unfold fromMimeData, classifyMime, wellTyped.
  destruct (md_image md) as [pm|]; [cbn; repeat split; auto; congruence|].
  destruct (md_html md) as [h|]; [cbn; repeat split; auto; congruence|].
  destruct (md_text md) as [t|]; cbn; repeat split; auto; try (intros; discriminate).
  intros H. pose proof (determineType_text_kinds t). tauto.
Qed.

(** ** Properties of the classification *)

(** The spec's classification examples hold for the
    code: a URL, a function, an absolute path with an extension and
    two plain words get the types Url, Code, File and Text. *)
Example determineType_spec_examples :
  determineType (qstr "https://example.com") = Url /\
  determineType (qstr "function f(){}") = Code /\
  determineType (qstr "/usr/local/bin/file.txt") = File /\
  determineType (qstr "hello world") = Text.
Proof. vm_compute. repeat split. Qed.

(** C22: the URL pattern only accepts the schemes http and https:
    a text typed [Url] starts, once trimmed, with [http://] or
    [https://], so an ftp or mailto link never is.  The file pattern
    accepts a single segment: a name without separators, a dot and an
    alphanumeric extension (a bare file name such as [notes.txt], or
    [version 1.0]) matches it, although the spec asks for at least one
    directory component. *)
Theorem determineType_divergences s stem ext :
  (determineType s = Url ->
   exists r, QStr.trimmed s = qstr "https://" ++ r \/ QStr.trimmed s = qstr "http://" ++ r) /\
  (stem <> [] -> forallb (fun c => negb (Patterns.isSep c)) stem = true ->
   ext <> [] -> forallb QChar.isAsciiAlnum ext = true ->
   Patterns.fileMatch (stem ++ "."%char :: ext) = true).
Proof.
  split.
  - unfold determineType. destruct (Patterns.urlMatch (QStr.trimmed s)) eqn:Hu.
    + intros _. by apply Patterns.urlMatch_scheme.
    + repeat case_if; done.
  - intros Hstem Hsep Hext Halnum.
    assert (Hall : forallb (fun c => negb (Patterns.isSep c)) (stem ++ "."%char :: ext) = true).
    { rewrite forallb_app, Hsep. simpl. apply forallb_forall. intros c Hc.
      pose proof (proj1 (forallb_forall _ _) Halnum c Hc) as Ha.
      destruct c as [[] [] [] [] [] [] [] []]; done. }
    unfold Patterns.fileMatch.
    destruct stem as [|c stem']; [done|]. cbn [app].
    cbn [app forallb] in Hall. apply andb_true_iff in Hall as [Hc Hall].
    apply negb_true_iff in Hc. rewrite Hc.
    rewrite Patterns.splitSeps_single by (cbn [forallb]; rewrite Hc; exact Hall). cbn.
    unfold Patterns.dollar, Patterns.extensionOk.
    replace (rev (c :: stem' ++ "."%char :: ext)) with (rev ext ++ "."%char :: rev (c :: stem'))
      by (change (c :: stem' ++ "."%char :: ext) with ((c :: stem') ++ ["."%char] ++ ext);
          rewrite !rev_app_distr; simpl; by rewrite <- !app_assoc).
    rewrite Patterns.spanAlnum_stop by
      (try reflexivity; apply forallb_forall; intros x Hx%in_rev;
       exact (proj1 (forallb_forall _ _) Halnum x Hx)).
    destruct ext as [|x ext']; [done|]. cbn [rev].
    destruct (rev ext'), (rev stem'); reflexivity.
Qed.

Lemma determineType_divergences_witness :
  Patterns.fileMatch (qstr "notes" ++ "."%char :: qstr "txt") = true.
Proof.
  apply (proj2 (determineType_divergences [] (qstr "notes") (qstr "txt")));
    [discriminate|reflexivity|discriminate|reflexivity].
Defined.

(** Classification does not depend on the time it runs at: two
    items built from the same snapshot at different times are equal
    under [operator==] and have the same preview and icon. *)
Theorem classification_time_invariant md t1 t2 :
  item_eqb (fromMimeData md t1) (fromMimeData md t2) = true /\
  m_preview (fromMimeData md t1) = m_preview (fromMimeData md t2) /\
  m_icon (fromMimeData md t1) = m_icon (fromMimeData md t2).
Proof.
  unfold fromMimeData. destruct (classifyMime md) as [[img ty] text].
  rewrite item_eqb_iff. simpl. done.
Qed.

(** Copying an item back to the clipboard and classifying
    the clipboard again gives an item equal to it under [operator==],
    for every item built from a snapshot except HTML items and null
    images. *)
Theorem writeBack_reclassifies_equal md now now' :
  let it := fromMimeData md now in
  m_type it <> Html ->
  (m_type it = Image -> isNull (m_image it) = false) ->
  item_eqb (fromMimeData (mimeOfWrite (copyToClipboard it)) now') it = true.
Proof.
  cbn zeta. unfold fromMimeData, classifyMime, copyToClipboard.
  destruct (md_image md) as [pm|] eqn:Himg; simpl.
  - intros _ Hnull. rewrite Hnull by done. simpl. apply item_eqb_iff. done.
  - destruct (md_html md) as [h|]; simpl; [done|].
    destruct (md_text md) as [t|]; simpl; intros _ _.
    + destruct (determineType_text_kinds t) as [Hi _].
      rewrite bool_decide_eq_false_2 by done. simpl. apply item_eqb_iff. done.
    + apply item_eqb_iff. split; [done|]. vm_compute. done.
Qed.

Definition writeBack_witness_item : ClipboardItem :=
  fromMimeData (mkMime None None (Some (qstr "hello world"))) 0.

(** C39: the constructor's first match wins: an item is an image exactly
    when the snapshot has an image, and HTML exactly when it has HTML
    and no image; text is typed [Url], [Code], [File] or [Text]. *)
Theorem fromMimeData_type_priority md now :
  (m_type (fromMimeData md now) = Image <-> is_Some (md_image md)) /\
  (m_type (fromMimeData md now) = Html <-> md_image md = None /\ is_Some (md_html md)).
Proof.
  unfold fromMimeData, classifyMime.
  destruct (md_image md) as [pm|]; simpl; [split; split; intros; by destruct_and?|].
  destruct (md_html md) as [h|]; simpl; [split; split; intros; by destruct_and?|].
  destruct (md_text md) as [t|]; simpl;
    [destruct (determineType_text_kinds t) as [Hi Hh]|];
    (split; split; [intros; done|intros [? ?]; done|intros; done|intros [_ [? ?]]; done]).
Qed.

(** C23: an HTML item is written back as plain text (its markup,
    which is its text), so the clipboard's next snapshot has no HTML: it
    is classified by [determineType], never as HTML, and the item it
    gives is not equal to the one it came from. *)
Theorem html_writeBack_changes_type md now now' :
  let h := fromMimeData md now in
  m_type h = Html ->
  let h' := fromMimeData (mimeOfWrite (copyToClipboard h)) now' in
  mimeOfWrite (copyToClipboard h) = mkMime None None (Some (m_text h)) /\
  m_text h' = m_text h /\ m_type h' = determineType (m_text h) /\
  m_type h' <> Html /\ item_eqb h' h = false.
Proof.
  intros h Hh h'. subst h h'.
  assert (Hw : copyToClipboard (fromMimeData md now) = SetText (m_text (fromMimeData md now)))
    by (unfold copyToClipboard; rewrite Hh; reflexivity).
  rewrite Hw. cbn [mimeOfWrite]. unfold fromMimeData at 2. cbn.
  pose proof (determineType_text_kinds (m_text (fromMimeData md now))) as [_ Hn].
  split_and!; try done.
  apply not_true_iff_false. rewrite item_eqb_iff. cbn. intros [_ Ht]. congruence.
Qed.

Lemma html_writeBack_changes_type_witness :
  let h := fromMimeData (mkMime None (Some (qstr "<b>hi</b>")) (Some (qstr "hi"))) 0 in
  item_eqb (fromMimeData (mimeOfWrite (copyToClipboard h)) 1) h = false.
Proof.
  cbv zeta.
  exact (proj2 (proj2 (proj2 (proj2 (html_writeBack_changes_type
    (mkMime None (Some (qstr "<b>hi</b>")) (Some (qstr "hi"))) 0 1 eq_refl))))).
Defined.

(** C21: two image snapshots give items equal under [operator==]
    exactly when the images have the same width and height: the code
    compares the descriptor text, not only the type. *)
Theorem image_items_equal_iff_same_size (p q : Pixmap) now now' :
  item_eqb (fromMimeData (mkMime (Some p) None None) now)
           (fromMimeData (mkMime (Some q) None None) now') = true <->
  width p = width q /\ height p = height q.
Proof.
  rewrite item_eqb_iff. simpl. split.
  - intros [H _]. apply imageDescriptor_inj. done.
  - intros [Hw Hh]. unfold imageDescriptor. rewrite Hw, Hh. done.
Qed.

(** The preview of a non-image item has at most 103
    characters (100 kept and an ellipsis). *)
Theorem preview_length_le_103 ty img text :
  ty <> Image -> length (generatePreview ty img text) <= 103.
Proof.
  intros Hty. unfold generatePreview. rewrite decide_False by done.
  apply truncateText_length.
Qed.

Lemma preview_length_le_103_witness :
  length (generatePreview Text None (qstr "a   b")) <= 103.
Proof. apply preview_length_le_103. discriminate. Defined.

(** The spec's example: a 150-character text gets a
    103-character preview ending in an ellipsis, a 50-character one is
    kept as it is. *)
Example preview_truncation_example :
  let long := repeat "a"%char 150 in
  let short := repeat "b"%char 50 in
  length (generatePreview Text None long) = 103 /\
  drop 100 (generatePreview Text None long) = qstr "..." /\
  generatePreview Text None short = short.
Proof. vm_compute. repeat split. Qed.

(** [formattedTimestamp] shows a minute count between 1 and
    59 and an hour count between 1 and 23, and says "Just now" for
    anything under a minute, including time stamps in the future. *)
Theorem formattedTimestamp_bounds ts now :
  match formattedTimestamp ts now with
  | JustNow => (now - ts < 60)%Z
  | MinutesAgo m => (1 <= m <= 59)%Z
  | HoursAgo h => (1 <= h <= 23)%Z
  | AbsoluteDate _ => (86400 <= now - ts)%Z
  end.
Proof.
  unfold formattedTimestamp.
  destruct (Z.ltb_spec (now - ts) 60); [lia|].
  destruct (Z.ltb_spec (now - ts) 3600).
  { rewrite Z.quot_div_nonneg by lia. split.
    - apply Z.div_le_lower_bound; lia.
    - apply Z.lt_succ_r, Z.div_lt_upper_bound; lia. }
  destruct (Z.ltb_spec (now - ts) 86400); [|lia].
  rewrite Z.quot_div_nonneg by lia. split.
  - apply Z.div_le_lower_bound; lia.
  - apply Z.lt_succ_r, Z.div_lt_upper_bound; lia.
Qed.
End Item.
