(* ===== verification/PatternRegex.v ===== *)
(** * PatternRegex: the recognisers of [Patterns] decide the regular expressions

    The three regular expressions of [ClipboardItem::determineType]
    (ClipboardItem.cpp lines 91, 98 and 105) written as terms of
    [Regex.regex], and the proof that each executable recogniser of
    [Patterns] holds of a string exactly when [QRegularExpression] finds a
    match of its expression in it ([Regex.hasMatch]).  With these,
    [Item.determineType] is characterised by the regular expressions of
    the source. *)

From S2P Require Import Prelude QtString Patterns Regex ClipboardItem.
Import Regex Patterns Item.

Module PatternRegex.
Definition nonSpace (c : ascii) : bool := negb (QChar.pcreSpace c).
Definition notSep (c : ascii) : bool := negb (isSep c).

(** [R"(^https?://[^\s]+$)"] *)
Definition urlRegex : regex :=
  Seq Bol (Seq (Str (qstr "http")) (Seq (Opt (Chr "s"%char)) (Seq (Str (qstr "://"))
    (Seq (Plus (Class nonSpace)) Eol)))).

Definition spaceClass : regex := Class QChar.pcreSpace.

(** [R"(\b(function|class|import|export|const|let|var|if|else|for|while|return)\b|[{}();]|\s{4,}|\t)"] *)
Definition codeRegex : regex :=
  Alts [Seq WordB (Seq (Alts (map Str keywords)) WordB);
        Class isCodePunct;
        Seq spaceClass (Seq spaceClass (Seq spaceClass (Seq spaceClass (Star spaceClass))));
        Chr tab].

(** [R"(^[/\\]?([^/\\]+[/\\])*[^/\\]+\.[a-zA-Z0-9]+$)"] *)
Definition segRegex : regex := Seq (Plus (Class notSep)) (Class isSep).
Definition fileTailRegex : regex :=
  Seq (Plus (Class notSep)) (Seq (Chr "."%char) (Seq (Plus (Class QChar.isAsciiAlnum)) Eol)).
Definition fileRegex : regex :=
  Seq Bol (Seq (Opt (Class isSep)) (Seq (Star segRegex) fileTailRegex)).

(** ** Facts about the recognisers' building blocks *)

Lemma afterPrefix_spec p s r : afterPrefix p s = Some r <-> s = p ++ r.
Proof.
  revert s. induction p as [|a p IH]; intros [|b s]; simpl; try (split; congruence).
  destruct (Ascii.eqb_spec a b) as [->|Hne]; rewrite ?IH; split; congruence.
Qed.

Lemma dollar_spec p r :
  dollar p r = true <-> p r = true \/ exists y, r = y ++ [newline] /\ p y = true.
Proof.
  unfold dollar. rewrite orb_true_iff. apply or_iff_compat_l.
  destruct (rev r) as [|c x] eqn:E.
  - split; [done|]. intros (y & -> & _). rewrite rev_app_distr in E. done.
  - rewrite andb_true_iff. split.
    + intros [Hc Hp]. apply Ascii.eqb_eq in Hc as ->. exists (rev x). split; [|done].
      rewrite <- (rev_involutive r), E. done.
    + intros (y & -> & Hy). rewrite rev_app_distr in E. simpl in E. simplify_eq.
      rewrite rev_involutive, Ascii.eqb_refl. done.
Qed.

Lemma forallb_Forall (f : ascii -> bool) (w : QString) :
  forallb f w = true <-> Forall (fun c => f c = true) w.
Proof. rewrite forallb_forall, Forall_forall. setoid_rewrite list_elem_of_In. done. Qed.

(** [[^\s]+$] read from a position: [urlAfterScheme]. *)
Lemma nonSpace_eol_iff b x :
  (exists p', Matches (Seq (Plus (Class nonSpace)) Eol) (b, x) p') <-> urlAfterScheme x = true.
Proof.
  unfold urlAfterScheme, nonSpacePlus. rewrite dollar_spec. split.
  - intros (p' & (p1 & H1 & H2)%Seq_iff).
    apply Plus_class_iff in H1 as (w & x' & Hne & -> & Hw & ->).
    apply Eol_iff in H2 as [[-> | ->] _].
    + left. rewrite app_nil_r, andb_true_iff, forallb_Forall. destruct w; done.
    + right. exists w. rewrite andb_true_iff, forallb_Forall. destruct w; done.
  - intros [H|(y & -> & H)]; apply andb_true_iff in H as [Hne Hw];
      apply forallb_Forall in Hw.
    + exists (rev x ++ b, []). apply Seq_iff. exists (rev x ++ b, []). split; [|apply Eol_iff; auto].
      apply Plus_class_iff. exists x, []. rewrite app_nil_r. destruct x; done.
    + exists (rev y ++ b, [newline]). apply Seq_iff. exists (rev y ++ b, [newline]).
      split; [|apply Eol_iff; auto]. apply Plus_class_iff. exists y, [newline]. destruct y; done.
Qed.

(** The URL recogniser decides [urlRegex]. *)
Lemma urlMatch_iff s : urlMatch s = true <-> hasMatch urlRegex s.
Proof.
  unfold urlMatch, urlRegex. rewrite anchored_iff, orb_true_iff. split.
  - intros [H|H].
    + destruct (afterPrefix (qstr "https://") s) as [r|] eqn:E; [|done].
      apply afterPrefix_spec in E as ->.
      destruct (proj2 (nonSpace_eol_iff (rev (qstr "https://")) r) H) as (p' & Hp).
      exists p'. apply Seq_Str_iff. eexists. split; [reflexivity|]. apply Seq_Opt_iff. left.
      apply Seq_Chr_iff. eexists. split; [reflexivity|].
      apply Seq_Str_iff. eexists. split; [reflexivity|]. exact Hp.
    + destruct (afterPrefix (qstr "http://") s) as [r|] eqn:E; [|done].
      apply afterPrefix_spec in E as ->.
      destruct (proj2 (nonSpace_eol_iff (rev (qstr "http://")) r) H) as (p' & Hp).
      exists p'. apply Seq_Str_iff. eexists. split; [reflexivity|]. apply Seq_Opt_iff. right.
      apply Seq_Str_iff. eexists. split; [reflexivity|]. exact Hp.
  - intros (p' & H). apply Seq_Str_iff in H as (x1 & -> & H). apply Seq_Opt_iff in H as [H|H].
    + left. apply Seq_Chr_iff in H as (x2 & -> & H). apply Seq_Str_iff in H as (x3 & -> & H).
      rewrite (proj2 (afterPrefix_spec _ _ x3)) by reflexivity.
      eapply (proj1 (nonSpace_eol_iff _ x3)). eexists. exact H.
    + right. apply Seq_Str_iff in H as (x3 & -> & H).
      rewrite (proj2 (afterPrefix_spec _ _ x3)) by reflexivity.
      eapply (proj1 (nonSpace_eol_iff _ x3)). eexists. exact H.
Qed.

(** ** The code pattern *)

Definition keywordRegex : regex := Seq WordB (Seq (Alts (map Str keywords)) WordB).
Definition spaces4Regex : regex :=
  Seq spaceClass (Seq spaceClass (Seq spaceClass (Seq spaceClass (Star spaceClass)))).

(** Every keyword is a non-empty run of [\w] characters. *)
Lemma keywords_words : Forall (fun kw => kw <> [] /\ forallb QChar.pcreWord kw = true) keywords.
Proof.
  repeat apply Forall_cons_2; try apply Forall_nil_2; (split; [discriminate|reflexivity]).
Qed.

Lemma word_run_edges kw r b :
  kw <> [] -> forallb QChar.pcreWord kw = true ->
  wordAfter (kw ++ r) = true /\ wordBefore (rev kw ++ b) = true.
Proof.
  intros Hne Hw. split.
  - destruct kw as [|c kw]; [done|]. simpl in *. apply andb_true_iff in Hw. tauto.
  - destruct (exists_last Hne) as (k & c & ->). rewrite forallb_app in Hw.
    apply andb_true_iff in Hw as [_ Hc]. rewrite rev_app_distr. simpl in *.
    rewrite andb_true_r in Hc. done.
Qed.

Lemma boundaryBefore_head b : boundaryBefore (head b) = negb (wordBefore b).
Proof. destruct b; done. Qed.

Lemma boundaryAfter_word r : boundaryAfter r = negb (wordAfter r).
Proof. destruct r; done. Qed.

Lemma keywordAt_iff b x :
  keywordAt (head b) x = true <->
  wordBefore b = false /\ exists kw r, In kw keywords /\ x = kw ++ r /\ wordAfter r = false.
Proof.
  unfold keywordAt. rewrite andb_true_iff, boundaryBefore_head, negb_true_iff, existsb_exists.
  apply and_iff_compat_l. split.
  - intros (kw & Hin & H). destruct (afterPrefix kw x) as [r|] eqn:E; [|done].
    apply afterPrefix_spec in E. rewrite boundaryAfter_word, negb_true_iff in H. eauto.
  - intros (kw & r & Hin & -> & Hr). exists kw. split; [done|].
    rewrite (proj2 (afterPrefix_spec kw _ r) eq_refl), boundaryAfter_word, Hr. done.
Qed.

Lemma keywordRegex_iff b x :
  (exists p', Matches keywordRegex (b, x) p') <->
  wordBefore b = false /\ exists kw r, In kw keywords /\ x = kw ++ r /\ wordAfter r = false.
Proof.
  unfold keywordRegex. pose proof keywords_words as Hkw. rewrite Forall_forall in Hkw.
  split.
  - intros (p' & (p1 & H1 & (p2 & H2 & H3)%Seq_iff)%Seq_iff).
    apply WordB_iff in H1 as [Hb ->].
    apply Alts_iff in H2; [|cbv [keywords map]; discriminate].
    apply List.Exists_exists in H2 as (re & (kw & <- & Hin)%in_map_iff & H2).
    apply Str_iff in H2 as (r & -> & ->). apply WordB_iff in H3 as [Ha _].
    destruct (Hkw kw) as [Hne Hw]; [apply list_elem_of_In; done|].
    destruct (word_run_edges kw r b Hne Hw) as [E1 E2]. rewrite E1 in Hb. rewrite E2 in Ha.
    split; [destruct (wordBefore b); done|]. exists kw, r. split; [done|split; [done|]].
    destruct (wordAfter r); done.
  - intros (Hb & kw & r & Hin & -> & Hr).
    destruct (Hkw kw) as [Hne Hw]; [apply list_elem_of_In; done|].
    destruct (word_run_edges kw r b Hne Hw) as [E1 E2].
    exists (rev kw ++ b, r). apply Seq_iff. exists (b, kw ++ r).
    split; [apply WordB_iff; rewrite E1, Hb; done|]. apply Seq_iff. exists (rev kw ++ b, r).
    split; [|apply WordB_iff; rewrite E2, Hr; done].
    apply Alts_iff; [cbv [keywords map]; discriminate|]. apply List.Exists_exists.
    exists (Str kw). split; [apply in_map; done|]. apply Str_iff. eauto.
Qed.

Lemma spaces4Regex_iff b x : (exists p', Matches spaces4Regex (b, x) p') <-> spaces4At x = true.
Proof.
  unfold spaces4Regex, spaceClass. split.
  - intros (p' & H). repeat (apply Seq_Class_iff in H as (? & ? & -> & ? & H)).
    simpl. repeat (apply andb_true_iff; split); done.
  - destruct x as [|a [|b' [|c [|d x]]]]; try done. simpl.
    intros H. repeat (apply andb_true_iff in H as [H ?]).
    exists (d :: c :: b' :: a :: b, x). repeat (apply Seq_Class_iff; eexists _, _; split; [reflexivity|]; split; [done|]).
    apply m_star_nil.
Qed.

Lemma firstChar_iff f b x :
  (exists p', Matches (Class f) (b, x) p') <->
  match x with c :: _ => f c = true | [] => False end.
Proof.
  split.
  - intros (p' & (c & x' & -> & Hc & _)%Class_iff). done.
  - destruct x as [|c x]; [done|]. intros Hc. exists (c :: b, x). apply Class_iff. eauto.
Qed.

(** At one position, the four alternatives of [codeRegex] are [codeAt]. *)
Lemma codeAt_iff b x : (exists p', Matches codeRegex (b, x) p') <-> codeAt (head b) x = true.
Proof.
  assert (Hs : (exists p', Matches codeRegex (b, x) p') <->
    (exists p', Matches keywordRegex (b, x) p') \/ (exists p', Matches (Class isCodePunct) (b, x) p') \/
    (exists p', Matches spaces4Regex (b, x) p') \/ (exists p', Matches (Chr tab) (b, x) p')).
  { assert (Hp : forall p', Matches codeRegex (b, x) p' <->
      Matches keywordRegex (b, x) p' \/ Matches (Class isCodePunct) (b, x) p' \/
      Matches spaces4Regex (b, x) p' \/ Matches (Chr tab) (b, x) p').
    { intros p'. unfold codeRegex. rewrite Alts_iff by discriminate.
      rewrite !Exists_cons, Exists_nil. tauto. }
    split.
    - intros (p' & [H|[H|[H|H]]]%Hp); eauto 6.
    - intros [(p' & H)|[(p' & H)|[(p' & H)|(p' & H)]]]; exists p'; apply Hp; tauto. }
  rewrite Hs, keywordRegex_iff, <- keywordAt_iff, spaces4Regex_iff. unfold Chr.
  rewrite !firstChar_iff. unfold codeAt. generalize (keywordAt (head b) x) (spaces4At x). intros kb sb.
  destruct x as [|c x]; simpl; destruct kb, sb; simpl; try tauto.
  all: rewrite !orb_true_iff; tauto.
Qed.

(** The search over start positions. *)
Lemma codeSearch_iff b x :
  codeSearch (head b) x = true <-> exists w y, x = w ++ y /\ codeAt (head (rev w ++ b)) y = true.
Proof.
  revert b. induction x as [|c x IH]; intros b; simpl; rewrite orb_true_iff.
  - split.
    + intros [H|H]; [|discriminate]. exists [], []. split; [done|exact H].
    + intros ([|c w] & y & Hx & H); [simpl in Hx; subst y; left; exact H|discriminate].
  - change (Some c) with (head (c :: b)). rewrite IH. split.
    + intros [H|(w & y & -> & H)]; [exists [], (c :: x); split; [done|exact H]|].
      exists (c :: w), y. simpl. rewrite <- app_assoc. done.
    + intros ([|d w] & y & Hx & H); [left; simpl in Hx; subst y; done|].
      simpl in Hx. injection Hx as -> ->. right. exists w, y. simpl in H. rewrite <- app_assoc in H. done.
Qed.

(** The code recogniser decides [codeRegex]. *)
Lemma codeMatch_iff s : codeMatch s = true <-> hasMatch codeRegex s.
Proof.
  unfold codeMatch. change (@None ascii) with (head (@nil ascii)).
  rewrite codeSearch_iff, hasMatch_iff. split.
  - intros (w & y & -> & H). rewrite app_nil_r in H.
    apply codeAt_iff in H as (p' & H). eauto.
  - intros (w & y & p' & -> & H). exists w, y. rewrite app_nil_r. split; [done|].
    apply codeAt_iff. eauto.
Qed.

(** ** The file-path pattern *)

Lemma alnum_notSep c : QChar.isAsciiAlnum c = true -> notSep c = true.
Proof.
  unfold notSep, isSep. intros H. apply negb_true_iff, orb_false_iff.
  split; apply Ascii.eqb_neq; intros ->; discriminate.
Qed.

Lemma spanAlnum_spec r :
  r = (spanAlnum r).1 ++ (spanAlnum r).2 /\
  Forall (fun c => QChar.isAsciiAlnum c = true) (spanAlnum r).1 /\
  match (spanAlnum r).2 with c :: _ => QChar.isAsciiAlnum c = false | [] => True end.
Proof.
  induction r as [|c r IH]; simpl; [done|].
  destruct (QChar.isAsciiAlnum c) eqn:Hc; simpl; [|done].
  destruct (spanAlnum r) as [a b]. simpl in *. destruct IH as (-> & Ha & Hb). auto.
Qed.

Lemma spanAlnum_app w c r :
  Forall (fun c => QChar.isAsciiAlnum c = true) w -> QChar.isAsciiAlnum c = false ->
  spanAlnum (w ++ c :: r) = (w, c :: r).
Proof.
  intros Hw Hc. induction Hw as [|d w Hd Hw IH]; simpl; [rewrite Hc; done|].
  rewrite Hd, IH. done.
Qed.

(** [[^/\\]+\.[a-zA-Z0-9]+] on a whole segment. *)
Lemma extensionOk_iff seg :
  extensionOk seg = true <->
  exists l e, seg = l ++ "."%char :: e /\ l <> [] /\ e <> [] /\
              Forall (fun c => QChar.isAsciiAlnum c = true) e.
Proof.
  unfold extensionOk. pose proof (spanAlnum_spec (rev seg)) as (Hsplit & Ha & Hb).
  destruct (spanAlnum (rev seg)) as [ext rest] eqn:E. simpl in *. split.
  - rewrite andb_true_iff, negb_true_iff. intros [Hext Hr].
    destruct rest as [|d stem]; [done|]. apply andb_true_iff in Hr as [Hd Hstem].
    apply Ascii.eqb_eq in Hd as ->. apply negb_true_iff in Hstem.
    exists (rev stem), (rev ext). rewrite <- (rev_involutive seg), Hsplit, rev_app_distr.
    simpl. rewrite <- app_assoc. split; [done|].
    split; [destruct stem; [done|]; simpl; intros H; apply app_eq_nil in H as [_ H]; done|].
    split; [destruct ext; [done|]; simpl; intros H; apply app_eq_nil in H as [_ H]; done|].
    apply Forall_rev. done.
  - intros (l & e & -> & Hl & He & Hae).
    rewrite rev_app_distr in E. simpl in E. rewrite <- app_assoc in E. simpl in E.
    rewrite spanAlnum_app in E by (try apply Forall_rev; done). injection E as <- <-.
    rewrite andb_true_iff, negb_true_iff. split; [destruct e; [done|]; simpl; destruct (rev e); done|].
    rewrite Ascii.eqb_refl. simpl. destruct l; [done|]. simpl. destruct (rev l); done.
Qed.

Abbreviation NoSep x := (Forall (fun c => notSep c = true) x).

(** [[^/\\]+\.[a-zA-Z0-9]+$] from a position: a separator-free rest that
    [dollar extensionOk] accepts. *)
Lemma fileTail_iff b x :
  (exists p', Matches fileTailRegex (b, x) p') <-> NoSep x /\ dollar extensionOk x = true.
Proof.
  unfold fileTailRegex. rewrite dollar_spec. split.
  - intros (p' & (p1 & H1 & H2)%Seq_iff).
    apply Plus_class_iff in H1 as (l & x1 & Hl & -> & Hls & ->).
    apply Seq_Chr_iff in H2 as (x2 & -> & H2). apply Seq_iff in H2 as (p3 & H3 & H4).
    apply Plus_class_iff in H3 as (e & t & He & -> & Hae & ->).
    apply Eol_iff in H4 as [Ht _].
    assert (Hns : NoSep (l ++ "."%char :: e)).
    { apply Forall_app. split; [done|]. constructor; [done|].
      eapply Forall_impl; [exact Hae|]. intros c. apply alnum_notSep. }
    destruct Ht as [-> | ->].
    + rewrite app_nil_r. split; [done|]. left. apply extensionOk_iff. eauto 6.
    + split.
      * rewrite app_comm_cons, app_assoc. apply Forall_app. split; [done|]. repeat constructor.
      * right. exists (l ++ "."%char :: e). split; [rewrite <- app_assoc; done|].
        apply extensionOk_iff. eauto 6.
  - intros [Hns [H|(y & -> & H)]]; apply extensionOk_iff in H as (l & e & -> & Hl & He & Hae).
    + exists (rev e ++ "."%char :: rev l ++ b, []). apply Seq_iff.
      exists (rev l ++ b, "."%char :: e). split.
      { apply Plus_class_iff. exists l, ("."%char :: e). apply Forall_app in Hns. tauto. }
      apply Seq_Chr_iff. eexists. split; [reflexivity|]. apply Seq_iff.
      exists (rev e ++ "."%char :: rev l ++ b, []). split; [|apply Eol_iff; auto].
      apply Plus_class_iff. exists e, []. rewrite app_nil_r. done.
    + rewrite <- app_assoc in Hns. apply Forall_app in Hns as [Hl' _].
      exists (rev e ++ "."%char :: rev l ++ b, [newline]). apply Seq_iff.
      exists (rev l ++ b, "."%char :: e ++ [newline]). split.
      { apply Plus_class_iff. exists l, ("."%char :: e ++ [newline]).
        rewrite <- app_assoc. done. }
      apply Seq_Chr_iff. eexists. split; [reflexivity|]. apply Seq_iff.
      exists (rev e ++ "."%char :: rev l ++ b, [newline]). split; [|apply Eol_iff; auto].
      apply Plus_class_iff. exists e, [newline]. done.
Qed.

(** What [fileMatch] checks of the part after the optional leading separator. *)
Definition segsOk (body : QString) : bool :=
  forallb (fun seg => negb (QStr.isEmpty seg)) (removelast (splitSeps body)) &&
  dollar extensionOk (List.last (splitSeps body) []).

Lemma fileMatch_segsOk s :
  fileMatch s = segsOk (match s with c :: s' => if isSep c then s' else s | [] => [] end).
Proof. reflexivity. Qed.

Lemma splitSeps_nosep x : NoSep x -> splitSeps x = [x].
Proof.
  induction 1 as [|c x Hc Hx IH]; [done|]. simpl. unfold notSep in Hc.
  apply negb_true_iff in Hc. rewrite Hc, IH. done.
Qed.

Lemma splitSeps_sep l c y :
  NoSep l -> isSep c = true -> splitSeps (l ++ c :: y) = l :: splitSeps y.
Proof.
  intros Hl Hc. induction Hl as [|d l Hd Hl IH]; simpl; [rewrite Hc; done|].
  unfold notSep in Hd. apply negb_true_iff in Hd. rewrite Hd, IH. done.
Qed.

Lemma splitSeps_ne x : splitSeps x <> [].
Proof.
  destruct x as [|c x]; simpl; [done|]. destruct (isSep c); [done|].
  destruct (splitSeps x); done.
Qed.

(** Either the string has no separator, or it splits at its first one. *)
Lemma first_sep x :
  NoSep x \/ exists l c y, x = l ++ c :: y /\ NoSep l /\ isSep c = true.
Proof.
  induction x as [|c x [IH|(l & d & y & -> & Hl & Hd)]]; [left; done| |].
  - destruct (isSep c) eqn:Hc.
    + right. exists [], c, x. done.
    + left. constructor; [unfold notSep; rewrite Hc|]; done.
  - destruct (isSep c) eqn:Hc.
    + right. exists [], c, (l ++ d :: y). done.
    + right. exists (c :: l), d, y. split; [done|]. split; [|done].
      constructor; [unfold notSep; rewrite Hc|]; done.
Qed.

Lemma sep_split_unique l c y l' c' y' :
  NoSep l -> isSep c = true -> NoSep l' -> isSep c' = true ->
  l ++ c :: y = l' ++ c' :: y' -> l = l' /\ c = c' /\ y = y'.
Proof.
  intros Hl Hc. revert l'. induction Hl as [|d l Hd Hl IH]; intros l' Hl' Hc' E.
  - destruct Hl' as [|d' l' Hd' _]; simpl in E; injection E as -> E; [done|].
    unfold notSep in Hd'. rewrite Hc in Hd'. discriminate.
  - destruct Hl' as [|d' l' Hd' Hl']; simpl in E; injection E as -> E.
    + unfold notSep in Hd. rewrite Hc' in Hd. discriminate.
    + destruct (IH l' Hl' Hc' E) as (-> & -> & ->). done.
Qed.

Lemma segsOk_nosep x : NoSep x -> segsOk x = dollar extensionOk x.
Proof. intros Hx. unfold segsOk. rewrite splitSeps_nosep by done. done. Qed.

Lemma segsOk_sep l c y :
  NoSep l -> isSep c = true -> segsOk (l ++ c :: y) = negb (QStr.isEmpty l) && segsOk y.
Proof.
  intros Hl Hc. unfold segsOk. rewrite splitSeps_sep by done.
  pose proof (splitSeps_ne y) as Hne. destruct (splitSeps y) as [|s0 segs]; [done|].
  change (removelast (l :: s0 :: segs)) with (l :: removelast (s0 :: segs)).
  change (List.last (l :: s0 :: segs) []) with (List.last (s0 :: segs) []).
  simpl. rewrite andb_assoc. done.
Qed.

Lemma seg_iff b x p :
  Matches segRegex (b, x) p <->
  exists l c y, x = l ++ c :: y /\ l <> [] /\ NoSep l /\ isSep c = true /\ p = (c :: rev l ++ b, y).
Proof.
  unfold segRegex. rewrite Seq_iff. split.
  - intros (p1 & H1 & H2). apply Plus_class_iff in H1 as (l & x1 & Hl & -> & Hls & ->).
    apply Class_iff in H2 as (c & y & -> & Hc & ->). exists l, c, y. done.
  - intros (l & c & y & -> & Hl & Hls & Hc & ->). exists (rev l ++ b, c :: y).
    split; [apply Plus_class_iff; exists l, (c :: y); done|apply Class_iff; eauto].
Qed.

Lemma star_seg_nosep b x p : NoSep x -> Matches (Star segRegex) (b, x) p -> p = (b, x).
Proof.
  intros Hx [->|(p1 & H1 & _)]%Star_iff; [done|].
  apply seg_iff in H1 as (l & c & y & -> & _ & _ & Hc & _).
  apply Forall_app in Hx as [_ Hx]. apply Forall_cons in Hx as [Hc' _].
  unfold notSep in Hc'. rewrite Hc in Hc'. discriminate.
Qed.

(** [([^/\\]+[/\\])*[^/\\]+\.[a-zA-Z0-9]+$] from a position: [segsOk]. *)
Lemma fileBody_iff x b :
  (exists p', Matches (Seq (Star segRegex) fileTailRegex) (b, x) p') <-> segsOk x = true.
Proof.
  revert b. induction x as [x IH] using (induction_ltof1 _ (@length ascii)). intros b.
  destruct (first_sep x) as [Hx|(l & c & y & -> & Hl & Hc)].
  - rewrite segsOk_nosep by done. split.
    + intros (p' & (p1 & H1 & H2)%Seq_iff). rewrite (star_seg_nosep _ _ _ Hx H1) in H2.
      apply (proj1 (fileTail_iff b x)). eauto.
    + intros H. destruct (proj2 (fileTail_iff b x) (conj Hx H)) as (p' & Hp).
      exists p'. apply Seq_iff. exists (b, x). split; [apply m_star_nil|done].
  - rewrite segsOk_sep, andb_true_iff, negb_true_iff by done.
    rewrite <- (IH y) with (b := c :: rev l ++ b)
      by (unfold ltof; rewrite length_app; simpl; lia).
    split.
    + intros (p' & (p1 & [->|(p2 & H2 & H3)]%Star_iff & H4)%Seq_iff).
      * destruct (proj1 (fileTail_iff _ _) (ex_intro _ p' H4)) as [Hns _].
        apply Forall_app in Hns as [_ Hns]. apply Forall_cons in Hns as [Hc' _].
        unfold notSep in Hc'. rewrite Hc in Hc'. discriminate.
      * apply seg_iff in H2 as (l' & c' & y' & E & Hl' & Hls' & Hc' & ->).
        destruct (sep_split_unique _ _ _ _ _ _ Hl Hc Hls' Hc' E) as (<- & <- & <-).
        split; [destruct l; done|]. exists p'. apply Seq_iff. eauto.
    + intros [Hl0 (p' & (p1 & H1 & H2)%Seq_iff)]. exists p'. apply Seq_iff. exists p1.
      split; [|done]. apply Star_iff. right. exists (c :: rev l ++ b, y). split; [|done].
      apply seg_iff. exists l, c, y. split; [done|]. split; [destruct l; done|]. done.
Qed.

(** The file-path recogniser decides [fileRegex]. *)
Lemma fileMatch_iff s : fileMatch s = true <-> hasMatch fileRegex s.
Proof.
  rewrite fileMatch_segsOk. unfold fileRegex. rewrite anchored_iff.
  assert (Hs : (exists p', Matches (Seq (Opt (Class isSep)) (Seq (Star segRegex) fileTailRegex))
                                   ([], s) p') <->
               (exists p', Matches (Seq (Class isSep) (Seq (Star segRegex) fileTailRegex)) ([], s) p')
               \/ segsOk s = true).
  { rewrite <- (fileBody_iff s []). split.
    - intros (p' & [H|H]%Seq_Opt_iff); [left|right]; eauto.
    - intros [(p' & H)|(p' & H)]; exists p'; apply Seq_Opt_iff; auto. }
  rewrite Hs. destruct s as [|c t].
  - split; [auto|]. intros [(p' & (c & x' & E & _)%Seq_Class_iff)|H]; [discriminate|done].
  - setoid_rewrite Seq_Class_iff. destruct (isSep c) eqn:Hc.
    + change (c :: t) with ([] ++ c :: t) at 2.
      rewrite (segsOk_sep [] c t), <- (fileBody_iff t [c]) by done. simpl. split.
      * intros (p' & Hp). left. exists p', c, t. eauto.
      * intros [(p' & d & x' & E & _ & Hp)|H]; [injection E as <- <-; eauto|discriminate].
    + split; [auto|]. intros [(p' & d & x' & E & Hd & _)|H]; [|done].
      injection E as <- <-. rewrite Hc in Hd. discriminate.
Qed.

(** ** Properties *)

(** C5: [ClipboardItem::determineType] classifies a text by the three
    regular expressions of the source read with PCRE2's semantics: [Url]
    exactly when [^https?://[^\s]+$] matches the trimmed text; [Code]
    exactly when that fails and the code expression matches somewhere in
    the text or the text contains a triple backtick; [File] exactly when
    both fail and the file-path expression matches the trimmed text;
    [Text] otherwise. *)
Theorem determineType_regex text :
  let url := hasMatch urlRegex (QStr.trimmed text) in
  let code := hasMatch codeRegex text \/ QStr.contains text (qstr "```") = true in
  let file := hasMatch fileRegex (QStr.trimmed text) in
  (determineType text = Url <-> url) /\
  (determineType text = Code <-> ~ url /\ code) /\
  (determineType text = File <-> ~ url /\ ~ code /\ file) /\
  (determineType text = Text <-> ~ url /\ ~ code /\ ~ file).
Proof.
  cbv zeta. rewrite <- urlMatch_iff, <- codeMatch_iff, <- fileMatch_iff. unfold determineType.
  destruct (urlMatch _), (codeMatch _), (QStr.contains _ _), (fileMatch _); simpl;
    intuition congruence.
Qed.
End PatternRegex.
