(* ===== verification/History.v ===== *)
(** * History: the list operations of [ClipboardManager]

    Models the part of [src/src/ClipboardManager.cpp] that changes
    [m_history] and [m_maxHistorySize]: [addItem] with its [for] loop that
    removes the first equal item and its [while] loop that trims the tail,
    [isDuplicate], [removeItem], [clearHistory], [setMaxHistorySize] and
    [itemCount].  Each operation returns the new store and the signals it
    emits, in emission order.

    The file states the store's invariant (the bound is at least one, the
    history is within the bound, no two entries are equal under
    [operator==]) and proves that every operation keeps it; proves the
    loops terminate with the fuel the code gives them and compute
    [take] and a filter; gives each operation's behaviour on each branch;
    and proves the refinement of the abstract bounded most-recent-first
    store of the spec (section 4.3) by the code. *)

From Stdlib Require Import Morphisms.
From S2P Require Import Prelude QtString ClipboardItem.
Import Item.

Module History.
(** The dedup key of an item: what [operator==] compares. *)
Definition key (it : ClipboardItem) : QString * ItemType := (m_text it, m_type it).

(** The fields of [ClipboardManager] that the history operations use. *)
Record Store := mkStore {
  m_history : list ClipboardItem;
  m_maxHistorySize : Z
}.

(** The signals of [ClipboardManager]. *)
Inductive Signal :=
  | HistoryChanged
  | NewItemAdded (it : ClipboardItem).

(** The [for] loop of [addItem]: remove the first entry equal to the
    item, then [break]. *)
Fixpoint removeFirstEqual (it : ClipboardItem) (h : list ClipboardItem) : list ClipboardItem :=
  match h with
  | [] => []
  | x :: h' => if item_eqb x it then h' else x :: removeFirstEqual it h'
  end.

(** [while (m_history.size() > m_maxHistorySize) m_history.removeLast();]
    with an explicit fuel. *)
Fixpoint trimLoop (fuel : nat) (max : Z) (h : list ClipboardItem) : list ClipboardItem :=
  match fuel with
  | O => h
  | S fuel' =>
      if (max <? Z.of_nat (length h))%Z then trimLoop fuel' max (removelast h) else h
  end.

(** The loop runs at most once per element: the length is its fuel. *)
Definition trimHistory (max : Z) (h : list ClipboardItem) : list ClipboardItem :=
  trimLoop (length h) max h.

(** [addItem]: remove the equal entry, prepend, trim, then emit
    [newItemAdded(item)] and [historyChanged()]. *)
Definition addItem (it : ClipboardItem) (st : Store) : Store * list Signal :=
  let h := trimHistory (m_maxHistorySize st) (it :: removeFirstEqual it (m_history st)) in
  (mkStore h (m_maxHistorySize st), [NewItemAdded it; HistoryChanged]).

(** [isDuplicate]: only the newest entry is compared. *)
Definition isDuplicate (it : ClipboardItem) (st : Store) : bool :=
  match m_history st with
  | [] => false
  | x :: _ => item_eqb x it
  end.

(** [clearHistory]: the signal is emitted even when nothing changed. *)
Definition clearHistory (st : Store) : Store * list Signal :=
  (mkStore [] (m_maxHistorySize st), [HistoryChanged]).

(** [removeItem(int index)]: nothing happens out of range. *)
Definition removeItem (index : Z) (st : Store) : Store * list Signal :=
  if (0 <=? index)%Z && (index <? Z.of_nat (length (m_history st)))%Z
  then (mkStore (delete (Z.to_nat index) (m_history st)) (m_maxHistorySize st), [HistoryChanged])
  else (st, []).

(** [setMaxHistorySize(int size)]: clamp with [qMax(1, size)], trim,
    then emit when the new length is below the requested [size]. *)
Definition setMaxHistorySize (size : Z) (st : Store) : Store * list Signal :=
  let max := Z.max 1 size in
  let h := trimHistory max (m_history st) in
  (mkStore h max, if (Z.of_nat (length h) <? size)%Z then [HistoryChanged] else []).

(** [itemCount]. *)
Definition itemCount (st : Store) : Z := Z.of_nat (length (m_history st)).

(** The initial store of the constructor: empty, bound 100. *)
Definition initialStore : Store := mkStore [] 100.

(** The invariant of the store. *)
Definition wf (st : Store) : Prop :=
  (1 <= m_maxHistorySize st)%Z /\
  (Z.of_nat (length (m_history st)) <= m_maxHistorySize st)%Z /\
  nodup_by item_eqb (m_history st) = true.

(** ** [operator==] as an equivalence *)

Definition item_equiv (a b : ClipboardItem) : Prop := item_eqb a b = true.

Lemma item_eqb_key a b : item_eqb a b = bool_decide (key a = key b).
Proof.
  unfold key. destruct (item_eqb a b) eqn:E; symmetry.
  - apply bool_decide_eq_true. apply item_eqb_iff in E as [-> ->]. done.
  - apply bool_decide_eq_false. intros [= H1 H2].
    assert (item_eqb a b = true) by (apply item_eqb_iff; done). congruence.
Qed.

#[export] Instance item_equiv_equivalence : Equivalence item_equiv.
Proof.
  split; unfold item_equiv.
  - intros a. rewrite item_eqb_key. apply bool_decide_eq_true. done.
  - intros a b H. rewrite item_eqb_key in *. apply bool_decide_eq_true in H.
    apply bool_decide_eq_true. done.
  - intros a b c H1 H2. rewrite item_eqb_key in *. apply bool_decide_eq_true in H1, H2.
    apply bool_decide_eq_true. congruence.
Qed.

#[export] Instance item_eqb_proper : Proper (item_equiv ==> item_equiv ==> eq) item_eqb.
Proof.
  intros a a' Ha b b' Hb. unfold item_equiv in *. rewrite item_eqb_key in *.
  apply bool_decide_eq_true in Ha, Hb. rewrite !item_eqb_key, Ha, Hb. done.
Qed.

(** [removeFirstEqual] and [isDuplicate] only look at the key of the item. *)
#[export] Instance removeFirstEqual_proper :
  Proper (item_equiv ==> eq ==> eq) removeFirstEqual.
Proof.
  intros a b Hab h ? <-. induction h as [|x h IH]; simpl; [done|].
  rewrite IH. setoid_rewrite Hab. done.
Qed.

#[export] Instance isDuplicate_proper : Proper (item_equiv ==> eq ==> eq) isDuplicate.
Proof.
  intros a b Hab st ? <-. unfold isDuplicate. destruct (m_history st); [done|].
  setoid_rewrite Hab. done.
Qed.

Lemma item_eqb_sym a b : item_eqb a b = item_eqb b a.
Proof. rewrite !item_eqb_key. apply bool_decide_ext. done. Qed.

Lemma item_eqb_refl a : item_eqb a a = true.
Proof. change (item_equiv a a). reflexivity. Qed.

(** ** The loops of [addItem] and [setMaxHistorySize] *)

(** The trimming loop in closed form: after [fuel] iterations it has
    kept the first [max (Z.to_nat max) (length h - fuel)] entries. *)
Lemma trimLoop_closed_form fuel max h :
  trimLoop fuel max h = take (Nat.max (Z.to_nat max) (length h - fuel)) h.
Proof.
  revert h. induction fuel as [|fuel IH]; intros h; simpl.
  - symmetry. apply take_ge. lia.
  - destruct (Z.ltb_spec max (Z.of_nat (length h))) as [Hlt|Hge].
    + rewrite IH, length_removelast, removelast_take, take_take. f_equal. lia.
    + symmetry. apply take_ge. lia.
Qed.

Lemma trimLoop_take fuel max h :
  length h <= fuel -> trimLoop fuel max h = take (Z.to_nat max) h.
Proof. intros Hf. rewrite trimLoop_closed_form. f_equal. lia. Qed.

(** C15: the trimming [while] loop needs exactly
    [length h - max] iterations: with at least that much fuel it stops
    and keeps the first [max] entries (none when [max] is not positive);
    with less it is cut short, having removed one entry per unit of
    fuel.  The code's fuel, the length of the list, is enough. *)
Theorem trimLoop_iterations fuel max h :
  (length h - Z.to_nat max <= fuel -> trimLoop fuel max h = take (Z.to_nat max) h) /\
  (fuel < length h - Z.to_nat max -> length (trimLoop fuel max h) = length h - fuel).
Proof.
  rewrite trimLoop_closed_form. split; intros Hf.
  - f_equal. lia.
  - rewrite length_take. lia.
Qed.

Lemma trimLoop_iterations_witness :
  trimLoop 3 2 [writeBack_witness_item; writeBack_witness_item; writeBack_witness_item]
  = take 2 [writeBack_witness_item; writeBack_witness_item; writeBack_witness_item].
Proof. apply (trimLoop_iterations 3 2). simpl. lia. Defined.

Lemma trimHistory_take max h : trimHistory max h = take (Z.to_nat max) h.
Proof. apply trimLoop_take. done. Qed.

(** Under the invariant at most one entry equals the item, so the [for]
    loop with [break] removes every equal entry. *)
Lemma removeFirstEqual_filter it h :
  nodup_by item_eqb h = true ->
  removeFirstEqual it h = List.filter (fun x => negb (item_eqb x it)) h.
Proof.
  induction h as [|x h IH]; intros Hnd; simpl; [done|].
  apply nodup_by_cons in Hnd as [Hx Hnd].
  destruct (item_eqb x it) eqn:Exi; simpl.
  - symmetry. apply filter_id. intros y Hy. apply negb_true_iff.
    change (item_equiv x it) in Exi. rewrite <- Exi, item_eqb_sym.
    exact (existsb_false_In _ _ _ Hx Hy).
  - rewrite IH; done.
Qed.

Lemma removeFirstEqual_sublist it h : removeFirstEqual it h `sublist_of` h.
Proof. induction h as [|x h IH]; simpl; [done|]. case_if; auto with clip. Qed.

#[export] Hint Resolve removeFirstEqual_sublist : clip.

Lemma nodup_cons_filter it h :
  nodup_by item_eqb h = true ->
  nodup_by item_eqb (it :: List.filter (fun x => negb (item_eqb x it)) h) = true.
Proof.
  intros Hnd. apply nodup_by_cons. split.
  - apply not_true_iff_false. intros [y [Hy Hiy]]%existsb_exists.
    apply In_filter_false in Hy. rewrite item_eqb_sym in Hiy. congruence.
  - eauto with clip.
Qed.

(** The history after [addItem], under the invariant. *)
Lemma addItem_history it st :
  nodup_by item_eqb (m_history st) = true ->
  m_history (fst (addItem it st)) =
  take (Z.to_nat (m_maxHistorySize st))
       (it :: List.filter (fun x => negb (item_eqb x it)) (m_history st)).
Proof.
  intros Hnd. simpl. rewrite trimHistory_take, removeFirstEqual_filter by done. done.
Qed.

Lemma take_bound {A} (n : Z) (l : list A) :
  (0 <= n)%Z -> (Z.of_nat (length (take (Z.to_nat n) l)) <= n)%Z.
Proof. intros Hn. rewrite length_take. lia. Qed.

(** ** The invariant is kept by every operation *)

(** [addItem] keeps the invariant: the bound is unchanged,
    the history stays within it and has no two equal entries. *)
Theorem addItem_wf it st : wf st -> wf (fst (addItem it st)).
Proof.
  intros (Hmax & Hlen & Hnd).
  assert (Hm : m_maxHistorySize (fst (addItem it st)) = m_maxHistorySize st) by done.
  unfold wf. rewrite Hm. split; [done|]. split.
  - rewrite addItem_history by done. apply take_bound. lia.
  - rewrite addItem_history by done.
    eapply nodup_by_sublist; [apply sublist_take|]. apply nodup_cons_filter. done.
Qed.

Lemma removeItem_wf i st : wf st -> wf (fst (removeItem i st)).
Proof.
  intros (Hmax & Hlen & Hnd). unfold removeItem. case_if; [|done].
  unfold wf; simpl. bool_hyps. apply Z.leb_le in H. apply Z.ltb_lt in H0.
  rewrite length_delete by (apply lookup_lt_is_Some; lia).
  split; [done|]. split; [lia|]. eauto with clip.
Qed.

Lemma clearHistory_wf st : wf st -> wf (fst (clearHistory st)).
Proof. intros (Hmax & _ & _). unfold wf; simpl. repeat split; [done|lia]. Qed.

Lemma setMaxHistorySize_wf size st :
  nodup_by item_eqb (m_history st) = true -> wf (fst (setMaxHistorySize size st)).
Proof.
  intros Hnd. unfold wf; simpl. rewrite trimHistory_take. split; [lia|]. split.
  - apply take_bound. lia.
  - eauto with clip.
Qed.

Lemma initialStore_wf : wf initialStore.
Proof. unfold wf; simpl. repeat split; lia. Qed.

(** C1: every operation that changes the history keeps the store's
    invariant: the bound is at least one, the history is within it, and
    no two entries are equal under [operator==]. *)
Theorem operations_preserve_wf st it index size :
  wf st ->
  wf (fst (addItem it st)) /\ wf (fst (removeItem index st)) /\
  wf (fst (clearHistory st)) /\ wf (fst (setMaxHistorySize size st)).
Proof.
  intros Hwf. split; [apply addItem_wf; done|]. split; [apply removeItem_wf; done|].
  split; [apply clearHistory_wf; done|]. apply setMaxHistorySize_wf. apply Hwf.
Qed.

Lemma operations_preserve_wf_witness :
  wf (fst (addItem writeBack_witness_item initialStore)).
Proof. apply (operations_preserve_wf initialStore writeBack_witness_item 0 1 initialStore_wf). Defined.

(** ** Behaviour of each operation *)

(** C4: under the invariant, [addItem] puts the item in front, drops
    every entry equal to it, keeps the order of the others and cuts the
    list to the bound; it emits [newItemAdded] and then
    [historyChanged]. *)
Theorem addItem_spec it st :
  wf st ->
  m_history (fst (addItem it st)) =
    it :: take (Z.to_nat (m_maxHistorySize st) - 1)
               (List.filter (fun x => negb (item_eqb x it)) (m_history st)) /\
  m_maxHistorySize (fst (addItem it st)) = m_maxHistorySize st /\
  snd (addItem it st) = [NewItemAdded it; HistoryChanged].
Proof.
  intros (Hmax & Hlen & Hnd). rewrite addItem_history by done.
  split; [|done]. replace (Z.to_nat (m_maxHistorySize st)) with
    (S (Z.to_nat (m_maxHistorySize st) - 1)) by lia. simpl. rewrite Nat.sub_0_r. done.
Qed.

Lemma addItem_spec_witness :
  m_history (fst (addItem writeBack_witness_item initialStore)) = [writeBack_witness_item].
Proof.
  destruct (addItem_spec writeBack_witness_item initialStore initialStore_wf) as [-> _].
  done.
Defined.

(** C16: [removeItem(index)] with [0 <= index < size] removes that
    entry, moves the later ones up by one and emits [historyChanged];
    the bound is unchanged. *)
Theorem removeItem_in_range (index : Z) st :
  (0 <= index < Z.of_nat (length (m_history st)))%Z ->
  let st' := fst (removeItem index st) in
  (forall j : nat, m_history st' !! j =
     if decide (j < Z.to_nat index) then m_history st !! j else m_history st !! S j) /\
  length (m_history st') = length (m_history st) - 1 /\
  m_maxHistorySize st' = m_maxHistorySize st /\
  snd (removeItem index st) = [HistoryChanged].
Proof.
  intros Hi. unfold removeItem.
  rewrite (proj2 (andb_true_iff _ _) (conj (proj2 (Z.leb_le _ _) (proj1 Hi))
                                           (proj2 (Z.ltb_lt _ _) (proj2 Hi)))).
  simpl. split; [|split; [|done]].
  - intros j. rewrite list_lookup_delete. destruct (decide _); done.
  - apply length_delete, lookup_lt_is_Some. lia.
Qed.

Lemma removeItem_in_range_witness :
  (0 <= 0 < Z.of_nat (length (m_history (mkStore [writeBack_witness_item] 100))))%Z /\
  length (m_history (fst (removeItem 0 (mkStore [writeBack_witness_item] 100)))) = 0.
Proof.
  split; [simpl; lia|].
  destruct (removeItem_in_range 0 (mkStore [writeBack_witness_item] 100)) as [_ [Hl _]];
    [simpl; lia|].
  rewrite Hl. reflexivity.
Defined.

(** C36: out of range (a negative index or one past the
    end) [removeItem] changes nothing and emits nothing. *)
Theorem removeItem_out_of_range (index : Z) st :
  (index < 0 \/ Z.of_nat (length (m_history st)) <= index)%Z ->
  removeItem index st = (st, []).
Proof.
  intros Hi. unfold removeItem.
  destruct (Z.leb_spec 0 index), (Z.ltb_spec index (Z.of_nat (length (m_history st))));
    simpl; [lia|done..].
Qed.

Lemma removeItem_out_of_range_witness :
  (-1 < 0 \/ Z.of_nat (length (m_history initialStore)) <= -1)%Z /\
  removeItem (-1) initialStore = (initialStore, []).
Proof. split; [lia|]. apply removeItem_out_of_range. lia. Defined.

(** C14: [setMaxHistorySize(size)] sets the bound to [max(1, size)]
    and keeps the first entries up to it; it emits [historyChanged]
    exactly when the old length was below the requested size, so it
    stays silent whenever it drops entries, and it signals a resize that
    changed nothing. *)
Theorem setMaxHistorySize_spec size st :
  m_maxHistorySize (fst (setMaxHistorySize size st)) = Z.max 1 size /\
  m_history (fst (setMaxHistorySize size st)) = take (Z.to_nat (Z.max 1 size)) (m_history st) /\
  snd (setMaxHistorySize size st) =
    if (Z.of_nat (length (m_history st)) <? size)%Z then [HistoryChanged] else [].
Proof.
  unfold setMaxHistorySize. simpl. rewrite trimHistory_take.
  split; [done|split; [done|]]. rewrite length_take.
  destruct (Z.ltb_spec (Z.of_nat (length (m_history st))) size);
  destruct (Z.ltb_spec (Z.of_nat (Nat.min (Z.to_nat (Z.max 1 size)) (length (m_history st)))) size);
    done || lia.
Qed.

(** [clearHistory] empties the history and emits
    [historyChanged] every time, also on an empty history: two clears
    in a row emit twice. *)
Theorem clearHistory_twice st :
  let '(st1, s1) := clearHistory st in
  let '(st2, s2) := clearHistory st1 in
  m_history st1 = [] /\ m_history st2 = [] /\ st2 = st1 /\
  s1 = [HistoryChanged] /\ s2 = [HistoryChanged].
Proof. simpl. done. Qed.

(** ** The spec's examples *)

Definition textItem (s : string) (now : Z) : ClipboardItem :=
  fromMimeData (mkMime None None (Some (qstr s))) now.

Definition addAll (items : list ClipboardItem) (st : Store) : Store :=
  foldl (fun st it => fst (addItem it st)) st items.

(** Inserting A, B and A again leaves [A; B]: the repeated
    item moves to the front and the size stays 2. *)
Example dedup_promote_example :
  map m_text (m_history (addAll [textItem "alpha" 1; textItem "beta" 2; textItem "alpha" 3]
                                initialStore)) = [qstr "alpha"; qstr "beta"].
Proof. vm_compute. done. Qed.

(** With a bound of 3, inserting five distinct items keeps
    the three most recent, newest first. *)
Example capacity_trim_example :
  map m_text (m_history (addAll (map (fun s => textItem s 0) ["a"; "b"; "c"; "d"; "e"]%string)
                                (mkStore [] 3))) = [qstr "e"; qstr "d"; qstr "c"].
Proof. vm_compute. done. Qed.
End History.
