(* ===== verification/HistorySpec.v ===== *)
(** * HistorySpec: the abstract history store and its refinement

    Section 4.3 of the spec describes the history as a bounded,
    duplicate-free, most-recent-first sequence of dedup keys.  This file
    states that contract as an interface, a class [BoundedRecentStore] of
    operations with the class [BoundedRecentStoreLaws] of their laws over
    an abstract list of keys, proves the consequences a client of the
    store relies on against the interface only, and discharges the
    interface with the list operations of [ClipboardManager] ([History]):
    the instance is the refinement theorem of the code. *)

From S2P Require Import Prelude QtString ClipboardItem History.
Import Item History.

Abbreviation Key := (QString * ItemType)%type.

Module AbstractStore.
(** Insert a key: drop its old occurrence, put it in front, cut to the
    capacity. *)
Definition absInsert (cap : nat) (k : Key) (ks : list Key) : list Key :=
  take cap (k :: List.filter (fun k' => negb (bool_decide (k' = k))) ks).

Definition absRemoveAt (i : Z) (ks : list Key) : list Key :=
  if (0 <=? i)%Z && (i <? Z.of_nat (length ks))%Z then delete (Z.to_nat i) ks else ks.

Definition absResize (n : Z) (ks : list Key) : list Key := take (Z.to_nat (Z.max 1 n)) ks.
End AbstractStore.
Import AbstractStore.

(** The operations a store offers to the ingestion code and to the widgets. *)
Class BoundedRecentStore (St : Type) := {
  brs_keys : St -> list Key;
  brs_capacity : St -> Z;
  brs_inv : St -> Prop;
  brs_insert : ClipboardItem -> St -> St;
  brs_removeAt : Z -> St -> St;
  brs_clear : St -> St;
  brs_resize : Z -> St -> St
}.

(** What the store promises: its invariant, and the effect of each
    operation on the abstract list of keys. *)
Class BoundedRecentStoreLaws (St : Type) `{!BoundedRecentStore St} := {
  brs_inv_shape s : brs_inv s ->
    (1 <= brs_capacity s)%Z /\ (Z.of_nat (length (brs_keys s)) <= brs_capacity s)%Z /\
    NoDup (brs_keys s);
  brs_insert_inv it s : brs_inv s -> brs_inv (brs_insert it s);
  brs_insert_keys it s : brs_inv s ->
    brs_keys (brs_insert it s) = absInsert (Z.to_nat (brs_capacity s)) (key it) (brs_keys s);
  brs_insert_capacity it s : brs_capacity (brs_insert it s) = brs_capacity s;
  brs_removeAt_inv i s : brs_inv s -> brs_inv (brs_removeAt i s);
  brs_removeAt_keys i s : brs_keys (brs_removeAt i s) = absRemoveAt i (brs_keys s);
  brs_clear_inv s : brs_inv s -> brs_inv (brs_clear s);
  brs_clear_keys s : brs_keys (brs_clear s) = [];
  brs_resize_inv n s : brs_inv s -> brs_inv (brs_resize n s);
  brs_resize_keys n s : brs_keys (brs_resize n s) = absResize n (brs_keys s);
  brs_resize_capacity n s : brs_capacity (brs_resize n s) = Z.max 1 n
}.

(** ** Facts about the abstract insertion *)

Lemma filter_not_in (k : Key) (ks : list Key) :
  k ∉ ks -> List.filter (fun k' => negb (bool_decide (k' = k))) ks = ks.
Proof.
  intros Hk. apply filter_id. intros y Hy. apply negb_true_iff, bool_decide_eq_false.
  intros ->. apply Hk, list_elem_of_In. done.
Qed.

Lemma absInsert_head cap k ks : 1 <= cap -> head (absInsert cap k ks) = Some k.
Proof. intros Hc. unfold absInsert. destruct cap; [lia|]. done. Qed.

(** Inserting a key already present in a duplicate-free list within the
    capacity keeps its length. *)
Lemma absInsert_present_length cap k ks :
  NoDup ks -> k ∈ ks -> length ks <= cap -> length (absInsert cap k ks) = length ks.
Proof.
  intros Hnd Hk Hlen. unfold absInsert.
  apply list_elem_of_In, in_split in Hk as (l1 & l2 & Heq). subst ks.
  rewrite length_take. simpl.
  rewrite List.filter_app. simpl. rewrite bool_decide_eq_true_2 by done. simpl.
  apply NoDup_app in Hnd as (_ & Hdis & Hnd2).
  assert (Hnot1 : k ∉ l1) by (intros Hin; apply (Hdis _ Hin); left).
  apply NoDup_cons in Hnd2 as [Hnot2 _].
  rewrite !filter_not_in by done. rewrite ?length_app in *. simpl in *. lia.
Qed.

(** Inserting the newest key changes nothing. *)
Lemma absInsert_newest cap k ks :
  NoDup (k :: ks) -> length (k :: ks) <= cap -> absInsert cap k (k :: ks) = k :: ks.
Proof.
  intros Hnd Hlen. apply NoDup_cons in Hnd as [Hk _]. unfold absInsert. simpl.
  rewrite bool_decide_eq_true_2 by done. simpl. rewrite filter_not_in by done.
  apply take_ge. done.
Qed.

(** ** What a client may rely on, from the interface alone *)
Section Client.
Context `{BoundedRecentStoreLaws St}.

(** The inserted key is the newest entry. *)
Theorem client_insert_front it s :
  brs_inv s -> head (brs_keys (brs_insert it s)) = Some (key it).
Proof.
  intros Hi. rewrite brs_insert_keys by done. apply absInsert_head.
  destruct (brs_inv_shape s Hi) as (Hc & _). lia.
Qed.

(** Re-inserting a key that is present keeps the number of entries. *)
Theorem client_insert_present_length it s :
  brs_inv s -> key it ∈ brs_keys s ->
  length (brs_keys (brs_insert it s)) = length (brs_keys s).
Proof.
  intros Hi Hk. destruct (brs_inv_shape s Hi) as (Hc & Hlen & Hnd).
  rewrite brs_insert_keys by done. apply absInsert_present_length; [done|done|lia].
Qed.
End Client.

(** ** The code's store implements the interface *)

Lemma map_delete {A B} (f : A -> B) (i : nat) (l : list A) :
  map f (delete i l) = delete i (map f l).
Proof. revert i. induction l as [|x l IH]; intros [|i]; simpl; rewrite ?IH; done. Qed.

Lemma map_key_filter it (h : list ClipboardItem) :
  map key (List.filter (fun x => negb (item_eqb x it)) h) =
  List.filter (fun k' => negb (bool_decide (k' = key it))) (map key h).
Proof.
  induction h as [|x h IH]; simpl; [done|].
  rewrite item_eqb_key. destruct (bool_decide (key x = key it)); simpl; rewrite IH; done.
Qed.

(** Duplicate-freedom up to [operator==] is duplicate-freedom of the keys. *)
Lemma nodup_by_NoDup_keys (h : list ClipboardItem) :
  nodup_by item_eqb h = true <-> NoDup (map key h).
Proof.
  induction h as [|x h IH]; simpl.
  - split; [constructor|done].
  - rewrite andb_true_iff, negb_true_iff, IH, NoDup_cons. split.
    + intros [Hx Hnd]. split; [|done]. intros Hin%list_elem_of_In.
      apply in_map_iff in Hin as (y & Hy & Hin).
      pose proof (existsb_false_In _ _ _ Hx Hin) as Hxy.
      rewrite item_eqb_key, bool_decide_eq_false in Hxy. done.
    + intros [Hx Hnd]. split; [|done]. apply not_true_iff_false.
      intros (y & Hin & Hxy)%existsb_exists. rewrite item_eqb_key in Hxy.
      apply bool_decide_eq_true in Hxy. apply Hx, list_elem_of_In, in_map_iff. eauto.
Qed.

(** Under the invariant, [addItem] acts on the keys as the abstract
    insertion. *)
Lemma addItem_refines it st :
  wf st ->
  map key (m_history (fst (addItem it st))) =
  absInsert (Z.to_nat (m_maxHistorySize st)) (key it) (map key (m_history st)).
Proof.
  intros (_ & _ & Hnd). rewrite addItem_history by done. unfold absInsert.
  rewrite <- firstn_map. simpl. rewrite map_key_filter. done.
Qed.

Lemma removeItem_refines i st :
  map key (m_history (fst (removeItem i st))) = absRemoveAt i (map key (m_history st)).
Proof.
  unfold removeItem, absRemoveAt. rewrite length_map. case_if; simpl; [apply map_delete|done].
Qed.

Lemma setMaxHistorySize_refines n st :
  map key (m_history (fst (setMaxHistorySize n st))) = absResize n (map key (m_history st)).
Proof. unfold absResize. simpl. rewrite trimHistory_take, <- firstn_map. done. Qed.

(** C3: the code refines the abstract store of the spec: under the
    invariant, the keys of the history after [addItem], [removeItem],
    [clearHistory] and [setMaxHistorySize] are those the abstract
    insertion (key in front, older occurrence gone, cut to the bound),
    removal by index (nothing out of range), clear and resize compute,
    and the invariant, which makes the keys duplicate-free and within the
    bound, is kept. *)
Theorem store_refines_abstract st it index size :
  wf st ->
  map key (m_history (fst (addItem it st))) =
    absInsert (Z.to_nat (m_maxHistorySize st)) (key it) (map key (m_history st)) /\
  map key (m_history (fst (removeItem index st))) = absRemoveAt index (map key (m_history st)) /\
  map key (m_history (fst (clearHistory st))) = [] /\
  map key (m_history (fst (setMaxHistorySize size st))) = absResize size (map key (m_history st)) /\
  NoDup (map key (m_history st)).
Proof.
  intros Hwf. split; [apply addItem_refines; done|].
  split; [apply removeItem_refines|]. split; [done|].
  split; [apply setMaxHistorySize_refines|]. apply nodup_by_NoDup_keys, Hwf.
Qed.

Lemma store_refines_abstract_witness :
  map key (m_history (fst (addItem writeBack_witness_item initialStore))) =
  absInsert 100 (key writeBack_witness_item) [].
Proof.
  apply (store_refines_abstract initialStore writeBack_witness_item 0 1 initialStore_wf).
Defined.

#[export] Instance history_store : BoundedRecentStore Store := {
  brs_keys st := map key (m_history st);
  brs_capacity := m_maxHistorySize;
  brs_inv := wf;
  brs_insert it st := fst (addItem it st);
  brs_removeAt i st := fst (removeItem i st);
  brs_clear st := fst (clearHistory st);
  brs_resize n st := fst (setMaxHistorySize n st)
}.

#[export] Instance history_store_laws : BoundedRecentStoreLaws Store.
Proof.
  split; cbn [brs_keys brs_capacity brs_inv brs_insert brs_removeAt brs_clear brs_resize
                history_store].
  - intros s (Hc & Hl & Hnd). rewrite length_map. split; [done|split; [done|]].
    apply nodup_by_NoDup_keys. done.
  - apply addItem_wf.
  - exact addItem_refines.
  - done.
  - apply removeItem_wf.
  - apply removeItem_refines.
  - apply clearHistory_wf.
  - done.
  - intros n s (_ & _ & Hnd). apply setMaxHistorySize_wf. done.
  - apply setMaxHistorySize_refines.
  - done.
Qed.
