(* ===== verification/Search.v ===== *)
(** * Search: [ClipboardManager::search] and the widget's type filter

    Models [ClipboardManager::search] (a case-folded substring match on
    the text, the preview or the type label; the whole history for an
    empty query), the type filter that
    [ClipboardHistoryWidget::getFilteredItems] applies to its result (the
    combo box holds [-1] for all types, otherwise the [ItemType] value),
    and the statistics label of [ClipboardHistoryWidget::updateStats].

    Theorems: the result is the sublist of the history whose entries
    match, in history order; an empty query returns the history; the
    search ignores the case of the query; the type filter is a
    conjunction with the text search. *)

From S2P Require Import Prelude QtString ClipboardItem History.
Import Item History.

Module Search.
(** The condition of the [for] loop of [search], with the query already
    lowered. *)
Definition matchesQuery (lowerQuery : QString) (it : ClipboardItem) : bool :=
  QStr.contains (QStr.toLower (m_text it)) lowerQuery ||
  QStr.contains (QStr.toLower (m_preview it)) lowerQuery ||
  QStr.contains (QStr.toLower (typeString (m_type it))) lowerQuery.

(** [search(query)]. *)
Definition search (query : QString) (st : Store) : list ClipboardItem :=
  if QStr.isEmpty query then m_history st
  else List.filter (matchesQuery (QStr.toLower query)) (m_history st).

(** The integer value of an [ItemType] enumerator. *)
Definition enumValue (t : ItemType) : Z :=
  match t with Text => 0 | Image => 1 | Html => 2 | Url => 3 | File => 4 | Code => 5 end%Z.

(** The entries of [m_filterCombo], with their data. *)
Definition filterComboEntries : list (QString * Z) :=
  [(qstr "All Types", -1); (qstr "Text", enumValue Text); (qstr "Images", enumValue Image);
   (qstr "URLs", enumValue Url); (qstr "Code", enumValue Code); (qstr "Files", enumValue File)]%Z.

(** [getFilteredItems]: the search result, then the type filter unless
    the combo's data is [-1]. *)
Definition getFilteredItems (searchText : QString) (filterType : Z) (st : Store)
  : list ClipboardItem :=
  let items := search searchText st in
  if (filterType =? -1)%Z then items
  else List.filter (fun it => (enumValue (m_type it) =? filterType)%Z) items.

Definition itemsSuffix (n : nat) : QString := if n =? 1 then [] else qstr "s".

(** [updateStats] when a manager is set. *)
Definition statsLabel (searchText : QString) (filterType : Z) (st : Store) : QString :=
  let total := length (m_history st) in
  let filtered := length (getFilteredItems searchText filterType st) in
  if QStr.isEmpty searchText && (filterType =? -1)%Z
  then QStr.number total ++ qstr " item" ++ itemsSuffix total
  else QStr.number filtered ++ qstr " of " ++ QStr.number total ++ qstr " item" ++
       itemsSuffix total.

(** ** Helper lemmas *)

(** [statsLabel] is what the two templates of [updateStats] give:
    [QString("%1 item%2").arg(total).arg(suffix)] and
    [QString("%1 of %2 item%3").arg(filtered).arg(total).arg(suffix)]. *)
Lemma statsLabel_arg searchText filterType st :
  let total := QArg.widen (QStr.number (length (m_history st))) in
  let filtered := QArg.widen (QStr.number (length (getFilteredItems searchText filterType st))) in
  let suffix := QArg.widen (itemsSuffix (length (m_history st))) in
  QArg.widen (statsLabel searchText filterType st) =
  if QStr.isEmpty searchText && (filterType =? -1)%Z
  then QArg.arg (QArg.arg (QArg.widen (qstr "%1 item%2")) total) suffix
  else QArg.arg (QArg.arg (QArg.arg (QArg.widen (qstr "%1 of %2 item%3")) filtered) total) suffix.
Proof.
  intros total filtered suffix. unfold statsLabel. cbv zeta.
  change (QArg.arg (QArg.widen (qstr "%1 item%2")) total) with (total ++ QArg.widen (qstr " item%2")).
  change (QArg.arg (QArg.widen (qstr "%1 of %2 item%3")) filtered)
    with (filtered ++ QArg.widen (qstr " of %2 item%3")).
  rewrite !arg_lits_l by no_percent.
  change (QArg.arg (QArg.widen (qstr " item%2")) suffix) with (QArg.widen (qstr " item") ++ suffix ++ []).
  change (QArg.arg (QArg.widen (qstr " of %2 item%3")) total)
    with (QArg.widen (qstr " of ") ++ total ++ QArg.widen (qstr " item%3")).
  rewrite !arg_lits_l by no_percent.
  change (QArg.arg (QArg.widen (qstr " item%3")) suffix) with (QArg.widen (qstr " item") ++ suffix ++ []).
  rewrite !app_nil_r. destruct (_ && _); rewrite !widen_app; reflexivity.
Qed.

Lemma toLower_char_idem c : QChar.toLower (QChar.toLower c) = QChar.toLower c.
Proof. destruct c as [[] [] [] [] [] [] [] []]; vm_compute; reflexivity. Qed.

Lemma toLower_idem s : QStr.toLower (QStr.toLower s) = QStr.toLower s.
Proof.
  unfold QStr.toLower. rewrite map_map. apply map_ext. apply toLower_char_idem.
Qed.

Lemma isEmpty_toLower s : QStr.isEmpty (QStr.toLower s) = QStr.isEmpty s.
Proof. destruct s; done. Qed.

Lemma search_sublist query st : search query st `sublist_of` m_history st.
Proof. unfold search. destruct (QStr.isEmpty query); [done|apply filter_sublist]. Qed.

(** The spec's case-insensitive containment, written with a factor of
    the lower-cased haystack instead of [QString::contains]. *)
Definition occursIgnoringCase (needle hay : QString) : Prop :=
  exists u v, QStr.toLower hay = u ++ QStr.toLower needle ++ v.

Lemma matchesQuery_spec query it :
  matchesQuery (QStr.toLower query) it = true <->
  occursIgnoringCase query (m_text it) \/ occursIgnoringCase query (m_preview it) \/
  occursIgnoringCase query (typeString (m_type it)).
Proof.
  unfold matchesQuery, occursIgnoringCase. rewrite !orb_true_iff, !contains_spec. tauto.
Qed.

(** ** Properties *)

(** C26: the result of a search is the sublist of the history made
    of the entries whose text, preview or type label contains the query
    when both are put in lower case, in history order; with an empty
    query it is the whole history. *)
Theorem search_spec query st :
  search query st `sublist_of` m_history st /\
  (forall it, In it (search query st) <->
              In it (m_history st) /\
              (query = [] \/ occursIgnoringCase query (m_text it) \/
               occursIgnoringCase query (m_preview it) \/
               occursIgnoringCase query (typeString (m_type it)))).
Proof.
  split; [apply search_sublist|].
  intros it. unfold search. destruct query as [|c q]; [simpl; tauto|].
  cbn [QStr.isEmpty]. rewrite filter_In, matchesQuery_spec. split; [tauto|].
  intros [Hin [?|H]]; [discriminate|tauto].
Qed.

(** The search does not depend on the case of the query:
    searching for a query and for its lower-case form give the same
    result. *)
Theorem search_case_insensitive query st :
  search (QStr.toLower query) st = search query st.
Proof. unfold search. rewrite isEmpty_toLower, toLower_idem. done. Qed.

(** The spec's example: the query "EXAMPLE" finds the
    entry whose text is "an example string", and the empty query
    returns the history unchanged. *)
Example search_example :
  let st := fst (addItem (textItem "an example string" 0) initialStore) in
  map m_text (search (qstr "EXAMPLE") st) = [qstr "an example string"] /\
  search [] st = m_history st.
Proof. vm_compute. split; reflexivity. Qed.

(** C27: [getFilteredItems] keeps the entries that match the text
    search and, unless the filter is [-1], have the selected type; the
    result is in history order. *)
Theorem getFilteredItems_spec searchText filterType st :
  getFilteredItems searchText filterType st `sublist_of` m_history st /\
  (forall it, In it (getFilteredItems searchText filterType st) <->
              In it (search searchText st) /\
              (filterType = (-1)%Z \/ enumValue (m_type it) = filterType)).
Proof.
  pose proof (search_sublist searchText st) as Hsub.
  unfold getFilteredItems. destruct (Z.eqb_spec filterType (-1)) as [->|Hne].
  - split; [done|]. intros it. tauto.
  - split; [etrans; [apply filter_sublist|done]|]. intros it. rewrite filter_In, Z.eqb_eq.
    split; [tauto|]. intros [Hin [?|?]]; done.
Qed.
End Search.
