(* ===== verification/Manager.v ===== *)
(** * Manager: ingestion of clipboard changes and the program's events

    Models [ClipboardManager]'s constructor and its slot
    [onClipboardChanged] ([src/src/ClipboardManager.cpp]), with the
    fields the slot reads: the store of [History], the state of
    [m_updateTimer] and the unused [m_lastClipboardText].  The slot is
    called with a sender: [QClipboard::dataChanged] (the clipboard), the
    timer's [timeout], or a direct call from the constructor.

    The whole program is a transition system on [System] (the manager,
    the clipboard's current [QMimeData] and the log of emitted signals)
    whose events are an external copy, a copy-back of a history entry by
    a widget ([copyToClipboard] followed by the clipboard's change
    signal), the widgets' removal, clear and resize requests, and the
    timer's expiry.  [Reachable] is the set of states from the
    constructor on; its invariants are proved by induction on the
    reachability derivation.

    Theorems: the store invariant of every reachable state; that the
    timer is never running, so the guard of [onClipboardChanged] never
    drops a signal; the behaviour of an ingestion on each branch; what a
    copy-back does to the history; and what an empty snapshot does. *)

From S2P Require Import Prelude QtString ClipboardItem History HistorySpec.
Import Item History AbstractStore.

Module Manager.
Record Manager := mkManager {
  m_store : Store;
  m_updateTimerActive : bool;
  m_lastClipboardText : QString
}.

(** [sender()] inside the slot. *)
Inductive Sender := SenderClipboard | SenderTimer | SenderNone.

(** [onClipboardChanged]: no data, then the guard against the
    manager's own changes, then empty or repeated items are dropped;
    otherwise [addItem]. *)
Definition onClipboardChanged (sender : Sender) (mimeData : option MimeData) (now : Z)
    (m : Manager) : Manager * list Signal :=
  match mimeData with
  | None => (m, [])
  | Some md =>
      if match sender with SenderClipboard => m_updateTimerActive m | _ => false end
      then (m, [])
      else
        let newItem := fromMimeData md now in
        if QStr.isEmpty (m_text newItem) || isDuplicate newItem (m_store m) then (m, [])
        else
          let '(st', sigs) := addItem newItem (m_store m) in
          (mkManager st' (m_updateTimerActive m) (m_lastClipboardText m), sigs)
  end.

(** The constructor: bound 100, the timer configured (single shot,
    100 ms) but not started, then a direct call of the slot. *)
Definition construct (clipboard : option MimeData) (now : Z) : Manager * list Signal :=
  onClipboardChanged SenderNone clipboard now (mkManager initialStore false []).

(** ** The program as a transition system *)

Record System := mkSystem {
  sys_manager : Manager;
  sys_clipboard : option MimeData;
  sys_log : list Signal
}.

Inductive Event :=
  | ExternalCopy (md : option MimeData) (now : Z)
  | CopyBack (index : Z) (now : Z)
  | UserRemove (index : Z)
  | UserClear
  | UserSetMax (size : Z)
  | TimerTimeout (now : Z).

Definition history (s : System) : list ClipboardItem := m_history (m_store (sys_manager s)).

(** The clipboard signals a change and the slot runs. *)
Definition ingest (sender : Sender) (now : Z) (s : System) : System :=
  let '(m', sigs) := onClipboardChanged sender (sys_clipboard s) now (sys_manager s) in
  mkSystem m' (sys_clipboard s) (sys_log s ++ sigs).

(** A store operation called by a widget. *)
Definition applyStore (f : Store -> Store * list Signal) (s : System) : System :=
  let m := sys_manager s in
  let '(st', sigs) := f (m_store m) in
  mkSystem (mkManager st' (m_updateTimerActive m) (m_lastClipboardText m))
           (sys_clipboard s) (sys_log s ++ sigs).

(** One event; [None] when the event cannot happen (a timer that is not
    running does not time out). *)
Definition step (e : Event) (s : System) : option System :=
  match e with
  | ExternalCopy md now => Some (ingest SenderClipboard now (mkSystem (sys_manager s) md (sys_log s)))
  | CopyBack index now =>
      if (0 <=? index)%Z && (index <? Z.of_nat (length (history s)))%Z then
        match history s !! Z.to_nat index with
        | Some it =>
            let clip := Some (mimeOfWrite (copyToClipboard it)) in
            Some (ingest SenderClipboard now (mkSystem (sys_manager s) clip (sys_log s)))
        | None => Some s
        end
      else Some s
  | UserRemove index => Some (applyStore (removeItem index) s)
  | UserClear => Some (applyStore clearHistory s)
  | UserSetMax size => Some (applyStore (setMaxHistorySize size) s)
  | TimerTimeout now =>
      if m_updateTimerActive (sys_manager s) then Some (ingest SenderTimer now s) else None
  end.

Definition initSystem (clipboard : option MimeData) (now : Z) : System :=
  let '(m, sigs) := construct clipboard now in mkSystem m clipboard sigs.

Inductive Step : System -> System -> Prop :=
  | step_event e s s' : step e s = Some s' -> Step s s'.

Inductive Reachable : System -> Prop :=
  | reach_init clipboard now : Reachable (initSystem clipboard now)
  | reach_step s s' : Reachable s -> Step s s' -> Reachable s'.

(** An entry of the history was built from a clipboard snapshot and has
    a non-empty text. *)
Definition fromSnapshot (it : ClipboardItem) : Prop :=
  (exists md now, it = fromMimeData md now) /\ QStr.isEmpty (m_text it) = false.

(** The invariant of the reachable states. *)
Definition Inv (s : System) : Prop :=
  wf (m_store (sys_manager s)) /\
  m_updateTimerActive (sys_manager s) = false /\
  Forall fromSnapshot (history s).

(** ** The invariant holds in every reachable state *)

Lemma addItem_fromSnapshot it st :
  fromSnapshot it -> wf st -> Forall fromSnapshot (m_history st) ->
  Forall fromSnapshot (m_history (fst (addItem it st))).
Proof.
  intros Hit (_ & _ & Hnd) HF. rewrite addItem_history by done.
  eapply Forall_sublist_of; [apply sublist_take|].
  constructor; [done|]. eauto with clip.
Qed.

(** With the timer stopped the sender does not matter: the slot drops
    the signal or adds the item. *)
Lemma onClipboardChanged_cases sender mime now m :
  m_updateTimerActive m = false ->
  match mime with
  | None => onClipboardChanged sender mime now m = (m, [])
  | Some md =>
      let it := fromMimeData md now in
      (QStr.isEmpty (m_text it) || isDuplicate it (m_store m) = true ->
         onClipboardChanged sender mime now m = (m, [])) /\
      (QStr.isEmpty (m_text it) || isDuplicate it (m_store m) = false ->
         onClipboardChanged sender mime now m =
           (mkManager (fst (addItem it (m_store m))) false (m_lastClipboardText m),
            [NewItemAdded it; HistoryChanged]))
  end.
Proof.
  intros Ht. destruct mime as [md|]; [|done]. cbn zeta. unfold onClipboardChanged.
  assert (Hg : match sender with SenderClipboard => m_updateTimerActive m | _ => false end
               = false) by (destruct sender; done).
  rewrite Hg. split; intros H; rewrite H; [done|]. rewrite Ht. done.
Qed.

Lemma onClipboardChanged_inv sender mime now m :
  wf (m_store m) -> m_updateTimerActive m = false ->
  Forall fromSnapshot (m_history (m_store m)) ->
  let m' := fst (onClipboardChanged sender mime now m) in
  wf (m_store m') /\ m_updateTimerActive m' = false /\
  Forall fromSnapshot (m_history (m_store m')).
Proof.
  intros Hwf Ht HF. pose proof (onClipboardChanged_cases sender mime now m Ht) as Hs.
  destruct mime as [md|]; [|rewrite Hs; done].
  destruct (QStr.isEmpty (m_text (fromMimeData md now))) eqn:He;
    [rewrite (proj1 Hs) by (rewrite He; done); done|].
  destruct (isDuplicate (fromMimeData md now) (m_store m)) eqn:Hd;
    [rewrite (proj1 Hs) by (rewrite He, Hd; done); done|].
  rewrite (proj2 Hs) by (rewrite He, Hd; done). simpl.
  split; [apply addItem_wf; done|split; [done|]].
  apply addItem_fromSnapshot; [split; [eauto|done]|done..].
Qed.

Lemma applyStore_inv f s :
  Inv s ->
  (forall st, wf st -> wf (fst (f st))) ->
  (forall st, m_history (fst (f st)) `sublist_of` m_history st) ->
  Inv (applyStore f s).
Proof.
  intros (Hwf & Ht & HF) Hfw Hsub. unfold applyStore, Inv, history in *.
  destruct (f (m_store (sys_manager s))) as [st' sigs] eqn:E. simpl.
  pose proof (Hfw _ Hwf) as Hw'. pose proof (Hsub (m_store (sys_manager s))) as Hs'.
  rewrite E in Hw', Hs'. simpl in *. eauto with clip.
Qed.

Lemma ingest_inv sender now s : Inv s -> Inv (ingest sender now s).
Proof.
  intros (Hwf & Ht & HF). unfold ingest, Inv, history in *.
  pose proof (onClipboardChanged_inv sender (sys_clipboard s) now _ Hwf Ht HF) as H.
  destruct (onClipboardChanged _ _ _ _). exact H.
Qed.

Lemma step_inv e s s' : Inv s -> step e s = Some s' -> Inv s'.
Proof.
  intros Hs Hstep. destruct e; simpl in Hstep.
  - injection Hstep as <-. apply ingest_inv. done.
  - destruct (_ && _); [|injection Hstep as <-; done].
    destruct (history s !! _); injection Hstep as <-; [apply ingest_inv|]; done.
  - injection Hstep as <-. apply applyStore_inv; [done|apply removeItem_wf|].
    intros st. unfold removeItem. case_if; simpl; auto with clip.
  - injection Hstep as <-. apply applyStore_inv; [done|apply clearHistory_wf|].
    intros st. simpl. auto with clip.
  - injection Hstep as <-. apply applyStore_inv; [done| |].
    + intros st (_ & _ & Hnd). apply setMaxHistorySize_wf. done.
    + intros st. simpl. rewrite trimHistory_take. auto with clip.
  - destruct Hs as (_ & Ht & _). rewrite Ht in Hstep. done.
Qed.

Lemma initSystem_inv clipboard now : Inv (initSystem clipboard now).
Proof.
  unfold initSystem, construct.
  pose proof (onClipboardChanged_inv SenderNone clipboard now
                (mkManager initialStore false []) initialStore_wf eq_refl (List.Forall_nil _)) as H.
  destruct (onClipboardChanged _ _ _ _). exact H.
Qed.

Lemma reachable_inv s : Reachable s -> Inv s.
Proof.
  induction 1 as [|s s' _ IH Hst]; [apply initSystem_inv|].
  destruct Hst as [e s s' He]. eapply step_inv; eauto.
Qed.

(** ** Properties of the running program *)

(** C2: in every reachable state the bound is at least one, the
    history is within it, and no two entries are equal under
    [operator==]. *)
Theorem reachable_wf s : Reachable s -> wf (m_store (sys_manager s)).
Proof. intros Hr. apply reachable_inv. done. Qed.

Lemma reachable_wf_witness : wf (m_store (sys_manager (initSystem None 0))).
Proof. apply reachable_wf. apply reach_init. Defined.

(** C13: [m_updateTimer] is configured but never started, so in
    every reachable state the guard of [onClipboardChanged] lets every
    clipboard signal through (the slot behaves as a direct call) and
    the timer never times out. *)
Theorem echo_guard_never_fires s :
  Reachable s ->
  (forall mime now, onClipboardChanged SenderClipboard mime now (sys_manager s) =
                    onClipboardChanged SenderNone mime now (sys_manager s)) /\
  (forall now, step (TimerTimeout now) s = None).
Proof.
  intros Hr. destruct (reachable_inv s Hr) as (_ & Ht & _). split.
  - intros mime now. unfold onClipboardChanged. rewrite Ht. done.
  - intros now. simpl. rewrite Ht. done.
Qed.

Lemma echo_guard_never_fires_witness : step (TimerTimeout 5) (initSystem None 0) = None.
Proof. apply (echo_guard_never_fires (initSystem None 0) (reach_init None 0)). Defined.

Lemma history_ingest_clipboard md now s :
  m_updateTimerActive (sys_manager s) = false ->
  let it := fromMimeData md now in
  history (ingest SenderClipboard now (mkSystem (sys_manager s) (Some md) (sys_log s))) =
  if QStr.isEmpty (m_text it) || isDuplicate it (m_store (sys_manager s))
  then history s else m_history (fst (addItem it (m_store (sys_manager s)))).
Proof.
  intros Ht. cbn zeta. unfold ingest. cbn [sys_clipboard sys_manager].
  pose proof (onClipboardChanged_cases SenderClipboard (Some md) now _ Ht) as [Hd Ha].
  destruct (_ || _) eqn:E; [rewrite (Hd eq_refl)|rewrite (Ha eq_refl)]; reflexivity.
Qed.

(** C11: in every reachable state an external copy is handled on
    each branch of [onClipboardChanged]: a missing snapshot, an item
    with an empty text or an item equal to the newest entry leave the
    history unchanged and emit nothing; any other item goes through
    [addItem], which emits [newItemAdded] then [historyChanged].  The
    clipboard then holds the new snapshot. *)
Theorem externalCopy_spec s mime now :
  Reachable s ->
  exists s', step (ExternalCopy mime now) s = Some s' /\ sys_clipboard s' = mime /\
  match mime with
  | None => history s' = history s /\ sys_log s' = sys_log s
  | Some md =>
      let it := fromMimeData md now in
      if QStr.isEmpty (m_text it) || isDuplicate it (m_store (sys_manager s))
      then history s' = history s /\ sys_log s' = sys_log s
      else history s' = m_history (fst (addItem it (m_store (sys_manager s)))) /\
           sys_log s' = sys_log s ++ [NewItemAdded it; HistoryChanged]
  end.
Proof.
  intros Hr. destruct (reachable_inv s Hr) as (_ & Ht & _).
  eexists; split; [reflexivity|]. unfold ingest. cbn [sys_clipboard sys_manager sys_log].
  pose proof (onClipboardChanged_cases SenderClipboard mime now _ Ht) as Hc.
  destruct mime as [md|].
  - cbn zeta in *. destruct Hc as [Hd Ha].
    destruct (_ || _) eqn:E; [rewrite (Hd eq_refl)|rewrite (Ha eq_refl)];
      (split; [reflexivity|]); simpl; rewrite ?app_nil_r; done.
  - rewrite Hc. simpl. rewrite app_nil_r. done.
Qed.

Lemma externalCopy_spec_witness :
  exists s', step (ExternalCopy None 1) (initSystem None 0) = Some s' /\
    sys_clipboard s' = None /\
    history s' = history (initSystem None 0) /\ sys_log s' = sys_log (initSystem None 0).
Proof. apply (externalCopy_spec (initSystem None 0) None 1 (reach_init None 0)). Defined.

(** C10: after an external copy whose snapshot has a non-empty
    text, the newest history entry equals (under [operator==]) the item
    built from that snapshot. *)
Theorem externalCopy_recorded s md now :
  Reachable s ->
  QStr.isEmpty (m_text (fromMimeData md now)) = false ->
  exists s', step (ExternalCopy (Some md) now) s = Some s' /\
    exists x rest, history s' = x :: rest /\ item_eqb x (fromMimeData md now) = true.
Proof.
  intros Hr He. destruct (reachable_inv s Hr) as (Hwf & Ht & _).
  eexists; split; [reflexivity|].
  rewrite (history_ingest_clipboard md now s Ht), He, orb_false_l.
  destruct (isDuplicate _ _) eqn:Hd.
  - unfold isDuplicate, history in *. destruct (m_history _) as [|x rest]; [done|]. eauto.
  - destruct Hwf as (Hmax & _ & Hnd). rewrite addItem_history by done.
    replace (Z.to_nat (m_maxHistorySize (m_store (sys_manager s)))) with
      (S (Z.to_nat (m_maxHistorySize (m_store (sys_manager s))) - 1)) by lia.
    eexists _, _. split; [reflexivity|]. apply item_eqb_refl.
Qed.

Lemma externalCopy_recorded_witness :
  exists s', step (ExternalCopy (Some (mkMime None None (Some (qstr "x")))) 1)
                  (initSystem None 0) = Some s' /\
    exists x rest, history s' = x :: rest /\
      item_eqb x (fromMimeData (mkMime None None (Some (qstr "x"))) 1) = true.
Proof. apply externalCopy_recorded; [apply reach_init|vm_compute; reflexivity]. Defined.

Lemma copyBack_step s (i : nat) it now :
  history s !! i = Some it ->
  step (CopyBack (Z.of_nat i) now) s =
  Some (ingest SenderClipboard now
          (mkSystem (sys_manager s) (Some (mimeOfWrite (copyToClipboard it))) (sys_log s))).
Proof.
  intros Hi. simpl. rewrite Nat2Z.id, Hi.
  assert (i < length (history s)) by (eapply lookup_lt_Some; done).
  destruct (Z.leb_spec 0 (Z.of_nat i)), (Z.ltb_spec (Z.of_nat i) (Z.of_nat (length (history s))));
    done || lia.
Qed.

Lemma key_in_history (h : list ClipboardItem) i it :
  h !! i = Some it -> key it ∈ map key h.
Proof.
  intros Hi. apply list_elem_of_In, in_map, list_elem_of_In.
  eapply list_elem_of_lookup_2. done.
Qed.

(** C12: copying an entry back to the clipboard from a widget
    (an entry that is not HTML and not a null image) adds no entry: the
    clipboard's change signal is not suppressed, the copy is classified
    again into an equal item, and the history becomes the abstract
    insertion of its key, which moves it to the front and keeps the
    length. *)
Theorem copyBack_promotes s (i : nat) it now :
  Reachable s ->
  history s !! i = Some it ->
  m_type it <> Html ->
  (m_type it = Image -> isNull (m_image it) = false) ->
  exists s', step (CopyBack (Z.of_nat i) now) s = Some s' /\
    map key (history s') =
      absInsert (Z.to_nat (m_maxHistorySize (m_store (sys_manager s)))) (key it)
                (map key (history s)) /\
    length (history s') = length (history s).
Proof.
  intros Hr Hi Hty Himg. destruct (reachable_inv s Hr) as (Hwf & Ht & HF).
  destruct (Forall_lookup_1 _ _ _ _ HF Hi) as [(md & t & ->) Hne].
  set (it' := fromMimeData (mimeOfWrite (copyToClipboard (fromMimeData md t))) now).
  assert (Heq : item_eqb it' (fromMimeData md t) = true)
    by (apply writeBack_reclassifies_equal; done).
  assert (Hkey : key it' = key (fromMimeData md t))
    by (rewrite item_eqb_key in Heq; apply bool_decide_eq_true in Heq; done).
  assert (Hne' : QStr.isEmpty (m_text it') = false)
    by (apply item_eqb_iff in Heq as [-> _]; done).
  pose proof (key_in_history _ _ _ Hi) as Hin.
  destruct Hwf as (Hmax & Hlen & Hnd).
  assert (HndK := proj1 (nodup_by_NoDup_keys _) Hnd).
  eexists; split; [apply copyBack_step; done|].
  rewrite (history_ingest_clipboard _ now s Ht). fold it'. rewrite Hne', orb_false_l.
  assert (Hkeys : map key (if isDuplicate it' (m_store (sys_manager s))
                           then history s else m_history (fst (addItem it' (m_store (sys_manager s)))))
                  = absInsert (Z.to_nat (m_maxHistorySize (m_store (sys_manager s))))
                              (key (fromMimeData md t)) (map key (history s))).
  { destruct (isDuplicate it' _) eqn:Hd.
    - unfold isDuplicate, history in *. destruct (m_history _) as [|x rest]; [done|].
      rewrite item_eqb_key in Hd. apply bool_decide_eq_true in Hd.
      simpl in *. rewrite <- Hkey, <- Hd. symmetry. apply absInsert_newest; [done|].
      simpl. rewrite length_map. lia.
    - rewrite <- Hkey. apply addItem_refines. done. }
  split; [exact Hkeys|].
  rewrite <- (length_map key), Hkeys, absInsert_present_length, length_map; [done|done|done|].
  rewrite length_map. unfold history. lia.
Qed.

Definition copyBackWitnessSystem : System := initSystem (Some (mkMime None None (Some (qstr "x")))) 0.

Lemma copyBack_promotes_witness :
  exists s', step (CopyBack (Z.of_nat 0) 1) copyBackWitnessSystem = Some s' /\
    map key (history s') =
      absInsert (Z.to_nat (m_maxHistorySize (m_store (sys_manager copyBackWitnessSystem))))
                (key (fromMimeData (mkMime None None (Some (qstr "x"))) 0))
                (map key (history copyBackWitnessSystem)) /\
    length (history s') = length (history copyBackWitnessSystem).
Proof.
  apply copyBack_promotes; [apply reach_init|vm_compute; reflexivity|vm_compute; discriminate|
                            vm_compute; discriminate].
Defined.

(** C24: copying an HTML entry back from a widget adds an entry
    instead of promoting it: the markup is written as plain text and
    classified again, so the newest entry afterwards has that text and a
    type other than HTML, and the HTML entry itself stays in the history
    (it is not dropped while the history has room). *)
Theorem html_copyBack_adds_entry s (i : nat) it now :
  Reachable s -> history s !! i = Some it -> m_type it = Html ->
  exists s' x rest, step (CopyBack (Z.of_nat i) now) s = Some s' /\
    history s' = x :: rest /\ m_text x = m_text it /\ m_type x <> Html /\
    ((Z.of_nat (length (history s)) < m_maxHistorySize (m_store (sys_manager s)))%Z ->
     it ∈ history s').
Proof.
  intros Hr Hi Hh. destruct (reachable_inv s Hr) as ((Hmax & Hlen & Hnd) & Ht & HF).
  destruct (Forall_lookup_1 _ _ _ _ HF Hi) as [_ Hne].
  set (x' := fromMimeData (mimeOfWrite (copyToClipboard it)) now).
  assert (Hx : m_text x' = m_text it /\ m_type x' <> Html).
  { subst x'. rewrite (copyToClipboard_html it Hh). cbn.
    split; [done|apply determineType_text_kinds]. }
  assert (Hin : it ∈ history s) by (eapply list_elem_of_lookup_2; done).
  rewrite (copyBack_step s i it now Hi).
  pose proof (history_ingest_clipboard (mimeOfWrite (copyToClipboard it)) now s Ht) as Hs'.
  cbv zeta in Hs'. fold x' in Hs'. rewrite (proj1 Hx), Hne, orb_false_l in Hs'.
  match type of Hs' with history ?s1 = _ => exists s1 end. rewrite Hs'.
  destruct Hx as [Hxt Hxty].
  destruct (isDuplicate x' _) eqn:Hd.
  - unfold isDuplicate, history in *. destruct (m_history _) as [|y rest] eqn:Eh; [done|].
    apply item_eqb_iff in Hd as [Hyt Hyty].
    do 2 eexists. split_and!; [reflexivity|reflexivity|congruence|congruence|done].
  - unfold history in *. rewrite addItem_history by done.
    destruct (Z.to_nat (m_maxHistorySize _)) as [|n] eqn:En; [lia|].
    do 2 eexists. split_and!; [reflexivity|reflexivity|exact Hxt|exact Hxty|].
    intros Hl. set (l := List.filter (fun y => negb (item_eqb y x')) (m_history (m_store (sys_manager s)))).
    change (it ∈ x' :: take n l). apply elem_of_cons. right.
    assert (Hfl : length l <= length (m_history (m_store (sys_manager s)))) by apply filter_length_le.
    rewrite take_ge by lia. subst l.
    apply list_elem_of_In, filter_In. split; [by apply list_elem_of_In|].
    apply negb_true_iff, not_true_iff_false. rewrite item_eqb_iff. intros [_ ?]. apply Hxty. congruence.
Qed.

Lemma html_copyBack_adds_entry_witness :
  let md := mkMime None (Some (qstr "<b>hi</b>")) (Some (qstr "hi")) in
  exists s' x rest, step (CopyBack (Z.of_nat 0) 1) (initSystem (Some md) 0) = Some s' /\
    history s' = x :: rest /\ m_text x = m_text (fromMimeData md 0) /\ m_type x <> Html /\
    ((Z.of_nat (length (history (initSystem (Some md) 0))) <
      m_maxHistorySize (m_store (sys_manager (initSystem (Some md) 0))))%Z ->
     fromMimeData md 0 ∈ history s').
Proof.
  cbv zeta.
  apply (html_copyBack_adds_entry _ 0 _ 1 (reach_init _ 0)); reflexivity.
Defined.

(** C25: with the timer stopped (as in every reachable state) and a
    snapshot that does not repeat the newest entry, [onClipboardChanged]
    drops the snapshot exactly when it has no image and its HTML, or
    with no HTML its text, is the empty string: a snapshot with no data
    at all becomes the text "Unknown format" and is recorded. *)
Theorem empty_snapshot_recorded m md now :
  m_updateTimerActive m = false -> isDuplicate (fromMimeData md now) (m_store m) = false ->
  (onClipboardChanged SenderClipboard (Some md) now m = (m, []) <->
   md_image md = None /\ (md_html md = Some [] \/ (md_html md = None /\ md_text md = Some []))).
Proof.
  intros Ht Hd. rewrite <- (fromMimeData_text_empty md now).
  pose proof (onClipboardChanged_cases SenderClipboard (Some md) now m Ht) as [Hdrop Hadd].
  rewrite Hd, orb_false_r in Hdrop, Hadd.
  destruct (QStr.isEmpty (m_text (fromMimeData md now))).
  - split; intros _; [reflexivity|by apply Hdrop].
  - rewrite (Hadd eq_refl). split; [intros [=]|intros [=]].
Qed.

Lemma empty_snapshot_recorded_witness :
  let m0 := mkManager initialStore false [] in
  onClipboardChanged SenderClipboard (Some (mkMime None None None)) 0 m0 <> (m0, []).
Proof.
  cbv zeta. intros H.
  apply (empty_snapshot_recorded (mkManager initialStore false []) (mkMime None None None) 0
    eq_refl eq_refl) in H as [_ [H|[_ H]]]; discriminate.
Defined.

End Manager.
