(* ===== verification/Views.v ===== *)
(** * Views: how the two widgets map a clicked row to a history entry

    Models the index handling of [src/src/ClipboardHistoryWidget.cpp] and
    [src/src/TrayPopupWidget.cpp].  Both widgets fill a [QListWidget] with
    one row per displayed item (the result of a search, and in the main
    widget of the type filter), store in each row the row's position in
    the displayed list ([Qt::UserRole]), and add a disabled placeholder
    row, without data, when nothing is displayed.  A click reads the
    stored number with [QVariant::toInt] (0 for a row without data) and
    uses it as an index into the whole history.  The tray popup shows at
    most ten rows.  The tray tooltip of [SystemTrayManager] shows the
    item count.

    Theorems: without a search or a filter every row designates the item
    it shows; with a search a row can designate another entry (the
    widgets copy or remove the wrong entry); the placeholder row
    designates the newest entry; the tray shows at most ten rows. *)

From S2P Require Import Prelude QtString ClipboardItem History Search.
Import Item History Search.

Module Views.
(** A [QListWidgetItem]: the item it shows and its [Qt::UserRole] data. *)
Record Row := mkRow { row_item : option ClipboardItem; row_data : option Z }.

(** [item->data(Qt::UserRole).toInt()]: an invalid variant gives 0. *)
Definition rowIndex (r : Row) : Z := match row_data r with Some i => i | None => 0%Z end.

Definition placeholder : Row := mkRow None None.

Fixpoint numberRows (i : nat) (items : list ClipboardItem) : list Row :=
  match items with
  | [] => []
  | it :: items' => mkRow (Some it) (Some (Z.of_nat i)) :: numberRows (S i) items'
  end.

(** [ClipboardHistoryWidget::updateHistoryList(items)]. *)
Definition historyWidgetRows (items : list ClipboardItem) : list Row :=
  numberRows 0 items ++ (if bool_decide (items = []) then [placeholder] else []).

(** [ClipboardHistoryWidget::updateHistoryList()]: the filtered items. *)
Definition historyWidgetView (searchText : QString) (filterType : Z) (st : Store) : list Row :=
  historyWidgetRows (getFilteredItems searchText filterType st).

(** [TrayPopupWidget::updateHistoryList(items)]: at most ten rows. *)
Definition trayRows (items : list ClipboardItem) : list Row :=
  numberRows 0 (take 10 items) ++ (if bool_decide (items = []) then [placeholder] else []).

(** [TrayPopupWidget::onSearchTextChanged]. *)
Definition trayView (searchText : QString) (st : Store) : list Row :=
  trayRows (search searchText st).

(** The history entry a row designates: [history[index]] when
    [0 <= index < history.size()]. *)
Definition designated (r : Row) (st : Store) : option ClipboardItem :=
  let index := rowIndex r in
  if (0 <=? index)%Z && (index <? Z.of_nat (length (m_history st)))%Z
  then m_history st !! Z.to_nat index else None.

(** [onItemDoubleClicked] (main widget) and [onItemClicked] (tray):
    what is written to the clipboard. *)
Definition onItemActivated (r : Row) (st : Store) : option ClipboardWrite :=
  copyToClipboard <$> designated r st.

(** [showItemContextMenu], action "Remove". *)
Definition contextRemove (r : Row) (st : Store) : Store * list Signal :=
  let index := rowIndex r in
  if (index <? 0)%Z || (Z.of_nat (length (m_history st)) <=? index)%Z then (st, [])
  else removeItem index st.

(** [SystemTrayManager::updateTrayIcon]: the tooltip text. *)
Definition trayTooltip (st : Store) : QString :=
  qstr "Clipboard Manager (" ++ QStr.number (length (m_history st)) ++ qstr " items)".

(** ** Helper lemmas *)

Lemma numberRows_lookup i items k :
  numberRows i items !! k =
  (fun it => mkRow (Some it) (Some (Z.of_nat (i + k)))) <$> items !! k.
Proof.
  revert i k. induction items as [|it items IH]; intros i [|k]; simpl; try done.
  - rewrite Nat.add_0_r. done.
  - rewrite IH. destruct (items !! k); simpl; [|done]. do 3 f_equal. lia.
Qed.

Lemma length_numberRows i items : length (numberRows i items) = length items.
Proof. revert i. induction items; intros i; simpl; [done|]. rewrite IHitems. done. Qed.

Lemma designated_index r st (k : nat) :
  row_data r = Some (Z.of_nat k) -> designated r st = m_history st !! k.
Proof.
  intros Hd. unfold designated, rowIndex. rewrite Hd, Nat2Z.id.
  destruct (Z.leb_spec 0 (Z.of_nat k)); [|lia].
  destruct (Z.ltb_spec (Z.of_nat k) (Z.of_nat (length (m_history st)))) as [|Hge]; [done|].
  simpl. symmetry. apply lookup_ge_None. lia.
Qed.

(** A row of the main widget that shows an item stores its position and
    shows the item at that position. *)
Lemma historyWidgetRows_item items (k : nat) r :
  historyWidgetRows items !! k = Some r -> row_item r <> None ->
  row_item r = items !! k /\ row_data r = Some (Z.of_nat k).
Proof.
  unfold historyWidgetRows. intros Hk Hr. destruct (decide (k < length items)) as [Hlt|Hge].
  - rewrite lookup_app_l in Hk by (rewrite length_numberRows; done).
    rewrite numberRows_lookup in Hk.
    destruct (items !! k) as [it|]; [|done]. by injection Hk as <-.
  - rewrite lookup_app_r in Hk by (rewrite length_numberRows; lia).
    destruct (bool_decide _); [|done].
    destruct (k - _); [|done]. injection Hk as <-. done.
Qed.

(** ** Properties *)

(** Without a search text and with the "All Types"
    filter, the row at position [k] of the main widget shows the entry
    [k] of the history, and activating it copies that entry. *)
Theorem historyWidget_rows_faithful st (k : nat) r :
  historyWidgetView [] (-1) st !! k = Some r ->
  row_item r <> None ->
  row_item r = m_history st !! k /\
  onItemActivated r st = copyToClipboard <$> m_history st !! k.
Proof.
  intros Hk Hr. destruct (historyWidgetRows_item _ _ _ Hk Hr) as [Hi Hd].
  split; [exact Hi|]. unfold onItemActivated. rewrite (designated_index _ _ k Hd). done.
Qed.

Lemma historyWidget_rows_faithful_witness :
  let st := mkStore [textItem "a" 0; textItem "b" 0] 100 in
  exists r, historyWidgetView [] (-1) st !! 1 = Some r /\ row_item r <> None /\
    row_item r = m_history st !! 1.
Proof.
  cbn zeta. eexists. split; [reflexivity|]. split; [discriminate|].
  apply (historyWidget_rows_faithful _ 1); [reflexivity|discriminate].
Defined.

(** With a search text the rows are numbered in the
    displayed list but read as history indices: the first row shows
    "beta" while activating it copies "alpha", and its "Remove" action
    removes "alpha"; the tray popup does the same. *)
Example search_row_mismatch :
  let st := addAll [textItem "beta" 0; textItem "alpha" 1] initialStore in
  let r := historyWidgetView (qstr "beta") (-1) st !! 0 in
  option_map (fun r => option_map m_text (row_item r)) r = Some (Some (qstr "beta")) /\
  option_map (fun r => onItemActivated r st) r = Some (Some (SetText (qstr "alpha"))) /\
  option_map (fun r => map m_text (m_history (fst (contextRemove r st)))) r
    = Some [qstr "beta"] /\
  option_map (fun r => onItemActivated r st) (trayView (qstr "beta") st !! 0)
    = Some (Some (SetText (qstr "alpha"))).
Proof. vm_compute. repeat split. Qed.

(** C30: whenever a search or a filter leaves nothing to show, the
    only row of the main widget is the placeholder, which has no data and
    so designates the newest entry of the history: its context-menu
    "Remove" deletes that entry (and emits [historyChanged]) instead of
    doing nothing. *)
Theorem placeholder_removes_newest q f st :
  getFilteredItems q f st = [] ->
  historyWidgetView q f st = [placeholder] /\
  designated placeholder st = head (m_history st) /\
  contextRemove placeholder st =
    match m_history st with
    | [] => (st, [])
    | _ :: rest => (mkStore rest (m_maxHistorySize st), [HistoryChanged])
    end.
Proof.
  intros He. unfold historyWidgetView. rewrite He.
  split; [reflexivity|]. unfold designated, contextRemove, removeItem, rowIndex. cbn.
  destruct (m_history st); split; reflexivity.
Qed.

Lemma placeholder_removes_newest_witness :
  let st := addAll [textItem "alpha" 0] initialStore in
  m_history (fst (contextRemove placeholder st)) = [].
Proof.
  cbv zeta.
  rewrite (proj2 (proj2 (placeholder_removes_newest (qstr "zzz") (-1)
    (addAll [textItem "alpha" 0] initialStore) eq_refl))).
  reflexivity.
Defined.

(** C38: the tray popup shows at most ten item rows (eleven rows
    with the placeholder, which only appears when there is nothing to
    show). *)
Theorem trayRows_bound items :
  length (trayRows items) <= 10 /\
  (length (trayRows items) = Nat.min 10 (length items) \/ items = []).
Proof.
  unfold trayRows. rewrite length_app, length_numberRows, length_take.
  case_bool_decide as Hn.
  - subst items. simpl. split; [lia|right; done].
  - cbn [length]. split; [|left]; lia.
Qed.
End Views.
