(* ===== verification/RowText.v ===== *)
(** * RowText: what a row of the list widgets shows

    Models the two [createHistoryItem] functions, in
    [src/src/ClipboardHistoryWidget.cpp] and [src/src/TrayPopupWidget.cpp]:
    the row's text, icon, [Qt::UserRole] data and tooltip, built with
    chained [QString::arg] calls ([QtString], module [QArg]).  The text of
    [formattedTimestamp] is [renderTimeLabel] of [ClipboardItem], with the
    absolute date ([QDateTime::toString("MMM dd, hh:mm")]) left to a
    function [dateString]; the current time is an argument [now].

    Theorems: the popup's row text and both tooltips are the plain
    concatenations the templates describe; so is the main widget's row
    text when the preview holds no [%], and with an escape such as [%0]
    in the preview (as in a URL with [%0A]) the second [arg] replaces it,
    so the subtitle lands inside the preview and a literal [%2] remains. *)

From S2P Require Import Prelude QtString ClipboardItem.
Import Item.

Module RowText.
Import QArg.

(** A [QListWidgetItem] as [createHistoryItem] fills it. *)
Record ListItem := mkListItem {
  li_text : list N;
  li_icon : StandardPixmap;
  li_data : option Z;
  li_tooltip : list N
}.

(** [QString("%1 • %2")]. *)
Definition typeAndInfo : list N := widen (qstr "%1 ") ++ [bullet] ++ widen (qstr " %2").

(** [QString("%1\n%2")]. *)
Definition twoLines : list N := widen (qstr "%1") ++ [lineFeed] ++ widen (qstr "%2").

(** [clipboardItem.formattedTimestamp()], widened. *)
Definition timestampText (dateString : Z -> QString) (now : Z) (it : ClipboardItem) : list N :=
  widen (renderTimeLabel dateString (formattedTimestamp (m_timestamp it) now)).

(** [ClipboardHistoryWidget::createHistoryItem(clipboardItem, index)]. *)
Definition createHistoryItem (dateString : Z -> QString) (now : Z) (it : ClipboardItem)
    (index : Z) : ListItem :=
  let mainText := widen (m_preview it) in
  let subtitle := arg (arg typeAndInfo (widen (typeString (m_type it))))
                      (timestampText dateString now it) in
  let displayText := arg (arg twoLines mainText) subtitle in
  mkListItem displayText (m_icon it) (Some index)
    (arg (widen (qstr "Double-click to copy") ++ [lineFeed] ++ widen (qstr "Original: %1"))
         (widen (m_text it))).

(** [TrayPopupWidget::createHistoryItem(clipboardItem)]; the caller
    [updateHistoryList] then stores the index with [setData]. *)
Definition createPopupItem (dateString : Z -> QString) (now : Z) (it : ClipboardItem) : ListItem :=
  mkListItem (arg (arg typeAndInfo (widen (typeString (m_type it)))) (widen (m_preview it)))
    (m_icon it) None
    (arg (arg twoLines (timestampText dateString now it)) (widen (m_text it))).

(** [TrayPopupWidget::updateHistoryList(items)], the loop:
    [listItem->setData(Qt::UserRole, i)]. *)
Definition popupListItem (dateString : Z -> QString) (now : Z) (it : ClipboardItem) (i : Z)
    : ListItem :=
  let li := createPopupItem dateString now it in
  mkListItem (li_text li) (li_icon li) (Some i) (li_tooltip li).

(** The plain rendering the templates describe. *)
Definition separator : list N := [32%N; bullet; 32%N].

(** ** Helper lemmas *)

Lemma typeString_no_percent t : Forall (fun u => u <> percent) (widen (typeString t)).
Proof. destruct t; vm_compute; repeat constructor; discriminate. Qed.

Lemma arg_twoLines a : arg twoLines a = a ++ [lineFeed] ++ widen (qstr "%2").
Proof. reflexivity. Qed.

Lemma arg_typeAndInfo a : arg typeAndInfo a = a ++ separator ++ widen (qstr "%2").
Proof. reflexivity. Qed.

(** The second escape [%2], alone after plain text, takes the argument. *)
Lemma arg_escape2 (s b : list N) :
  Forall (fun u => u <> percent) s -> arg (s ++ widen (qstr "%2")) b = s ++ b.
Proof.
  intros Hs. rewrite arg_lits_l by done.
  change (widen (qstr "%2")) with [37%N; 50%N]. unfold arg. cbn. by rewrite app_nil_r.
Qed.

Lemma arg_escape1 (s b : list N) :
  Forall (fun u => u <> percent) s -> arg (s ++ widen (qstr "%1")) b = s ++ b.
Proof.
  intros Hs. rewrite arg_lits_l by done.
  change (widen (qstr "%1")) with [37%N; 49%N]. unfold arg. cbn. by rewrite app_nil_r.
Qed.

Lemma separator_no_percent : Forall (fun u => u <> percent) separator.
Proof. repeat constructor; discriminate. Qed.

Lemma lineFeed_no_percent : Forall (fun u => u <> percent) [lineFeed].
Proof. repeat constructor; discriminate. Qed.

#[local] Hint Resolve typeString_no_percent separator_no_percent lineFeed_no_percent
  Forall_app_2 : clip.

(** The time shown has no [%] when the date format gives none. *)
Lemma timestampText_no_percent dateString now it :
  (forall ts, hasPercent (dateString ts) = false) ->
  Forall (fun u => u <> percent) (timestampText dateString now it).
Proof.
  intros Hd. apply widen_no_percent.
  destruct (formattedTimestamp (m_timestamp it) now) as [| m | h | ts]; cbn [renderTimeLabel];
    [reflexivity| | |apply Hd];
    unfold hasPercent; rewrite !existsb_app;
    rewrite number_no_percent; unfold pluralSuffix; destruct (_ =? 1)%Z; reflexivity.
Qed.

(** The main widget's tooltip. *)
Lemma tooltip_eq t :
  arg (widen (qstr "Double-click to copy") ++ [lineFeed] ++ widen (qstr "Original: %1")) t =
  widen (qstr "Double-click to copy") ++ [lineFeed] ++ widen (qstr "Original: ") ++ t.
Proof.
  change (widen (qstr "Double-click to copy") ++ [lineFeed] ++ widen (qstr "Original: %1"))
    with ((widen (qstr "Double-click to copy") ++ [lineFeed] ++ widen (qstr "Original: ")) ++
          widen (qstr "%1")).
  rewrite arg_escape1 by (vm_compute; repeat constructor; discriminate).
  by rewrite <- !app_assoc.
Qed.

(** The subtitle of a main-widget row: type, bullet, time. *)
Lemma subtitle_eq dateString now it :
  arg (arg typeAndInfo (widen (typeString (m_type it)))) (timestampText dateString now it) =
  widen (typeString (m_type it)) ++ separator ++ timestampText dateString now it.
Proof.
  rewrite arg_typeAndInfo, app_assoc, arg_escape2 by auto with clip.
  by rewrite <- app_assoc.
Qed.

(** A one-digit escape [%0] or [%1], followed by text without [%] that
    does not start with a digit, a line break and the escape [%2], is
    the lowest escape and takes the argument; [%2] is left as it is. *)
Lemma escape_digit_arg d s2 a :
  d = "0"%char \/ d = "1"%char -> hasPercent s2 = false ->
  (forall c s2', s2 = c :: s2' -> QChar.isDigit c = false) ->
  arg (widen ("%"%char :: d :: s2) ++ [lineFeed] ++ widen (qstr "%2")) a =
    a ++ widen s2 ++ [lineFeed] ++ widen (qstr "%2").
Proof.
  intros Hd Hp Hs2.
  set (t := widen s2 ++ [lineFeed] ++ widen (qstr "%2")).
  assert (Ht : match t with f :: _ => digitValue f = None | [] => True end).
  { subst t. destruct s2 as [|c s2']; [reflexivity|]. apply digitValue_widen. eauto. }
  assert (Hpt : pieces t = map Lit (widen s2) ++ [Lit lineFeed; Esc 2 [37%N; 50%N]])
    by (subst t; rewrite pieces_lits by (by apply widen_no_percent); reflexivity).
  assert (He : exists e, digitValue (N.of_nat (nat_of_ascii d)) = Some e /\ (e = 0 \/ e = 1)%N)
    by (destruct Hd as [-> | ->]; eexists; split; [reflexivity| |reflexivity|]; auto).
  destruct He as (e & Hde & He).
  change (widen ("%"%char :: d :: s2) ++ [lineFeed] ++ widen (qstr "%2"))
    with (percent :: N.of_nat (nat_of_ascii d) :: t).
  unfold arg. rewrite (pieces_escape1 _ e t Hde Ht), Hpt.
  cbn [minEscape]. rewrite minEscape_lits. cbn [minEscape].
  replace (N.min e 2) with e by (destruct He as [-> | ->]; reflexivity).
  cbn [render]. rewrite N.eqb_refl, render_lits. cbn [render].
  replace (2 =? e)%N with false by (destruct He as [-> | ->]; reflexivity).
  subst t. by rewrite app_nil_r.
Qed.

(** ** Properties *)

(** C20: the rows the two widgets build.  In the main widget, when the
    preview holds no [%], the row's text is the preview, a line break,
    the type, a bullet and the time; its data is the index passed in and
    its tooltip "Double-click to copy", a line break and "Original: "
    with the full text.  In the popup the text is the type, a bullet and
    the preview, whatever the preview holds, the data is the position and,
    when the date format writes no [%], the tooltip is the time, a line
    break and the full text.  Both show the item's icon. *)
Theorem createHistoryItem_spec dateString now it index :
  hasPercent (m_preview it) = false ->
  (forall ts, hasPercent (dateString ts) = false) ->
  createHistoryItem dateString now it index =
    mkListItem (widen (m_preview it) ++ [lineFeed] ++ widen (typeString (m_type it)) ++
                separator ++ timestampText dateString now it)
               (m_icon it) (Some index)
               (widen (qstr "Double-click to copy") ++ [lineFeed] ++
                widen (qstr "Original: ") ++ widen (m_text it)) /\
  popupListItem dateString now it index =
    mkListItem (widen (typeString (m_type it)) ++ separator ++ widen (m_preview it))
               (m_icon it) (Some index)
               (timestampText dateString now it ++ [lineFeed] ++ widen (m_text it)).
Proof.
  intros Hp Hd. pose proof (widen_no_percent _ Hp) as Hp'.
  pose proof (timestampText_no_percent dateString now it Hd) as Ht.
  split.
  - unfold createHistoryItem. cbv zeta.
    rewrite arg_twoLines, subtitle_eq, app_assoc, arg_escape2 by auto with clip.
    rewrite tooltip_eq. by rewrite <- !app_assoc.
  - unfold popupListItem, createPopupItem. cbn [li_text li_icon li_tooltip].
    rewrite arg_typeAndInfo, arg_twoLines, !app_assoc, !arg_escape2 by auto with clip.
    by rewrite <- !app_assoc.
Qed.

Lemma createHistoryItem_spec_witness :
  let it := fromMimeData (mkMime None None (Some (qstr "hello"))) 0 in
  li_text (createHistoryItem (fun _ => qstr "Jan 01, 00:00") 30 it 0) =
    widen (qstr "hello") ++ [lineFeed] ++ widen (qstr "Text") ++ separator ++ widen (qstr "Just now").
Proof.
  cbv zeta.
  rewrite (proj1 (createHistoryItem_spec (fun _ => qstr "Jan 01, 00:00") 30
    (fromMimeData (mkMime None None (Some (qstr "hello"))) 0) 0 eq_refl (fun _ => eq_refl))).
  reflexivity.
Defined.

(** C29: the main widget fills its two-line template with two chained
    [arg] calls, and the second one replaces the lowest escape left in
    the whole string, including one inside the preview: whenever the
    preview holds a single escape [%0] or [%1] (as a URL with [%0A], an
    encoded line break, does), the row shows the preview with the
    subtitle in place of that escape, followed by the rest of the
    preview, the line break and a literal [%2].  The popup, which passes
    the preview last, shows every preview intact. *)
Theorem historyRow_escape_in_preview dateString now it index s1 d s2 :
  m_preview it = s1 ++ "%"%char :: d :: s2 ->
  d = "0"%char \/ d = "1"%char ->
  hasPercent s1 = false -> hasPercent s2 = false ->
  (forall c s2', s2 = c :: s2' -> QChar.isDigit c = false) ->
  li_text (createHistoryItem dateString now it index) =
    widen s1 ++ widen (typeString (m_type it)) ++ separator ++
    timestampText dateString now it ++ widen s2 ++ [lineFeed] ++ widen (qstr "%2") /\
  li_text (popupListItem dateString now it index) =
    widen (typeString (m_type it)) ++ separator ++ widen (m_preview it).
Proof.
  intros Hp Hd H1 H2 Hs2. split.
  - unfold createHistoryItem. cbv zeta. cbn [li_text].
    rewrite arg_twoLines, subtitle_eq, Hp, widen_app.
    rewrite <- app_assoc, arg_lits_l by (by apply widen_no_percent).
    rewrite escape_digit_arg by done. by rewrite <- !app_assoc.
  - unfold popupListItem, createPopupItem. cbn [li_text].
    rewrite arg_typeAndInfo, app_assoc, arg_escape2 by auto with clip. by rewrite <- app_assoc.
Qed.

Lemma historyRow_escape_in_preview_witness :
  let it := fromMimeData (mkMime None None (Some (qstr "https://example.com/?q=a%0Ab"))) 0 in
  li_text (createHistoryItem (fun _ => []) 0 it 0) =
    widen (qstr "https://example.com/?q=a") ++ widen (qstr "URL") ++ separator ++
    widen (qstr "Just now") ++ widen (qstr "Ab") ++ [lineFeed] ++ widen (qstr "%2").
Proof.
  cbv zeta.
  refine (proj1 (historyRow_escape_in_preview (fun _ => []) 0
    (fromMimeData (mkMime None None (Some (qstr "https://example.com/?q=a%0Ab"))) 0) 0
    (qstr "https://example.com/?q=a") "0"%char (qstr "Ab") eq_refl (or_introl eq_refl)
    eq_refl eq_refl _)).
  intros c s2' Hc. injection Hc as <- _. reflexivity.
Defined.
End RowText.
