(* ===== verification/HistoryWidget.v ===== *)
(** * HistoryWidget: the [ClipboardHistoryWidget] object on its own

    Models [src/src/ClipboardHistoryWidget.h] and the parts of
    [ClipboardHistoryWidget.cpp] that hold or change the widget's state:
    the constructor with [setupUI] (an empty search field, "All Types",
    an empty list and the label "0 items"), [setClipboardManager] with its
    [disconnect] and [connect], the two [updateHistoryList] and
    [updateStats] with their null-manager guards, [getFilteredItems], the
    search and filter slots and [onHistoryChanged]; the slots that act on
    the manager ([onItemDoubleClicked], the context menu,
    [onClearHistoryClicked]) return the request they make, or nothing.
    [onItemClicked] has an empty body and changes nothing.

    A manager is named by a number ([ManagerId]); the widget reads the
    store of the manager it points to from a function [stores] given to
    each operation, which is the manager's state at that moment.  The
    connections of [historyChanged] to [onHistoryChanged] are the list of
    the senders, in connection order; a signal of manager [m] runs the
    slot once per connection from [m].

    [App] composes the widget with one manager and the other windows;
    the theorems here hold for the widget alone: every reachable widget
    is connected exactly to the manager it points to, so a change of that
    manager is delivered once and a replaced manager's never; without a
    manager every guard returns early. *)

From S2P Require Import Prelude QtString ClipboardItem History Search Manager Views.
Import Item History Search Manager Views.

Module HistoryWidget.
Definition ManagerId := nat.

(** The members of [ClipboardHistoryWidget] that hold state. *)
Record HistoryWidget := mkWidget {
  hw_manager : option ManagerId;
  hw_connections : list ManagerId;
  hw_search : QString;
  hw_filter : Z;
  hw_rows : list Row;
  hw_stats : QString
}.

Definition withRows (rows : list Row) (w : HistoryWidget) : HistoryWidget :=
  mkWidget (hw_manager w) (hw_connections w) (hw_search w) (hw_filter w) rows (hw_stats w).
Definition withStats (stats : QString) (w : HistoryWidget) : HistoryWidget :=
  mkWidget (hw_manager w) (hw_connections w) (hw_search w) (hw_filter w) (hw_rows w) stats.
Definition withQuery (search : QString) (filter : Z) (w : HistoryWidget) : HistoryWidget :=
  mkWidget (hw_manager w) (hw_connections w) search filter (hw_rows w) (hw_stats w).

(** [setupUI]: an empty search field, the combo box on its first entry
    "All Types" (data [-1]), an empty list and the label "0 items". *)
Definition setupUI (w : HistoryWidget) : HistoryWidget :=
  mkWidget (hw_manager w) (hw_connections w) [] (-1) [] (qstr "0 items").

(** The constructor: a null manager, no connection, then [setupUI] (the
    list gets no placeholder: [updateHistoryList] is not called). *)
Definition init : HistoryWidget := setupUI (mkWidget None [] [] 0 [] []).

(** [getFilteredItems]: nothing without a manager. *)
Definition widgetFilteredItems (stores : ManagerId -> Store) (w : HistoryWidget)
    : list ClipboardItem :=
  match hw_manager w with
  | Some m => getFilteredItems (hw_search w) (hw_filter w) (stores m)
  | None => []
  end.

(** [updateHistoryList()]: returns at once without a manager. *)
Definition updateHistoryList (stores : ManagerId -> Store) (w : HistoryWidget) : HistoryWidget :=
  match hw_manager w with
  | Some m => withRows (historyWidgetView (hw_search w) (hw_filter w) (stores m)) w
  | None => w
  end.

(** [updateStats()]: "0 items" without a manager. *)
Definition updateStats (stores : ManagerId -> Store) (w : HistoryWidget) : HistoryWidget :=
  match hw_manager w with
  | Some m => withStats (statsLabel (hw_search w) (hw_filter w) (stores m)) w
  | None => withStats (qstr "0 items") w
  end.

(** [disconnect(m_clipboardManager, nullptr, this, nullptr)]: every
    connection from the old manager to this widget. *)
Definition disconnectFrom (m : ManagerId) (conns : list ManagerId) : list ManagerId :=
  List.filter (fun c => negb (c =? m)) conns.

(** [setClipboardManager(manager)]. *)
Definition setClipboardManager (stores : ManagerId -> Store) (manager : option ManagerId)
    (w : HistoryWidget) : HistoryWidget :=
  let conns := match hw_manager w with
               | Some old => disconnectFrom old (hw_connections w)
               | None => hw_connections w
               end in
  match manager with
  | Some m =>
      let w1 := mkWidget manager (conns ++ [m]) (hw_search w) (hw_filter w) (hw_rows w) (hw_stats w) in
      updateStats stores (updateHistoryList stores w1)
  | None => mkWidget None conns (hw_search w) (hw_filter w) (hw_rows w) (hw_stats w)
  end.

(** The search field's [textChanged] (only on an actual change) and
    [onSearchTextChanged]. *)
Definition onSearchTextChanged (stores : ManagerId -> Store) (text : QString) (w : HistoryWidget)
    : HistoryWidget :=
  if bool_decide (text = hw_search w) then w
  else updateHistoryList stores (withQuery text (hw_filter w) w).

(** The combo box's [currentIndexChanged] and [onFilterChanged]. *)
Definition onFilterChanged (stores : ManagerId -> Store) (index : nat) (w : HistoryWidget)
    : HistoryWidget :=
  match filterComboEntries !! index with
  | Some (_, data) =>
      if (data =? hw_filter w)%Z then w
      else updateHistoryList stores (withQuery (hw_search w) data w)
  | None => w
  end.

(** [onHistoryChanged]. *)
Definition onHistoryChanged (stores : ManagerId -> Store) (w : HistoryWidget) : HistoryWidget :=
  updateStats stores (updateHistoryList stores w).

(** [historyChanged] of manager [m]: the slot runs once per connection
    from [m]. *)
Definition receive (stores : ManagerId -> Store) (m : ManagerId) (w : HistoryWidget)
    : HistoryWidget :=
  Nat.iter (count_occ Nat.eq_dec (hw_connections w) m) (onHistoryChanged stores) w.

(** What a slot asks of the manager it points to. *)
Inductive Request :=
  | CopyEntry (m : ManagerId) (index : Z)
  | RemoveEntry (m : ManagerId) (index : Z)
  | ClearAll (m : ManagerId).

(** The guard shared by the slots on a row: a manager, and an index in
    range of its history. *)
Definition rowTarget (stores : ManagerId -> Store) (r : Row) (w : HistoryWidget)
    : option (ManagerId * Z) :=
  match hw_manager w with
  | Some m =>
      let index := rowIndex r in
      if (0 <=? index)%Z && (index <? Z.of_nat (length (m_history (stores m))))%Z
      then Some (m, index) else None
  | None => None
  end.

(** [onItemDoubleClicked]: [history[index].copyToClipboard()]. *)
Definition onItemDoubleClicked (stores : ManagerId -> Store) (r : Row) (w : HistoryWidget)
    : option Request :=
  (fun '(m, index) => CopyEntry m index) <$> rowTarget stores r w.

(** The actions of [showItemContextMenu]; [None] when the menu is
    dismissed. *)
Inductive MenuChoice := CopyAction | RemoveAction.

Definition showItemContextMenu (stores : ManagerId -> Store) (r : Row)
    (choice : option MenuChoice) (w : HistoryWidget) : option Request :=
  match rowTarget stores r w, choice with
  | Some (m, index), Some CopyAction => Some (CopyEntry m index)
  | Some (m, index), Some RemoveAction => Some (RemoveEntry m index)
  | _, _ => None
  end.

(** [onClearHistoryClicked]: the question box, then [clearHistory] on
    "Yes". *)
Definition onClearHistoryClicked (confirmed : bool) (w : HistoryWidget) : option Request :=
  match hw_manager w with
  | Some m => if confirmed then Some (ClearAll m) else None
  | None => None
  end.

(** The event of [Manager] a request is, on the manager it names. *)
Definition requestEvent (req : Request) (now : Z) : ManagerId * Event :=
  match req with
  | CopyEntry m index => (m, CopyBack index now)
  | RemoveEntry m index => (m, UserRemove index)
  | ClearAll m => (m, UserClear)
  end.

(** The states of the widget: any call of [setClipboardManager], any
    change of the search field or the filter, any signal of any manager,
    whatever the managers' stores are at that moment. *)
Inductive WidgetStep : HistoryWidget -> HistoryWidget -> Prop :=
  | ws_manager stores mgr w : WidgetStep w (setClipboardManager stores mgr w)
  | ws_search stores t w : WidgetStep w (onSearchTextChanged stores t w)
  | ws_filter stores k w : WidgetStep w (onFilterChanged stores k w)
  | ws_receive stores m w : WidgetStep w (receive stores m w).

Inductive WidgetReachable : HistoryWidget -> Prop :=
  | wr_init : WidgetReachable init
  | wr_step w w' : WidgetReachable w -> WidgetStep w w' -> WidgetReachable w'.

(** The connections are those of the manager pointed to, once. *)
Definition connectedOnce (w : HistoryWidget) : Prop :=
  hw_connections w = match hw_manager w with Some m => [m] | None => [] end.

(** ** Helper lemmas *)

(** The refreshing operations keep the manager and the connections. *)
Definition sameLinks (w w' : HistoryWidget) : Prop :=
  hw_manager w' = hw_manager w /\ hw_connections w' = hw_connections w.

Lemma updateHistoryList_links stores w : sameLinks w (updateHistoryList stores w).
Proof. unfold updateHistoryList. by destruct (hw_manager w). Qed.

Lemma updateStats_links stores w : sameLinks w (updateStats stores w).
Proof. unfold updateStats. by destruct (hw_manager w). Qed.

Lemma onHistoryChanged_links stores w : sameLinks w (onHistoryChanged stores w).
Proof.
  unfold onHistoryChanged.
  destruct (updateHistoryList_links stores w) as [H1 H2].
  destruct (updateStats_links stores (updateHistoryList stores w)) as [H3 H4].
  split; congruence.
Qed.

Lemma receive_links stores m w : sameLinks w (receive stores m w).
Proof.
  unfold receive. generalize (count_occ Nat.eq_dec (hw_connections w) m) as n.
  induction n as [|n [IH1 IH2]]; [done|]. rewrite Nat.iter_succ.
  destruct (onHistoryChanged_links stores (Nat.iter n (onHistoryChanged stores) w)) as [H1 H2].
  split; congruence.
Qed.

Lemma onSearchTextChanged_links stores t w : sameLinks w (onSearchTextChanged stores t w).
Proof.
  unfold onSearchTextChanged. case_bool_decide; [done|].
  apply (updateHistoryList_links stores (withQuery t (hw_filter w) w)).
Qed.

Lemma onFilterChanged_links stores k w : sameLinks w (onFilterChanged stores k w).
Proof.
  unfold onFilterChanged. destruct (filterComboEntries !! k) as [[? data]|]; [|done].
  destruct (data =? hw_filter w)%Z; [done|].
  apply (updateHistoryList_links stores (withQuery (hw_search w) data w)).
Qed.

Lemma sameLinks_connectedOnce w w' : sameLinks w w' -> connectedOnce w -> connectedOnce w'.
Proof. intros [H1 H2]. unfold connectedOnce. by rewrite H1, H2. Qed.

(** [setClipboardManager] drops the old connection and makes one to the
    new manager. *)
Lemma setClipboardManager_connectedOnce stores mgr w :
  connectedOnce w -> connectedOnce (setClipboardManager stores mgr w).
Proof.
  unfold connectedOnce, setClipboardManager. intros Hc.
  assert (Hd : match hw_manager w with
               | Some old => disconnectFrom old (hw_connections w)
               | None => hw_connections w
               end = []).
  { rewrite Hc. destruct (hw_manager w) as [o|]; [|done].
    unfold disconnectFrom. cbn. by rewrite Nat.eqb_refl. }
  rewrite Hd. destruct mgr as [m|]; [|done].
  apply (sameLinks_connectedOnce (mkWidget (Some m) ([] ++ [m]) (hw_search w) (hw_filter w)
                                          (hw_rows w) (hw_stats w))); [|done].
  apply (onHistoryChanged_links stores).
Qed.

Lemma widget_reachable_connectedOnce w : WidgetReachable w -> connectedOnce w.
Proof.
  induction 1 as [|w w' _ IH Hs]; [done|].
  destruct Hs as [stores mgr w|stores t w|stores k w|stores m w].
  - by apply setClipboardManager_connectedOnce.
  - exact (sameLinks_connectedOnce _ _ (onSearchTextChanged_links _ _ _) IH).
  - exact (sameLinks_connectedOnce _ _ (onFilterChanged_links _ _ _) IH).
  - exact (sameLinks_connectedOnce _ _ (receive_links _ _ _) IH).
Qed.

(** ** Properties *)

(** C7: every widget the program can reach is connected exactly to the
    manager it points to: a [historyChanged] of that manager runs
    [onHistoryChanged] once, and a signal of any other manager (one it
    pointed to before, say) does nothing.  [setClipboardManager]'s
    [disconnect] before [connect] is what makes this hold. *)
Theorem widget_receives_once w stores m :
  WidgetReachable w ->
  receive stores m w = if bool_decide (hw_manager w = Some m) then onHistoryChanged stores w else w.
Proof.
  intros Hr. pose proof (widget_reachable_connectedOnce _ Hr) as Hc.
  unfold receive. rewrite Hc. destruct (hw_manager w) as [m'|]; [|done].
  case_bool_decide as E; cbn.
  - injection E as ->. by destruct (Nat.eq_dec m m).
  - destruct (Nat.eq_dec m' m) as [->|]; [done|]. done.
Qed.

Lemma widget_receives_once_witness :
  let stores := fun _ : ManagerId => addAll [textItem "alpha" 0] initialStore in
  let w := setClipboardManager stores (Some 1%nat) (setClipboardManager stores (Some 0%nat) init) in
  receive stores 0 w = w.
Proof.
  cbv zeta. rewrite widget_receives_once; [done|].
  eapply wr_step; [eapply wr_step; [apply wr_init|apply ws_manager]|apply ws_manager].
Defined.

(** The null-manager guards: without a manager the filtered items
    are empty, [updateHistoryList] changes nothing, [updateStats] writes
    "0 items", and the double click, the context menu and the clear
    button ask nothing of a manager. *)
Theorem widget_without_manager stores w r choice confirmed :
  hw_manager w = None ->
  widgetFilteredItems stores w = [] /\
  updateHistoryList stores w = w /\
  hw_stats (updateStats stores w) = qstr "0 items" /\
  onItemDoubleClicked stores r w = None /\
  showItemContextMenu stores r choice w = None /\
  onClearHistoryClicked confirmed w = None.
Proof.
  intros Hm. unfold widgetFilteredItems, updateHistoryList, updateStats, onItemDoubleClicked,
    showItemContextMenu, onClearHistoryClicked, rowTarget.
  rewrite Hm. split_and!; done.
Qed.

Lemma widget_without_manager_witness :
  widgetFilteredItems (fun _ => initialStore) init = [] /\ updateHistoryList (fun _ => initialStore) init = init.
Proof.
  destruct (widget_without_manager (fun _ => initialStore) init placeholder None true eq_refl)
    as (H1 & H2 & _). split; [exact H1|exact H2].
Defined.

(** Setting the manager back to [nullptr] drops the connection but leaves
    the list and the label as they were: a widget that showed one entry
    still shows it and still reads "1 item", while [getFilteredItems]
    now returns nothing. *)
Example widget_null_manager_keeps_rows :
  let stores := fun _ : ManagerId => addAll [textItem "alpha" 0] initialStore in
  let w := setClipboardManager stores None (setClipboardManager stores (Some 0%nat) init) in
  length (hw_rows w) = 1%nat /\ hw_stats w = qstr "1 item" /\
  widgetFilteredItems stores w = [] /\ hw_connections w = [].
Proof. vm_compute. split_and!; reflexivity. Qed.
End HistoryWidget.
