(* ===== verification/MainWindow.v ===== *)
(** * MainWindow: the main window object

    Models [src/src/MainWindow.h] and the state-changing parts of
    [MainWindow.cpp]: the constructor ([setWindowTitle],
    [setMinimumSize(800, 600)], [resize(1000, 700)], [setupUI], which
    creates the [ClipboardHistoryWidget] and writes "Ready" in the status
    bar), [setClipboardManager], which hands the manager on to the
    history widget, and [showPreferences], a modal information box.  The
    window's visibility and its [closeEvent], [changeEvent] and
    [hideToTray] are part of the interface state of [Tray]; the layout
    and [applyMacStyle] change nothing the program reads.

    [QWidget]'s geometry is written out as Qt defines it: a top-level
    widget starts at 640x480 with minimum size 0x0, [setMinimumSize]
    grows a smaller window to the new minimum, and [resize] bounds the
    requested size by the maximum size ([QWIDGETSIZE_MAX]) and then
    expands it to the minimum.

    Theorems: every [resize] leaves the window between its minimum and
    maximum sizes; the constructed window is 1000x700 above its minimum
    of 800x600.  [App] shows that the constructor and
    [setClipboardManager] give the main widget its first state. *)

From S2P Require Import Prelude QtString History Views HistoryWidget.
Import History Views HistoryWidget.

Module MainWindow.
Local Open Scope Z_scope.

(** [QSize]. *)
Record QSize := mkSize { sz_width : Z; sz_height : Z }.

(** [QSize::expandedTo] and [QSize::boundedTo]. *)
Definition expandedTo (s t : QSize) : QSize :=
  mkSize (Z.max (sz_width s) (sz_width t)) (Z.max (sz_height s) (sz_height t)).
Definition boundedTo (s t : QSize) : QSize :=
  mkSize (Z.min (sz_width s) (sz_width t)) (Z.min (sz_height s) (sz_height t)).

(** [QWIDGETSIZE_MAX], the default maximum width and height. *)
Definition QWIDGETSIZE_MAX : Z := 16777215.
Definition maximumSize : QSize := mkSize QWIDGETSIZE_MAX QWIDGETSIZE_MAX.

(** The members of [MainWindow] that hold state, with the geometry and
    status message the window keeps for itself. *)
Record MainWindow := mkMainWindow {
  mw_clipboardManager : option ManagerId;
  mw_historyWidget : option HistoryWidget;
  mw_title : QString;
  mw_minimumSize : QSize;
  mw_size : QSize;
  mw_statusMessage : QString
}.

Definition withSize (minS size : QSize) (mw : MainWindow) : MainWindow :=
  mkMainWindow (mw_clipboardManager mw) (mw_historyWidget mw) (mw_title mw) minS size
               (mw_statusMessage mw).

(** [QWidget::resize]. *)
Definition resize (s : QSize) (mw : MainWindow) : MainWindow :=
  withSize (mw_minimumSize mw) (expandedTo (boundedTo s maximumSize) (mw_minimumSize mw)) mw.

(** [QWidget::setMinimumSize]: a smaller window grows to the minimum. *)
Definition setMinimumSize (s : QSize) (mw : MainWindow) : MainWindow :=
  withSize s (expandedTo (mw_size mw) s) mw.

(** [QWidget::setWindowTitle]. *)
Definition setWindowTitle (t : QString) (mw : MainWindow) : MainWindow :=
  mkMainWindow (mw_clipboardManager mw) (mw_historyWidget mw) t (mw_minimumSize mw)
               (mw_size mw) (mw_statusMessage mw).

(** [MainWindow::setupUI]: the history widget, and "Ready" in the status bar. *)
Definition setupMainUI (mw : MainWindow) : MainWindow :=
  mkMainWindow (mw_clipboardManager mw) (Some HistoryWidget.init) (mw_title mw)
               (mw_minimumSize mw) (mw_size mw) (qstr "Ready").

(** [MainWindow::MainWindow]: both pointers null, then the title, the
    sizes and [setupUI]; a parentless widget starts at 640x480. *)
Definition constructMainWindow : MainWindow :=
  let mw0 := mkMainWindow None None [] (mkSize 0 0) (mkSize 640 480) [] in
  setupMainUI (resize (mkSize 1000 700)
                  (setMinimumSize (mkSize 800 600) (setWindowTitle (qstr "Clipboard Manager") mw0))).

(** [MainWindow::setClipboardManager]: the manager is kept and handed on
    to the history widget when there is one. *)
Definition setMainClipboardManager (stores : ManagerId -> Store) (manager : option ManagerId)
    (mw : MainWindow) : MainWindow :=
  mkMainWindow manager (HistoryWidget.setClipboardManager stores manager <$> mw_historyWidget mw)
               (mw_title mw) (mw_minimumSize mw) (mw_size mw) (mw_statusMessage mw).

(** A modal [QMessageBox]: its kind and title (the text is not read by
    the program). *)
Inductive MessageBox := Information (title : QString).

(** [showPreferences]: an information box; the window is unchanged. *)
Definition showPreferences (mw : MainWindow) : MainWindow * MessageBox :=
  (mw, Information (qstr "Preferences")).

(** A size lies between two others, side by side. *)
Definition sizeWithin (lo s hi : QSize) : Prop :=
  sz_width lo <= sz_width s <= sz_width hi /\ sz_height lo <= sz_height s <= sz_height hi.

(** ** Properties *)

(** Whatever size is asked for, [resize] leaves the window no
    smaller than its minimum size and, when the minimum is within the
    maximum, no larger than [QWIDGETSIZE_MAX]; the window [main]
    builds is 1000x700, above its minimum of 800x600. *)
Theorem resize_within_bounds s mw :
  sizeWithin (mw_minimumSize mw) (mw_minimumSize mw) maximumSize ->
  sizeWithin (mw_minimumSize mw) (mw_size (resize s mw)) maximumSize /\
  mw_size constructMainWindow = mkSize 1000 700 /\ mw_minimumSize constructMainWindow = mkSize 800 600.
Proof.
  unfold sizeWithin, resize, withSize, expandedTo, boundedTo, maximumSize. cbn.
  intros ([H1 H2] & [H3 H4]). split_and!; try lia; reflexivity.
Qed.

Lemma resize_within_bounds_witness :
  sizeWithin (mkSize 800 600) (mw_size (resize (mkSize 100 100000000) constructMainWindow)) maximumSize.
Proof.
  refine (proj1 (resize_within_bounds (mkSize 100 100000000) constructMainWindow _)).
  unfold sizeWithin. vm_compute. split; split; discriminate.
Defined.
End MainWindow.
