(* ===== verification/PopupWidget.v ===== *)
(** * PopupWidget: the [TrayPopupWidget] object on its own

    Models [src/src/TrayPopupWidget.h] and the state-changing parts of
    [TrayPopupWidget.cpp]: the constructor (the manager it is given,
    [setupUI] with an empty search field and list, the connection of
    [historyChanged] to [updateHistoryList] and a first
    [updateHistoryList]), [refreshHistory], [showEvent] and [hideEvent]
    (both clear the search field, whose [textChanged] re-runs the search
    when it was not empty), the search slot, a click on a row, the
    "Clear" and "Open App" buttons and the Escape key.  Unlike the
    history widget the popup has no null-manager guard: the tray manager
    always constructs it with its manager.  [QWidget::hide] on a hidden
    widget, and [show] on a visible one, send no event.

    [App] keeps the popup's rows, and [Tray] its visibility and search
    text, written from the same lines. *)

From S2P Require Import Prelude QtString ClipboardItem History Search Manager Views HistoryWidget.
Import Item History Search Manager Views HistoryWidget.

Module PopupWidget.
(** The members of [TrayPopupWidget] that hold state. *)
Record PopupWidget := mkPopup {
  pw_manager : ManagerId;
  pw_connections : list ManagerId;
  pw_search : QString;
  pw_rows : list Row;
  pw_visible : bool
}.

Definition withSearchRows (search : QString) (rows : list Row) (p : PopupWidget) : PopupWidget :=
  mkPopup (pw_manager p) (pw_connections p) search rows (pw_visible p).
Definition withVisible (visible : bool) (p : PopupWidget) : PopupWidget :=
  mkPopup (pw_manager p) (pw_connections p) (pw_search p) (pw_rows p) visible.

(** [updateHistoryList()]: the first ten entries of the whole history. *)
Definition updatePopupList (stores : ManagerId -> Store) (p : PopupWidget) : PopupWidget :=
  withSearchRows (pw_search p) (trayRows (m_history (stores (pw_manager p)))) p.

(** [setupUI]: an empty search field and an empty list. *)
Definition setupPopupUI (p : PopupWidget) : PopupWidget := withSearchRows [] [] p.

(** [TrayPopupWidget::TrayPopupWidget(clipboardManager)]: hidden,
    [setupUI], the connection, and a first [updateHistoryList()]. *)
Definition constructPopup (stores : ManagerId -> Store) (m : ManagerId) : PopupWidget :=
  updatePopupList stores (setupPopupUI (mkPopup m [m] [] [] false)).

(** [refreshHistory]. *)
Definition refreshHistory (stores : ManagerId -> Store) (p : PopupWidget) : PopupWidget :=
  updatePopupList stores p.

(** The search field's [textChanged] (only on an actual change) and
    [onSearchTextChanged]: the rows of the search. *)
Definition onPopupSearchTextChanged (stores : ManagerId -> Store) (text : QString)
    (p : PopupWidget) : PopupWidget :=
  if bool_decide (text = pw_search p) then p
  else withSearchRows text (trayView text (stores (pw_manager p))) p.

(** [m_searchEdit->clear()]. *)
Definition clearSearch (stores : ManagerId -> Store) (p : PopupWidget) : PopupWidget :=
  onPopupSearchTextChanged stores [] p.

(** [showEvent]: the field cleared, then [updateHistoryList()]. *)
Definition showEvent (stores : ManagerId -> Store) (p : PopupWidget) : PopupWidget :=
  updatePopupList stores (clearSearch stores (withVisible true p)).

(** [hideEvent]: the field cleared. *)
Definition hideEvent (stores : ManagerId -> Store) (p : PopupWidget) : PopupWidget :=
  clearSearch stores (withVisible false p).

(** [QWidget::hide] and [QWidget::show]. *)
Definition hide (stores : ManagerId -> Store) (p : PopupWidget) : PopupWidget :=
  if pw_visible p then hideEvent stores p else p.
Definition show (stores : ManagerId -> Store) (p : PopupWidget) : PopupWidget :=
  if pw_visible p then p else showEvent stores p.

(** [historyChanged] of manager [m]: [updateHistoryList()] once per
    connection from [m]. *)
Definition receivePopup (stores : ManagerId -> Store) (m : ManagerId) (p : PopupWidget)
    : PopupWidget :=
  Nat.iter (count_occ Nat.eq_dec (pw_connections p) m) (updatePopupList stores) p.

(** [onItemClicked] (and [onItemDoubleClicked], which calls it): with an
    index in range, copy that entry; the slot then calls [hide()], after
    the copy's [historyChanged] has refreshed the list. *)
Definition onPopupItemClicked (stores : ManagerId -> Store) (r : Row) (p : PopupWidget)
    : option Request :=
  let index := rowIndex r in
  if (0 <=? index)%Z && (index <? Z.of_nat (length (m_history (stores (pw_manager p)))))%Z
  then Some (CopyEntry (pw_manager p) index)
  else None.

(** [onClearHistoryClicked]: [clearHistory()], then [hide()]. *)
Definition onPopupClearClicked (p : PopupWidget) : Request := ClearAll (pw_manager p).

(** [onOpenMainWindowClicked]: [emit openMainWindow()], then hide. *)
Definition onOpenMainWindowClicked (stores : ManagerId -> Store) (p : PopupWidget)
    : bool * PopupWidget :=
  (true, hide stores p).

(** [keyPressEvent]: Escape hides; other keys go to [QWidget]. *)
Inductive Key := KeyEscape | OtherKey.

Definition keyPressEvent (stores : ManagerId -> Store) (k : Key) (p : PopupWidget) : PopupWidget :=
  match k with KeyEscape => hide stores p | OtherKey => p end.
End PopupWidget.
