(* ===== verification/Tray.v ===== *)
(** * Tray: the tray icon, the tray popup's visibility and the main window

    Models the parts of [src/src/SystemTrayManager.cpp],
    [src/src/TrayPopupWidget.cpp] and [src/src/MainWindow.cpp] that have
    state: whether the popup and the main window are visible, the popup's
    geometry and search text, the [static bool firstTime] of
    [MainWindow::closeEvent] with the information boxes it opens, a quit
    request, and the tray tooltip.  The platform is an environment: the
    [Q_OS_MACOS] switch, the tray icon's and the screen's geometry, and
    [QSystemTrayIcon::isSystemTrayAvailable()].

    [QRect] is given as Qt defines it: [right() = left + width - 1],
    [bottom() = top + height - 1], and [center()] halves [x1 + x2] in
    64-bit arithmetic, rounding toward zero.

    Theorems: the popup fits the screen horizontally when the screen is
    wide enough (and vertically on macOS), but elsewhere its top is
    always 5 pixels under the tray icon, below the screen when the icon
    is; the invariants of every reachable interface
    state; the tray's toggle, show and close behaviour; the tooltip left
    stale by a silent resize. *)

From S2P Require Import Prelude QtString ClipboardItem History Views.
Import Item History Views.

Module Tray.
Local Open Scope Z_scope.

(** [QRect] from its left, top, width and height. *)
Record QRect := mkRect { r_left : Z; r_top : Z; r_width : Z; r_height : Z }.

Definition right (r : QRect) : Z := r_left r + r_width r - 1.
Definition bottom (r : QRect) : Z := r_top r + r_height r - 1.
Definition centerX (r : QRect) : Z := Z.quot (r_left r + right r) 2.

Definition popupWidth : Z := 320.
Definition popupHeight : Z := 400.

(** The platform as the code sees it. *)
Record Env := mkEnv {
  isMacOS : bool;
  trayGeometry : QRect;
  screenGeometry : QRect;
  trayAvailable : bool
}.

(** [positionTrayPopup]: centred under the tray icon, pushed left by the
    right edge, then right by the left edge; on macOS, 25 pixels under
    the top of the screen. *)
Definition positionTrayPopup (env : Env) : QRect :=
  let tray := trayGeometry env in
  let screen := screenGeometry env in
  let x0 := centerX tray - Z.quot popupWidth 2 in
  let y0 := bottom tray + 5 in
  let x1 := if (right screen <? x0 + popupWidth)%Z then right screen - popupWidth - 10 else x0 in
  let x2 := if (x1 <? r_left screen)%Z then r_left screen + 10 else x1 in
  let y := if isMacOS env then r_top screen + 25 else y0 in
  mkRect x2 y popupWidth popupHeight.

(** [QSystemTrayIcon::ActivationReason]. *)
Inductive ActivationReason := Unknown | Context | DoubleClick | Trigger | MiddleClick.

(** The interface state. *)
Record Ui := mkUi {
  popupVisible : bool;
  popupGeometry : QRect;
  popupSearch : QString;
  mainVisible : bool;
  firstTime : bool;
  infoBoxes : nat;
  quitRequested : bool;
  tooltip : QString
}.

(** [hide()] of the popup; [hideEvent] clears the search text. *)
Definition hidePopup (ui : Ui) : Ui :=
  if popupVisible ui then
    mkUi false (popupGeometry ui) [] (mainVisible ui) (firstTime ui) (infoBoxes ui)
         (quitRequested ui) (tooltip ui)
  else ui.

(** [toggleTrayPopup]: hide, or position and show ([showEvent] clears
    the search text). *)
Definition toggleTrayPopup (env : Env) (ui : Ui) : Ui :=
  if popupVisible ui then hidePopup ui
  else mkUi true (positionTrayPopup env) [] (mainVisible ui) (firstTime ui) (infoBoxes ui)
            (quitRequested ui) (tooltip ui).

(** [showMainWindow]. *)
Definition showMainWindow (ui : Ui) : Ui :=
  hidePopup (mkUi (popupVisible ui) (popupGeometry ui) (popupSearch ui) true (firstTime ui)
                  (infoBoxes ui) (quitRequested ui) (tooltip ui)).

(** [onTrayIconActivated]. *)
Definition onTrayIconActivated (env : Env) (reason : ActivationReason) (ui : Ui) : Ui :=
  match reason with
  | Trigger | DoubleClick => toggleTrayPopup env ui
  | MiddleClick => showMainWindow ui
  | _ => ui
  end.

Definition setMainVisible (v : bool) (ui : Ui) : Ui :=
  mkUi (popupVisible ui) (popupGeometry ui) (popupSearch ui) v (firstTime ui) (infoBoxes ui)
       (quitRequested ui) (tooltip ui).

(** [MainWindow::closeEvent]: with a tray, hide and explain once; without
    one, accept the close (the window goes away, the application keeps
    running since it does not quit on the last window). *)
Definition closeEvent (env : Env) (ui : Ui) : Ui :=
  if trayAvailable env then
    if firstTime ui then
      mkUi (popupVisible ui) (popupGeometry ui) (popupSearch ui) false false (S (infoBoxes ui))
           (quitRequested ui) (tooltip ui)
    else setMainVisible false ui
  else setMainVisible false ui.

(** [MainWindow::changeEvent] on a minimisation. *)
Definition minimizeEvent (env : Env) (ui : Ui) : Ui :=
  if trayAvailable env then setMainVisible false ui else ui.

(** [SystemTrayManager::updateTrayIcon] with the manager's item count. *)
Definition trayTooltipText (count : nat) : QString :=
  qstr "Clipboard Manager (" ++ QStr.number count ++ qstr " items)".

Definition setTooltip (t : QString) (ui : Ui) : Ui :=
  mkUi (popupVisible ui) (popupGeometry ui) (popupSearch ui) (mainVisible ui) (firstTime ui)
       (infoBoxes ui) (quitRequested ui) t.

Inductive UiEvent :=
  | Activated (reason : ActivationReason)
  | MenuShow | MenuAbout | MenuQuit
  | PopupTyped (text : QString)
  | PopupEscape
  | PopupFocusTimeout (anyChildFocused : bool)
  | PopupItemActivated (validIndex : bool)
  | PopupClear
  | PopupOpenApp
  | MainClose | MainMinimize | MainHideButton
  | HistoryChangedSignal (count : nat).

(** One event of the interface.  Events of the popup only happen while it
    is visible, those of the main window while it is visible. *)
Definition uiStep (env : Env) (e : UiEvent) (ui : Ui) : option Ui :=
  match e with
  | Activated r => Some (onTrayIconActivated env r ui)
  | MenuShow => Some (showMainWindow ui)
  | MenuAbout => Some ui
  | MenuQuit =>
      Some (mkUi (popupVisible ui) (popupGeometry ui) (popupSearch ui) (mainVisible ui)
                 (firstTime ui) (infoBoxes ui) true (tooltip ui))
  | PopupTyped t =>
      if popupVisible ui then
        Some (mkUi true (popupGeometry ui) t (mainVisible ui) (firstTime ui) (infoBoxes ui)
                   (quitRequested ui) (tooltip ui))
      else None
  | PopupEscape => if popupVisible ui then Some (hidePopup ui) else None
  | PopupFocusTimeout focused =>
      if popupVisible ui then Some (if focused then ui else hidePopup ui) else None
  | PopupItemActivated valid =>
      if popupVisible ui then Some (if valid then hidePopup ui else ui) else None
  | PopupClear => if popupVisible ui then Some (hidePopup ui) else None
  | PopupOpenApp => if popupVisible ui then Some (hidePopup (showMainWindow ui)) else None
  | MainClose => if mainVisible ui then Some (closeEvent env ui) else None
  | MainMinimize => if mainVisible ui then Some (minimizeEvent env ui) else None
  | MainHideButton => if mainVisible ui then Some (setMainVisible false ui) else None
  | HistoryChangedSignal n => Some (setTooltip (trayTooltipText n) ui)
  end.

(** After [main]: the tray icon is shown, the main window and the popup
    are not; the tooltip shows the count after the manager's constructor. *)
Definition initialUi (count : nat) : Ui :=
  mkUi false (mkRect 0 0 0 0) [] false true 0 false (trayTooltipText count).

Inductive UiReachable (env : Env) : Ui -> Prop :=
  | ui_init count : UiReachable env (initialUi count)
  | ui_step e ui ui' : UiReachable env ui -> uiStep env e ui = Some ui' -> UiReachable env ui'.

(** A sequence of events, in order; [None] when one is not enabled. *)
Fixpoint uiRun (env : Env) (es : list UiEvent) (ui : Ui) : option Ui :=
  match es with
  | [] => Some ui
  | e :: es' => match uiStep env e ui with Some ui' => uiRun env es' ui' | None => None end
  end.

(** The invariant of the interface. *)
Definition UiInv (ui : Ui) : Prop :=
  (popupVisible ui = false -> popupSearch ui = []) /\
  infoBoxes ui = (if firstTime ui then 0 else 1)%nat.

(** ** Helper lemmas *)

(** [trayTooltipText] is [QString("Clipboard Manager (%1 items)").arg(itemCount)]. *)
Lemma trayTooltipText_arg count :
  QArg.widen (trayTooltipText count) =
  QArg.arg (QArg.widen (qstr "Clipboard Manager (%1 items)")) (QArg.widen (QStr.number count)).
Proof.
  set (n := QArg.widen (QStr.number count)).
  change (QArg.arg (QArg.widen (qstr "Clipboard Manager (%1 items)")) n)
    with (QArg.widen (qstr "Clipboard Manager (") ++ n ++ QArg.widen (qstr " items)")).
  unfold trayTooltipText. rewrite !widen_app. reflexivity.
Qed.

(** The horizontal position chosen by [positionTrayPopup], by cases. *)
Lemma positionTrayPopup_x env :
  let screen := screenGeometry env in
  let x0 := centerX (trayGeometry env) - 160 in
  r_left (positionTrayPopup env) =
    (if right screen <? x0 + 320 then
       (if right screen - 320 - 10 <? r_left screen then r_left screen + 10
        else right screen - 320 - 10)
     else if x0 <? r_left screen then r_left screen + 10 else x0).
Proof.
  unfold positionTrayPopup, popupWidth. cbn zeta. cbn [r_left].
  destruct (right (screenGeometry env) <? _); reflexivity.
Qed.

Lemma positionTrayPopup_size env :
  r_width (positionTrayPopup env) = 320 /\ r_height (positionTrayPopup env) = 400.
Proof. done. Qed.

(** Unfold the interface operations down to records. *)
Ltac unfold_ui :=
  unfold uiStep, onTrayIconActivated, toggleTrayPopup, showMainWindow, hidePopup,
    closeEvent, minimizeEvent, setMainVisible, setTooltip in *.

Lemma uiStep_inv env e ui ui' : UiInv ui -> uiStep env e ui = Some ui' -> UiInv ui'.
Proof.
  destruct ui as [pv pg ps mv ft ib q t]. unfold UiInv. simpl. intros [Hs ->] Hstep.
  destruct e as [[]| | | | | |[]|[]| | | | | |]; unfold_ui;
    destruct pv, mv, ft, (trayAvailable env); simpl in *; simplify_eq; simpl;
    split; (discriminate || auto).
Qed.

Lemma uiStep_quit env e ui ui' :
  uiStep env e ui = Some ui' -> e <> MenuQuit -> quitRequested ui' = quitRequested ui.
Proof.
  destruct ui as [pv pg ps mv ft ib q t]. intros Hstep Hne.
  destruct e as [[]| | | | | |[]|[]| | | | | |]; unfold_ui;
    destruct pv, mv, ft, (trayAvailable env); simpl in *; simplify_eq; done.
Qed.

(** ** Properties *)

(** C35: the popup is 320 by 400 pixels and lies horizontally within
    the available screen area whenever that area is at least 330 pixels
    wide, wherever the tray icon is; on macOS, where it is placed 25
    pixels under the top of the screen, it also lies vertically within a
    screen at least 425 pixels high. *)
Theorem positionTrayPopup_fits env :
  330 <= r_width (screenGeometry env) ->
  let p := positionTrayPopup env in
  let screen := screenGeometry env in
  r_width p = 320 /\ r_height p = 400 /\
  r_left screen <= r_left p /\ right p <= right screen /\
  (isMacOS env = true -> 425 <= r_height screen ->
   r_top screen <= r_top p /\ bottom p <= bottom screen).
Proof.
  intros Hw p screen. subst p screen.
  destruct (positionTrayPopup_size env) as [Hpw Hph].
  unfold right, bottom. rewrite Hpw, Hph, positionTrayPopup_x. unfold right.
  split; [done|split; [done|]].
  split; [repeat case_if; rewrite ?Z.ltb_lt, ?Z.ltb_ge in *; lia|].
  split; [repeat case_if; rewrite ?Z.ltb_lt, ?Z.ltb_ge in *; lia|].
  intros Hmac Hh. unfold positionTrayPopup. rewrite Hmac. simpl. lia.
Qed.

Lemma positionTrayPopup_fits_witness :
  let env := mkEnv false (mkRect 1900 0 20 20) (mkRect 0 0 1920 1080) true in
  330 <= r_width (screenGeometry env) /\
  right (positionTrayPopup env) <= right (screenGeometry env).
Proof.
  cbn zeta. assert (Hw : 330 <= r_width (screenGeometry
    (mkEnv false (mkRect 1900 0 20 20) (mkRect 0 0 1920 1080) true))) by (simpl; lia).
  split; [exact Hw|].
  destruct (positionTrayPopup_fits _ Hw) as (_ & _ & _ & Hr & _). exact Hr.
Defined.

(** C33: in every state the interface can reach, the popup's search
    field is empty whenever the popup is hidden, and the explanation that
    the application keeps running in the tray has been shown at most
    once: exactly once after the first close, never before. *)
Theorem ui_reachable_inv env ui :
  UiReachable env ui ->
  (popupVisible ui = false -> popupSearch ui = []) /\
  (infoBoxes ui <= 1)%nat /\ (firstTime ui = false <-> infoBoxes ui = 1%nat).
Proof.
  intros Hr. assert (Hi : UiInv ui).
  { induction Hr as [count|e ui ui' _ IH Hs]; [split; done|].
    eapply uiStep_inv; eauto. }
  destruct Hi as [Hs Hb]. split; [done|]. rewrite Hb. destruct (firstTime ui); lia.
Qed.

Lemma ui_reachable_inv_witness :
  let env := mkEnv false (mkRect 1900 1050 24 30) (mkRect 0 0 1920 1040) true in
  let ui := closeEvent env (showMainWindow (initialUi 0)) in
  UiReachable env ui /\ (infoBoxes ui <= 1)%nat.
Proof.
  cbn zeta. set (env := mkEnv false (mkRect 1900 1050 24 30) (mkRect 0 0 1920 1040) true).
  assert (Hr : UiReachable env (closeEvent env (showMainWindow (initialUi 0)))).
  { apply (ui_step env MainClose (showMainWindow (initialUi 0))); [|reflexivity].
    apply (ui_step env MenuShow (initialUi 0)); [constructor|reflexivity]. }
  split; [exact Hr|]. destruct (ui_reachable_inv _ _ Hr) as (_ & Hb & _). exact Hb.
Defined.

(** C37: closing, minimising or hiding the main window never ends the
    application: along any run of events from the start, a quit is
    requested only if the tray menu's Quit action is among the events. *)
Theorem only_quit_action_quits env es count ui :
  uiRun env es (initialUi count) = Some ui -> ~ In MenuQuit es -> quitRequested ui = false.
Proof.
  assert (Hgen : forall ui0, uiRun env es ui0 = Some ui -> ~ In MenuQuit es ->
                 quitRequested ui = quitRequested ui0).
  { induction es as [|e es IH]; intros ui0 Hrun Hnin; simpl in Hrun.
    - congruence.
    - destruct (uiStep env e ui0) as [ui1|] eqn:Hs; [|done].
      rewrite (IH ui1 Hrun) by (intros ?; apply Hnin; right; done).
      apply (uiStep_quit env e); [done|]. intros ->. apply Hnin. left. done. }
  intros Hrun Hnin. rewrite (Hgen _ Hrun Hnin). done.
Qed.

Lemma only_quit_action_quits_witness :
  let env := mkEnv false (mkRect 1900 1050 24 30) (mkRect 0 0 1920 1040) true in
  let es := [Activated Trigger; PopupTyped (qstr "x"); PopupOpenApp; MainClose;
             MenuShow; MainMinimize] in
  exists ui, uiRun env es (initialUi 0) = Some ui /\ quitRequested ui = false.
Proof.
  cbn zeta. eexists. split; [reflexivity|].
  apply (only_quit_action_quits (mkEnv false (mkRect 1900 1050 24 30) (mkRect 0 0 1920 1040) true)
    [Activated Trigger; PopupTyped (qstr "x"); PopupOpenApp;
    MainClose; MenuShow; MainMinimize] 0); [reflexivity|].
  simpl. intros [H|[H|[H|[H|[H|[H|[]]]]]]]; discriminate.
Defined.

(** C34: outside macOS the popup is put 5 pixels under the tray icon
    and only its horizontal position is clamped, although the code's
    comment says it keeps the popup within the screen bounds: its top is
    the tray icon's bottom plus 5 wherever the icon is, so the popup lies
    vertically within the available area exactly when the 400 pixels
    under the icon do; with the task bar at the bottom of the screen (the
    icon below the available area, as on Windows) the whole popup lies
    below it. *)
Theorem positionTrayPopup_below_screen env :
  isMacOS env = false ->
  let p := positionTrayPopup env in
  let screen := screenGeometry env in
  let trayBottom := bottom (trayGeometry env) in
  r_top p = trayBottom + 5 /\
  (r_top screen <= r_top p /\ bottom p <= bottom screen <->
   r_top screen <= trayBottom + 5 /\ trayBottom + 404 <= bottom screen) /\
  (bottom screen < trayBottom + 5 -> bottom screen < r_top p).
Proof.
  intros Hmac p screen trayBottom. subst p screen.
  assert (Ht : r_top (positionTrayPopup env) = trayBottom + 5)
    by (unfold positionTrayPopup; rewrite Hmac; reflexivity).
  pose proof (proj2 (positionTrayPopup_size env)) as Hh.
  clearbody trayBottom. unfold bottom. lia.
Qed.

Lemma positionTrayPopup_below_screen_witness :
  let env := mkEnv false (mkRect 1800 1050 24 30) (mkRect 0 0 1920 1040) true in
  bottom (screenGeometry env) < r_top (positionTrayPopup env).
Proof.
  cbv zeta.
  refine (proj2 (proj2 (positionTrayPopup_below_screen
    (mkEnv false (mkRect 1800 1050 24 30) (mkRect 0 0 1920 1040) true) eq_refl)) _).
  vm_compute. reflexivity.
Defined.

(** A resize that trims the history emits no signal, so the tray's
    tooltip, last set from [historyChanged], keeps the old count. *)
Example tooltip_stale_after_resize :
  let st := addAll [textItem "a" 0; textItem "b" 1; textItem "c" 2] initialStore in
  let ui := setTooltip (trayTooltipText (Z.to_nat (itemCount st))) (initialUi 0) in
  snd (setMaxHistorySize 1 st) = [] /\
  tooltip ui = trayTooltip st /\
  tooltip ui <> trayTooltip (fst (setMaxHistorySize 1 st)).
Proof. vm_compute. split; [reflexivity|split; [reflexivity|discriminate]]. Qed.
End Tray.
