(* ===== verification/App.v ===== *)
(** * App: the whole application, with the views subscribed to the manager

    Composes the manager's transition system ([Manager]), the interface
    state of the tray and the windows ([Tray]) and the contents of the two
    list widgets ([Views]) as [main.cpp] wires them.  [SystemTrayManager]'s
    constructor creates the [ClipboardManager], then the
    [TrayPopupWidget], whose constructor connects [historyChanged] to its
    [updateHistoryList()]; it then connects [historyChanged] to its own
    [onHistoryChanged], and [MainWindow::setClipboardManager] has the
    [ClipboardHistoryWidget] connect its [onHistoryChanged] last.  A
    signal is delivered synchronously to these three slots in that order,
    after the store operation that emits it is complete, so every slot
    reads the final store.  [newItemAdded] has no subscriber.

    The application's events are those of the program: a change of the
    system clipboard, the timer, the main widget's search field, type
    filter, double click, context menu and clear button, the popup's
    search field, click and clear button, and the events of the tray and
    the windows.  [setMaxHistorySize] has no caller in the program, so no
    event resizes the store.

    Theorems: the
    main widget's rows and the tray tooltip always show the
    current history; the popup's rows do when its search field is empty;
    every history entry is well typed; from every reachable state the user
    can bring up the whole history; the statistics label is stale after a
    search and the popup lists the whole history under a query after a
    change; the three slots commute, so the order of delivery does not
    matter; a double click on row [k] copies the entry [k] of the whole
    history, which is the entry the row shows without a search and
    another one with it; the "Copied to clipboard!"
    feedback of a double click is always cleared by the pending timers,
    though a second click's feedback is cut short by the first timer. *)

From S2P Require Import Prelude QtString ClipboardItem History Search Manager Views Tray HistoryWidget MainWindow PopupWidget.
Import Item History Search Manager Views Tray HistoryWidget MainWindow PopupWidget.

Module App.
Record App := mkApp {
  app_sys : System;
  app_ui : Ui;
  w_search : QString;
  w_filter : Z;
  w_rows : list Row;
  w_stats : QString;
  p_rows : list Row;
  w_feedback : QString;
  w_feedbackTimers : nat
}.

Definition appStore (a : App) : Store := m_store (sys_manager (app_sys a)).

Definition withSys (s : System) (a : App) : App :=
  mkApp s (app_ui a) (w_search a) (w_filter a) (w_rows a) (w_stats a) (p_rows a)
        (w_feedback a) (w_feedbackTimers a).
Definition withUi (ui : Ui) (a : App) : App :=
  mkApp (app_sys a) ui (w_search a) (w_filter a) (w_rows a) (w_stats a) (p_rows a)
        (w_feedback a) (w_feedbackTimers a).
Definition withWidget (search : QString) (filter : Z) (rows : list Row) (stats : QString)
    (a : App) : App :=
  mkApp (app_sys a) (app_ui a) search filter rows stats (p_rows a)
        (w_feedback a) (w_feedbackTimers a).
Definition withPopupRows (rows : list Row) (a : App) : App :=
  mkApp (app_sys a) (app_ui a) (w_search a) (w_filter a) (w_rows a) (w_stats a) rows
        (w_feedback a) (w_feedbackTimers a).
(** The list's tooltip and the number of [QTimer::singleShot] timers
    still pending to clear it. *)
Definition withFeedback (tip : QString) (timers : nat) (a : App) : App :=
  mkApp (app_sys a) (app_ui a) (w_search a) (w_filter a) (w_rows a) (w_stats a) (p_rows a)
        tip timers.

(** ** The slots connected to [historyChanged], in connection order *)

(** [TrayPopupWidget::updateHistoryList()]: the first ten entries of the
    whole history, whatever the search field holds. *)
Definition popupOnHistoryChanged (st : Store) (a : App) : App :=
  withPopupRows (trayRows (m_history st)) a.

(** [SystemTrayManager::onHistoryChanged]: [updateTrayIcon], then
    [refreshHistory] when the popup is visible. *)
Definition trayOnHistoryChanged (st : Store) (a : App) : App :=
  let a' := withUi (setTooltip (trayTooltipText (length (m_history st))) (app_ui a)) a in
  if popupVisible (app_ui a) then withPopupRows (trayRows (m_history st)) a' else a'.

(** [ClipboardHistoryWidget::onHistoryChanged]: [updateHistoryList()]
    and [updateStats()]. *)
Definition widgetOnHistoryChanged (st : Store) (a : App) : App :=
  withWidget (w_search a) (w_filter a) (historyWidgetView (w_search a) (w_filter a) st)
             (statsLabel (w_search a) (w_filter a) st) a.

Definition historyChangedSlots : list (Store -> App -> App) :=
  [popupOnHistoryChanged; trayOnHistoryChanged; widgetOnHistoryChanged].

Definition emitHistoryChanged (st : Store) (a : App) : App :=
  fold_left (fun a slot => slot st a) historyChangedSlots a.

(** The delivery of the signals an operation emitted, in order. *)
Fixpoint deliver (st : Store) (sigs : list Signal) (a : App) : App :=
  match sigs with
  | [] => a
  | HistoryChanged :: sigs' => deliver st sigs' (emitHistoryChanged st a)
  | NewItemAdded _ :: sigs' => deliver st sigs' a
  end.

(** An event of the manager, with the delivery of what it emitted (the
    new part of the log). *)
Definition managerEvent (e : Event) (a : App) : option App :=
  match step e (app_sys a) with
  | Some s' =>
      Some (deliver (m_store (sys_manager s')) (drop (length (sys_log (app_sys a))) (sys_log s'))
                    (withSys s' a))
  | None => None
  end.

(** The popup's [showEvent] clears the (empty) search field and calls
    [updateHistoryList()]; its [hideEvent] clears the search field, which
    re-runs the search with the empty text when the field was not empty. *)
Definition popupVisibilityRows (before after : Ui) (st : Store) (rows : list Row) : list Row :=
  if popupVisible before then
    if popupVisible after then rows
    else if QStr.isEmpty (popupSearch before) then rows else trayRows (search [] st)
  else if popupVisible after then trayRows (m_history st) else rows.

(** An event of the tray or the windows. *)
Definition uiEvent (env : Env) (e : UiEvent) (a : App) : option App :=
  match uiStep env e (app_ui a) with
  | Some ui' =>
      Some (withPopupRows (popupVisibilityRows (app_ui a) ui' (appStore a) (p_rows a)) (withUi ui' a))
  | None => None
  end.

(** The tray and window events that do not reach the manager. *)
Definition plainUiEvent (e : UiEvent) : bool :=
  match e with
  | PopupTyped _ | PopupItemActivated _ | PopupClear | HistoryChangedSignal _ => false
  | _ => true
  end.

Inductive AppEvent :=
  | ClipboardChanged (md : option MimeData) (now : Z)
  | TimerFired (now : Z)
  | WidgetSearchChanged (text : QString)
  | WidgetFilterChanged (comboIndex : nat)
  | WidgetDoubleClick (row : nat) (now : Z)
  | WidgetContextCopy (row : nat) (now : Z)
  | WidgetContextRemove (row : nat)
  | WidgetClearClicked (confirmed : bool)
  | PopupSearchChanged (text : QString)
  | PopupClick (row : nat) (now : Z)
  | PopupClearClicked
  | Interface (e : UiEvent)
  | FeedbackTimeout.

(** A row's index is in range of the history. *)
Definition indexInRange (index : Z) (a : App) : bool :=
  (0 <=? index)%Z && (index <? Z.of_nat (length (m_history (appStore a))))%Z.

(** [ClipboardHistoryWidget::updateHistoryList()] after the search field
    or the filter changed; [updateStats] is not called. *)
Definition widgetQuery (search : QString) (filter : Z) (a : App) : App :=
  withWidget search filter (historyWidgetView search filter (appStore a)) (w_stats a) a.

(** One event of the application.  The main widget's events happen while
    the main window is visible, the popup's while the popup is; a
    disabled row (the placeholder) cannot be clicked, but the context
    menu is opened on any row; a line edit or a combo box only signals
    an actual change. *)
Definition appStep (env : Env) (e : AppEvent) (a : App) : option App :=
  let ui := app_ui a in
  match e with
  | ClipboardChanged md now => managerEvent (ExternalCopy md now) a
  | TimerFired now => managerEvent (TimerTimeout now) a
  | WidgetSearchChanged t =>
      if mainVisible ui then
        if bool_decide (t = w_search a) then Some a else Some (widgetQuery t (w_filter a) a)
      else None
  | WidgetFilterChanged k =>
      if mainVisible ui then
        match filterComboEntries !! k with
        | Some (_, data) =>
            if (data =? w_filter a)%Z then Some a else Some (widgetQuery (w_search a) data a)
        | None => None
        end
      else None
  | WidgetDoubleClick k now =>
      if mainVisible ui then
        match w_rows a !! k with
        | Some r =>
            if bool_decide (row_item r = None) then None
            else if indexInRange (rowIndex r) a then
              match managerEvent (CopyBack (rowIndex r) now) a with
              | Some a' =>
                  Some (withFeedback (qstr "Copied to clipboard!") (S (w_feedbackTimers a')) a')
              | None => None
              end
            else Some a
        | None => None
        end
      else None
  | WidgetContextCopy k now =>
      if mainVisible ui then
        match w_rows a !! k with
        | Some r =>
            if indexInRange (rowIndex r) a then managerEvent (CopyBack (rowIndex r) now) a
            else Some a
        | None => None
        end
      else None
  | WidgetContextRemove k =>
      if mainVisible ui then
        match w_rows a !! k with
        | Some r =>
            if indexInRange (rowIndex r) a then managerEvent (UserRemove (rowIndex r)) a
            else Some a
        | None => None
        end
      else None
  | WidgetClearClicked confirmed =>
      if mainVisible ui then (if confirmed then managerEvent UserClear a else Some a) else None
  | PopupSearchChanged t =>
      if popupVisible ui then
        if bool_decide (t = popupSearch ui) then Some a
        else
          match uiEvent env (PopupTyped t) a with
          | Some a' => Some (withPopupRows (trayView t (appStore a')) a')
          | None => None
          end
      else None
  | PopupClick k now =>
      if popupVisible ui then
        match p_rows a !! k with
        | Some r =>
            if bool_decide (row_item r = None) then None
            else if indexInRange (rowIndex r) a then
              match managerEvent (CopyBack (rowIndex r) now) a with
              | Some a' => uiEvent env (PopupItemActivated true) a'
              | None => None
              end
            else Some a
        | None => None
        end
      else None
  | PopupClearClicked =>
      if popupVisible ui then
        match managerEvent UserClear a with
        | Some a' => uiEvent env PopupClear a'
        | None => None
        end
      else None
  | Interface e => if plainUiEvent e then uiEvent env e a else None
  | FeedbackTimeout =>
      match w_feedbackTimers a with
      | S n => Some (withFeedback [] n a)
      | O => None
      end
  end.

Fixpoint appRun (env : Env) (es : list AppEvent) (a : App) : option App :=
  match es with
  | [] => Some a
  | e :: es' => match appStep env e a with Some a' => appRun env es' a' | None => None end
  end.

(** [main]: the manager's constructor (whose signals have no subscriber
    yet), the popup's first [updateHistoryList()], the main widget's
    [setClipboardManager] ([updateHistoryList()] and [updateStats()]
    with an empty search and "All Types"), and [updateTrayIcon]. *)
Definition initApp (clipboard : option MimeData) (now : Z) : App :=
  let s := initSystem clipboard now in
  let st := m_store (sys_manager s) in
  mkApp s (initialUi (length (m_history st))) [] (-1)%Z
        (historyWidgetView [] (-1) st) (statsLabel [] (-1) st) (trayRows (m_history st)) [] 0.

(** What [main] comes to: an exit code, or the event loop entered in
    the state [initApp] describes. *)
Inductive MainOutcome := Exited (code : Z) | EventLoop (a : App).

(** [main]: without a system tray a critical message box and exit code
    1; otherwise the main window (not shown), the [SystemTrayManager]
    (whose constructor builds the manager and the popup and makes the
    connections), the tray icon shown, and [app.exec()].  The
    application's name, version and font change nothing the program
    reads. *)
Definition main (env : Env) (clipboard : option MimeData) (now : Z) : MainOutcome :=
  if trayAvailable env then EventLoop (initApp clipboard now) else Exited 1.

Inductive AppReachable (env : Env) : App -> Prop :=
  | app_init clipboard now : AppReachable env (initApp clipboard now)
  | app_step e a a' : AppReachable env a -> appStep env e a = Some a' -> AppReachable env a'.

(** The invariant of the application: the manager's, the interface's,
    and the views showing the current history. *)
Definition AppInv (a : App) : Prop :=
  Inv (app_sys a) /\ UiInv (app_ui a) /\
  w_rows a = historyWidgetView (w_search a) (w_filter a) (appStore a) /\
  tooltip (app_ui a) = trayTooltip (appStore a) /\
  (popupSearch (app_ui a) = [] -> p_rows a = trayView [] (appStore a)).

(** ** Delivery of the signals *)

Definition isHistoryChanged (sg : Signal) : bool :=
  match sg with HistoryChanged => true | NewItemAdded _ => false end.

Lemma emitHistoryChanged_eq st a :
  emitHistoryChanged st a =
  mkApp (app_sys a) (setTooltip (trayTooltipText (length (m_history st))) (app_ui a))
        (w_search a) (w_filter a) (historyWidgetView (w_search a) (w_filter a) st)
        (statsLabel (w_search a) (w_filter a) st) (trayRows (m_history st))
        (w_feedback a) (w_feedbackTimers a).
Proof.
  unfold emitHistoryChanged, historyChangedSlots. cbn [fold_left].
  unfold trayOnHistoryChanged, popupOnHistoryChanged, widgetOnHistoryChanged,
    withPopupRows, withUi, withWidget. cbn.
  destruct (popupVisible (app_ui a)); reflexivity.
Qed.

Lemma emitHistoryChanged_idem st a :
  emitHistoryChanged st (emitHistoryChanged st a) = emitHistoryChanged st a.
Proof. rewrite !emitHistoryChanged_eq. reflexivity. Qed.

(** Delivering signals runs the slots once if [historyChanged] is among
    them: they recompute everything from the store. *)
Lemma deliver_eq st sigs a :
  deliver st sigs a = if existsb isHistoryChanged sigs then emitHistoryChanged st a else a.
Proof.
  revert a. induction sigs as [|[|it] sigs IH]; intros a; simpl; [done| |apply IH].
  rewrite IH. destruct (existsb _ _); [apply emitHistoryChanged_idem|done].
Qed.

Lemma search_nil st : search [] st = m_history st.
Proof. reflexivity. Qed.

Lemma trayView_nil st : trayView [] st = trayRows (m_history st).
Proof. reflexivity. Qed.

(** ** What the manager's events emit *)

(** Under the manager's invariant, an event other than a resize either
    leaves the store as it was or emits [historyChanged]; its signals
    are appended to the log. *)
Lemma ingest_notifies sender now s :
  m_updateTimerActive (sys_manager s) = false ->
  exists sigs, sys_log (ingest sender now s) = sys_log s ++ sigs /\
    (existsb isHistoryChanged sigs = true \/
     m_store (sys_manager (ingest sender now s)) = m_store (sys_manager s)).
Proof.
  intros Ht. unfold ingest.
  pose proof (onClipboardChanged_cases sender (sys_clipboard s) now _ Ht) as Hc.
  destruct (sys_clipboard s) as [md|]; [|rewrite Hc; exists []; auto].
  cbv zeta in Hc.
  destruct (QStr.isEmpty (m_text (fromMimeData md now)) ||
            isDuplicate (fromMimeData md now) (m_store (sys_manager s))) eqn:E.
  - rewrite (proj1 Hc eq_refl). exists []. auto.
  - rewrite (proj2 Hc eq_refl). exists [NewItemAdded (fromMimeData md now); HistoryChanged]. auto.
Qed.

Lemma applyStore_notifies f s :
  (forall st, existsb isHistoryChanged (snd (f st)) = true \/ fst (f st) = st) ->
  exists sigs, sys_log (applyStore f s) = sys_log s ++ sigs /\
    (existsb isHistoryChanged sigs = true \/
     m_store (sys_manager (applyStore f s)) = m_store (sys_manager s)).
Proof.
  intros Hf. unfold applyStore. specialize (Hf (m_store (sys_manager s))).
  destruct (f _) as [st' sigs]. exists sigs. simpl in *. split; [done|].
  destruct Hf as [H| ->]; auto.
Qed.

Lemma step_notifies e s s' :
  Inv s -> step e s = Some s' -> (forall size, e <> UserSetMax size) ->
  exists sigs, sys_log s' = sys_log s ++ sigs /\
    (existsb isHistoryChanged sigs = true \/ m_store (sys_manager s') = m_store (sys_manager s)).
Proof.
  intros (_ & Ht & _) Hs Hne. destruct e; simpl in Hs.
  - injection Hs as <-. apply (ingest_notifies _ _ (mkSystem _ _ _)). done.
  - destruct (_ && _); [|injection Hs as <-; exists []; rewrite app_nil_r; auto].
    destruct (history s !! _); injection Hs as <-;
      [apply (ingest_notifies _ _ (mkSystem _ _ _)); done|exists []; rewrite app_nil_r; auto].
  - injection Hs as <-. apply applyStore_notifies. intros st. unfold removeItem.
    destruct (_ && _); auto.
  - injection Hs as <-. apply applyStore_notifies. auto.
  - exfalso. eapply Hne. reflexivity.
  - rewrite Ht in Hs. done.
Qed.

(** ** The invariant is kept by every event *)

Lemma uiStep_tooltip env e ui ui' :
  uiStep env e ui = Some ui' -> (forall n, e <> HistoryChangedSignal n) -> tooltip ui' = tooltip ui.
Proof.
  destruct ui as [pv pg ps mv ft ib q t]. intros Hs Hne.
  destruct e as [[]| | | | | |[]|[]| | | | | |n]; unfold_ui;
    try (exfalso; eapply Hne; reflexivity);
    destruct pv, mv, ft, (trayAvailable env); simpl in *; simplify_eq; done.
Qed.

Lemma uiStep_search_kept env e ui ui' :
  uiStep env e ui = Some ui' -> popupVisible ui = true -> popupVisible ui' = true ->
  (forall t, e <> PopupTyped t) -> popupSearch ui' = popupSearch ui.
Proof.
  destruct ui as [pv pg ps mv ft ib q t]. simpl. intros Hs -> Hv Hne.
  destruct e as [[]| | | |t'| |[]|[]| | | | | |n]; unfold_ui;
    try (exfalso; eapply Hne; reflexivity);
    destruct mv, ft, (trayAvailable env); simpl in *; simplify_eq; done.
Qed.

(** The part of the invariant that does not concern the popup's rows. *)
Definition AppCore (a : App) : Prop :=
  Inv (app_sys a) /\ UiInv (app_ui a) /\
  w_rows a = historyWidgetView (w_search a) (w_filter a) (appStore a) /\
  tooltip (app_ui a) = trayTooltip (appStore a).

Lemma AppInv_core a : AppInv a -> AppCore a.
Proof. intros (H1 & H2 & H3 & H4 & _). exact (conj H1 (conj H2 (conj H3 H4))). Qed.

Lemma managerEvent_inv e a a' :
  AppInv a -> (forall size, e <> UserSetMax size) -> managerEvent e a = Some a' -> AppInv a'.
Proof.
  intros (Hinv & Hui & Hw & Ht & Hp) Hne. unfold managerEvent.
  destruct (step e (app_sys a)) as [s'|] eqn:Hs; [|done]. intros [= <-].
  destruct (step_notifies _ _ _ Hinv Hs Hne) as (sigs & Hlog & Hsig).
  rewrite Hlog, drop_app_length, deliver_eq. pose proof (step_inv _ _ _ Hinv Hs) as Hinv'.
  destruct (existsb isHistoryChanged sigs) eqn:E.
  - rewrite emitHistoryChanged_eq. unfold AppInv, appStore. simpl.
    split; [done|]. split; [destruct (app_ui a); exact Hui|]. done.
  - destruct Hsig as [Hsig|Hst]; [congruence|].
    unfold AppInv, appStore in *. simpl. rewrite Hst. done.
Qed.

Lemma uiEvent_core env e a a' :
  AppCore a -> (forall n, e <> HistoryChangedSignal n) -> uiEvent env e a = Some a' -> AppCore a'.
Proof.
  intros (Hinv & Hui & Hw & Ht) Hne. unfold uiEvent.
  destruct (uiStep env e (app_ui a)) as [ui'|] eqn:Hs; [|done]. intros [= <-].
  unfold AppCore, appStore in *. simpl. split; [done|].
  split; [eapply uiStep_inv; eauto|]. split; [done|]. rewrite (uiStep_tooltip _ _ _ _ Hs Hne). done.
Qed.

Lemma uiEvent_inv env e a a' :
  AppInv a -> (forall n, e <> HistoryChangedSignal n) -> (forall t, e <> PopupTyped t) ->
  uiEvent env e a = Some a' -> AppInv a'.
Proof.
  intros Ha Hne Hnt He. pose proof (uiEvent_core _ _ _ _ (AppInv_core _ Ha) Hne He) as Hc.
  destruct Ha as (_ & [Hs0 _] & _ & _ & Hp). revert He Hc. unfold uiEvent.
  destruct (uiStep env e (app_ui a)) as [ui'|] eqn:Hs; [|done]. intros [= <-] Hc.
  split; [apply Hc|]. split; [apply Hc|]. split; [apply Hc|]. split; [apply Hc|].
  unfold appStore in *. simpl. intros Hs'. unfold popupVisibilityRows.
  destruct (popupVisible (app_ui a)) eqn:V1, (popupVisible ui') eqn:V2.
  - apply Hp. rewrite <- (uiStep_search_kept _ _ _ _ Hs V1 V2 Hnt). done.
  - destruct (QStr.isEmpty (popupSearch (app_ui a))) eqn:E; [|done].
    apply Hp. destruct (popupSearch (app_ui a)); done.
  - done.
  - apply Hp, Hs0. done.
Qed.

Lemma popupTyped_inv env t a a' :
  AppInv a -> uiEvent env (PopupTyped t) a = Some a' ->
  AppInv (withPopupRows (trayView t (appStore a')) a').
Proof.
  intros Ha He.
  assert (Hn : forall n, PopupTyped t <> HistoryChangedSignal n) by (intros ? ?; discriminate).
  destruct (uiEvent_core _ _ _ _ (AppInv_core _ Ha) Hn He) as (H1 & H2 & H3 & H4).
  revert He. unfold uiEvent, uiStep.
  destruct (popupVisible (app_ui a)); [|done]. intros [= <-].
  split; [done|]. split; [done|]. split; [done|]. split; [done|].
  simpl. intros ->. done.
Qed.

Lemma appStep_inv env e a a' : AppInv a -> appStep env e a = Some a' -> AppInv a'.
Proof.
  intros Ha.
  assert (Hm : forall e' a'', (forall size, e' <> UserSetMax size) ->
                 managerEvent e' a = Some a'' -> AppInv a'')
    by (intros; eapply managerEvent_inv; eauto).
  assert (Hq : forall t f, AppInv (widgetQuery t f a)).
  { intros t f. destruct Ha as (H1 & H2 & H3 & H4 & H5). unfold widgetQuery, AppInv, appStore in *.
    simpl. done. }
  destruct e as [md now|now|t|k|k now|k now|k|c|t|k now| |e|]; unfold appStep; cbv zeta.
  - apply Hm. intros ?; discriminate.
  - apply Hm. intros ?; discriminate.
  - destruct (mainVisible _); cbn beta iota; [|done].
    destruct (bool_decide _); cbn beta iota; intros [= <-]; [done|apply Hq].
  - destruct (mainVisible _); cbn beta iota; [|done].
    destruct (filterComboEntries !! k) as [[? data]|]; cbn beta iota; [|done].
    destruct (data =? _)%Z; cbn beta iota; intros [= <-]; [done|apply Hq].
  - destruct (mainVisible _); cbn beta iota; [|done]. destruct (w_rows a !! k) as [r|]; cbn beta iota; [|done].
    destruct (bool_decide _); cbn beta iota; [done|].
    destruct (indexInRange _ _); cbn beta iota; [|intros [= <-]; done].
    destruct (managerEvent (CopyBack (rowIndex r) now) a) as [a1|] eqn:E1; cbn beta iota; [|done].
    intros [= <-]. refine (Hm _ _ _ E1). intros ? ?; discriminate.
  - destruct (mainVisible _); cbn beta iota; [|done]. destruct (w_rows a !! k) as [r|]; cbn beta iota; [|done].
    destruct (indexInRange _ _); cbn beta iota; [apply Hm; intros ?; discriminate|intros [= <-]; done].
  - destruct (mainVisible _); cbn beta iota; [|done]. destruct (w_rows a !! k) as [r|]; cbn beta iota; [|done].
    destruct (indexInRange _ _); cbn beta iota; [apply Hm; intros ?; discriminate|intros [= <-]; done].
  - destruct (mainVisible _); cbn beta iota; [|done].
    destruct c; cbn beta iota; [apply Hm; intros ?; discriminate|intros [= <-]; done].
  - destruct (popupVisible _); cbn beta iota; [|done]. destruct (bool_decide _); cbn beta iota; [intros [= <-]; done|].
    destruct (uiEvent env (PopupTyped t) a) as [a1|] eqn:He; cbn beta iota; [|done].
    intros [= <-]. eapply popupTyped_inv; eauto.
  - destruct (popupVisible _); cbn beta iota; [|done]. destruct (p_rows a !! k) as [r|]; cbn beta iota; [|done].
    destruct (bool_decide _); cbn beta iota; [done|]. destruct (indexInRange _ _); cbn beta iota; [|intros [= <-]; done].
    destruct (managerEvent (CopyBack (rowIndex r) now) a) as [a1|] eqn:E1; cbn beta iota; [|done]. intros He.
    refine (uiEvent_inv _ _ a1 _ _ _ _ He); [refine (Hm _ _ _ E1); intros ? ?; discriminate
      |intros ? ?; discriminate|intros ? ?; discriminate].
  - destruct (popupVisible _); cbn beta iota; [|done].
    destruct (managerEvent UserClear a) as [a1|] eqn:E1; cbn beta iota; [|done]. intros He.
    refine (uiEvent_inv _ _ a1 _ _ _ _ He); [refine (Hm _ _ _ E1); intros ? ?; discriminate
      |intros ? ?; discriminate|intros ? ?; discriminate].
  - destruct (plainUiEvent e) eqn:Hp; cbn beta iota; [|done]. apply uiEvent_inv; [done| |];
      intros ? ->; discriminate.
  - destruct (w_feedbackTimers a); [done|]. intros [= <-]. exact Ha.
Qed.

Lemma initApp_inv clipboard now : AppInv (initApp clipboard now).
Proof.
  unfold AppInv, initApp, appStore. simpl. split; [apply initSystem_inv|].
  split; [split; done|]. done.
Qed.

Lemma app_reachable_inv env a : AppReachable env a -> AppInv a.
Proof.
  induction 1 as [|e a a' _ IH Hs]; [apply initApp_inv|]. eapply appStep_inv; eauto.
Qed.

(** ** The "Copied to clipboard!" feedback *)

(** Its tooltip is empty, or shows the feedback while a timer is
    pending to clear it. *)
Definition FeedbackInv (a : App) : Prop :=
  w_feedback a = [] \/
  (w_feedback a = qstr "Copied to clipboard!" /\ (0 < w_feedbackTimers a)%nat).

Definition sameFeedback (a a' : App) : Prop :=
  w_feedback a' = w_feedback a /\ w_feedbackTimers a' = w_feedbackTimers a.

Lemma managerEvent_feedback e a a' : managerEvent e a = Some a' -> sameFeedback a a'.
Proof.
  unfold managerEvent. destruct (step e (app_sys a)); [|done]. intros [= <-].
  rewrite deliver_eq. destruct (existsb _ _); [rewrite emitHistoryChanged_eq|]; done.
Qed.

Lemma uiEvent_feedback env e a a' : uiEvent env e a = Some a' -> sameFeedback a a'.
Proof. unfold uiEvent. destruct (uiStep env e (app_ui a)); [|done]. by intros [= <-]. Qed.

(** An event leaves the feedback as it was, or is a double click that
    sets it and starts a timer, or a timer that clears it. *)
Lemma appStep_feedback env e a a' :
  appStep env e a = Some a' ->
  sameFeedback a a' \/
  (w_feedback a' = qstr "Copied to clipboard!" /\ (0 < w_feedbackTimers a')%nat) \/
  (w_feedback a' = [] /\ S (w_feedbackTimers a') = w_feedbackTimers a).
Proof.
  assert (Hm : forall e' a'', managerEvent e' a = Some a'' -> sameFeedback a a'')
    by eauto using managerEvent_feedback.
  destruct e as [md now|now|t|k|k now|k now|k|c|t|k now| |e|]; unfold appStep; cbv zeta;
    repeat (case_if || case_match); cbn beta iota; try done;
    intros Hs; first
    [ injection Hs as <-; right; left; cbn; split; [reflexivity|lia]
    | injection Hs as <-; right; right; split; reflexivity
    | left; exact (Hm _ _ Hs)
    | left; exact (uiEvent_feedback _ _ _ _ Hs)
    | injection Hs as <-; left; split; reflexivity
    | injection Hs as <-; left;
      match goal with E : uiEvent _ _ a = Some _ |- _ =>
        destruct (uiEvent_feedback _ _ _ _ E) as [H1 H2]; split; cbn; congruence end
    | left;
      match goal with E : managerEvent _ a = Some _ |- _ =>
        destruct (Hm _ _ E) as [H1 H2]; destruct (uiEvent_feedback _ _ _ _ Hs) as [H3 H4];
        split; congruence end ].
Qed.


Lemma appRun_cons env e es a :
  appRun env (e :: es) a = match appStep env e a with Some a' => appRun env es a' | None => None end.
Proof. reflexivity. Qed.

(** The state in which [main] enters the event loop is reachable. *)
Lemma main_reachable env clipboard now a :
  main env clipboard now = EventLoop a -> AppReachable env a.
Proof. unfold main. destruct (trayAvailable env); [intros [= <-]; apply app_init|done]. Qed.

(** The state after a run is reachable. *)
Lemma appRun_reachable env es a a' :
  AppReachable env a -> appRun env es a = Some a' -> AppReachable env a'.
Proof.
  revert a. induction es as [|e es IH]; intros a Hr Hrun; simpl in Hrun; [congruence|].
  destruct (appStep env e a) as [a1|] eqn:Hs; [|done]. apply (IH a1); [|done].
  eapply app_step; eauto.
Qed.

(** ** Properties of the whole application *)

(** C6: in every state the running application can reach, the main
    widget lists exactly the rows [updateHistoryList] computes for the
    current history, search text and type filter; the tray tooltip shows
    the current item count; the popup lists the first ten entries of the
    current history whenever its search field is empty; and the store
    invariant holds.  The views are never stale, because every change of
    the store the program can make emits [historyChanged] to all three
    subscribers. *)
Theorem app_views_consistent env a :
  AppReachable env a ->
  w_rows a = historyWidgetView (w_search a) (w_filter a) (appStore a) /\
  tooltip (app_ui a) = trayTooltip (appStore a) /\
  (popupSearch (app_ui a) = [] -> p_rows a = trayView [] (appStore a)) /\
  wf (appStore a).
Proof.
  intros Hr. destruct (app_reachable_inv _ _ Hr) as ((Hwf & _) & _ & Hw & Ht & Hp).
  exact (conj Hw (conj Ht (conj Hp Hwf))).
Qed.

Definition appWitnessEnv : Env := mkEnv false (mkRect 1800 1050 24 30) (mkRect 0 0 1920 1040) true.

Definition textSnapshot (s : string) : option MimeData := Some (mkMime None None (Some (qstr s))).

Lemma app_views_consistent_witness :
  exists a, appRun appWitnessEnv [ClipboardChanged (textSnapshot "beta") 1] (initApp (textSnapshot "alpha") 0)
              = Some a /\
    w_rows a = historyWidgetView (w_search a) (w_filter a) (appStore a).
Proof.
  eexists. split; [reflexivity|].
  apply (app_views_consistent appWitnessEnv).
  eapply (appRun_reachable _ [ClipboardChanged (textSnapshot "beta") 1]); [apply app_init|reflexivity].
Defined.

(** C17: every entry of the history of every reachable state is well
    typed: its preview and icon are those of its type, an image entry's
    text is its dimension descriptor, only image entries hold a pixmap,
    and a text entry has the type [determineType] gives its text. *)
Theorem app_items_well_typed env a :
  AppReachable env a -> Forall wellTyped (m_history (appStore a)).
Proof.
  intros Hr. destruct (app_reachable_inv _ _ Hr) as ((_ & _ & HF) & _).
  eapply Forall_impl; [exact HF|]. intros it ((md & now & ->) & _). apply fromMimeData_wellTyped.
Qed.

Lemma app_items_well_typed_witness :
  Forall wellTyped (m_history (appStore (initApp (textSnapshot "alpha") 0))).
Proof. apply (app_items_well_typed appWitnessEnv). apply app_init. Defined.

Lemma showMainWindow_visible ui :
  mainVisible (showMainWindow ui) = true /\ popupVisible (showMainWindow ui) = false.
Proof. destruct ui as [[] ? ? ? ? ? ? ?]; done. Qed.

(** Setting the search field to a text: afterwards it holds the text, and
    nothing but the widget changes. *)
Lemma widgetSearch_step env t a :
  mainVisible (app_ui a) = true ->
  exists a', appStep env (WidgetSearchChanged t) a = Some a' /\ w_search a' = t /\
    w_filter a' = w_filter a /\ app_ui a' = app_ui a /\ appStore a' = appStore a.
Proof.
  intros Hm. unfold appStep. cbv zeta. rewrite Hm.
  case_bool_decide as E; eexists; (split; [reflexivity|]); done.
Qed.

Lemma widgetFilterAll_step env a :
  mainVisible (app_ui a) = true ->
  exists a', appStep env (WidgetFilterChanged 0) a = Some a' /\ w_search a' = w_search a /\
    w_filter a' = (-1)%Z /\ app_ui a' = app_ui a /\ appStore a' = appStore a.
Proof.
  intros Hm. unfold appStep. cbv zeta. rewrite Hm.
  change (filterComboEntries !! 0) with (Some (qstr "All Types", (-1)%Z)).
  cbv beta iota. destruct (Z.eqb_spec (-1) (w_filter a)) as [E|E];
    eexists; (split; [reflexivity|]); done.
Qed.

(** C18: whatever state the application is in, the user can bring up
    the whole history: choosing "Show Clipboard Manager" in the tray menu,
    clearing the search field and choosing "All Types" shows the main
    window, hides the popup, leaves the history as it was, and lists every
    entry of it. *)
Theorem app_can_show_history env a :
  AppReachable env a ->
  exists a', appRun env [Interface MenuShow; WidgetSearchChanged []; WidgetFilterChanged 0] a = Some a' /\
    mainVisible (app_ui a') = true /\ popupVisible (app_ui a') = false /\
    appStore a' = appStore a /\ w_rows a' = historyWidgetView [] (-1) (appStore a).
Proof.
  intros Hr.
  set (a1 := withPopupRows (popupVisibilityRows (app_ui a) (showMainWindow (app_ui a)) (appStore a)
                                                (p_rows a)) (withUi (showMainWindow (app_ui a)) a)).
  assert (H1 : appStep env (Interface MenuShow) a = Some a1) by reflexivity.
  destruct (showMainWindow_visible (app_ui a)) as [Hm1 Hp1].
  destruct (widgetSearch_step env [] a1 Hm1) as (a2 & H2 & Hs2 & _ & Hu2 & Hst2).
  assert (Hm2 : mainVisible (app_ui a2) = true) by (rewrite Hu2; exact Hm1).
  destruct (widgetFilterAll_step env a2 Hm2) as (a3 & H3 & Hs3 & Hf3 & Hu3 & Hst3).
  exists a3. split.
  { rewrite appRun_cons, H1. cbv beta iota. rewrite appRun_cons, H2. cbv beta iota.
    rewrite appRun_cons, H3. reflexivity. }
  assert (Hr3 : AppReachable env a3).
  { eapply app_step; [eapply app_step; [eapply app_step; [exact Hr|exact H1]|exact H2]|exact H3]. }
  destruct (app_views_consistent _ _ Hr3) as (Hw & _).
  rewrite Hu3, Hu2. split; [done|]. split; [done|].
  assert (Hst : appStore a3 = appStore a) by (rewrite Hst3, Hst2; reflexivity).
  split; [done|]. rewrite Hw, Hs3, Hs2, Hf3, Hst. done.
Qed.

Lemma app_can_show_history_witness :
  exists a', appRun appWitnessEnv [Interface MenuShow; WidgetSearchChanged []; WidgetFilterChanged 0]
               (initApp (textSnapshot "alpha") 0) = Some a' /\
    w_rows a' = historyWidgetView [] (-1) (appStore (initApp (textSnapshot "alpha") 0)).
Proof.
  destruct (app_can_show_history appWitnessEnv _ (app_init _ (textSnapshot "alpha") 0))
    as (a' & Hrun & _ & _ & _ & Hw).
  exists a'. split; [exact Hrun|exact Hw].
Defined.

Definition rowTexts (rows : list Row) : list (option QString) :=
  map (fun r => option_map m_text (row_item r)) rows.

(** C31: the search field and the type filter only refresh the rows of
    the main widget, not its statistics label: a search or filter event
    leaves the manager and the label as they were, while the rows follow
    the new query (after a search that matches nothing the list shows the
    placeholder and the label still counts every entry). *)
Theorem widget_stats_stale env e a a' :
  AppReachable env a ->
  (exists t, e = WidgetSearchChanged t) \/ (exists k, e = WidgetFilterChanged k) ->
  appStep env e a = Some a' ->
  app_sys a' = app_sys a /\ w_stats a' = w_stats a /\
  w_rows a' = historyWidgetView (w_search a') (w_filter a') (appStore a').
Proof.
  intros Hr He Hs. destruct (app_reachable_inv _ _ Hr) as (_ & _ & Hw & _).
  destruct He as [[t ->]|[k ->]]; unfold appStep in Hs; cbv zeta in Hs;
    repeat (case_if || case_match); simplify_eq; split_and!; done.
Qed.

Lemma widget_stats_stale_witness :
  match appRun appWitnessEnv [Interface MenuShow] (initApp (textSnapshot "alpha") 0) with
  | Some a =>
      exists a', appStep appWitnessEnv (WidgetSearchChanged (qstr "zzz")) a = Some a' /\
        w_stats a' = w_stats a
  | None => False
  end.
Proof.
  set (a0 := initApp (textSnapshot "alpha") 0).
  destruct (appRun appWitnessEnv [Interface MenuShow] a0) as [a|] eqn:E; [|discriminate].
  assert (Hr : AppReachable appWitnessEnv a) by (eapply appRun_reachable; [apply app_init|exact E]).
  vm_compute in E. injection E as <-.
  eexists. split; [reflexivity|].
  refine (proj1 (proj2 (widget_stats_stale appWitnessEnv (WidgetSearchChanged (qstr "zzz")) _ _ Hr
    (or_introl (ex_intro _ (qstr "zzz") eq_refl)) _))). reflexivity.
Defined.

(** C32: the popup's first slot on [historyChanged] lists the whole
    history: in every reachable state, a clipboard change that changes
    the history leaves the popup's rows the first ten entries of the
    whole history, whatever query its search field (left as it was)
    holds, so with a query the popup shows entries that do not match it. *)
Theorem popup_rows_ignore_query env a md now a' :
  AppReachable env a -> appStep env (ClipboardChanged md now) a = Some a' ->
  m_history (appStore a') <> m_history (appStore a) ->
  p_rows a' = trayRows (m_history (appStore a')) /\
  popupSearch (app_ui a') = popupSearch (app_ui a) /\
  popupVisible (app_ui a') = popupVisible (app_ui a).
Proof.
  intros Hr Hs Hne. destruct (app_reachable_inv _ _ Hr) as (Hinv & _).
  cbn [appStep] in Hs. unfold managerEvent in Hs.
  destruct (step (ExternalCopy md now) (app_sys a)) as [s'|] eqn:Es; [|done].
  injection Hs as <-.
  destruct (step_notifies _ _ _ Hinv Es (fun size => ltac:(discriminate))) as (sigs & Hl & Hn).
  rewrite Hl, drop_app_length, deliver_eq in Hne |- *.
  destruct (existsb isHistoryChanged sigs).
  - rewrite emitHistoryChanged_eq. unfold appStore. cbn. split_and!; reflexivity.
  - exfalso. destruct Hn as [?|Hst]; [done|]. apply Hne. unfold appStore. cbn. by rewrite Hst.
Qed.

Lemma popup_rows_ignore_query_witness :
  let a := initApp (textSnapshot "alpha") 0 in
  exists a', appStep appWitnessEnv (ClipboardChanged (textSnapshot "beta") 1) a = Some a' /\
    p_rows a' = trayRows (m_history (appStore a')).
Proof.
  cbv zeta. eexists. split; [reflexivity|].
  refine (proj1 (popup_rows_ignore_query appWitnessEnv _ _ 1 _ (app_init _ _ 0) eq_refl _)).
  vm_compute. discriminate.
Defined.

(** ** Order of delivery *)

(** Any two slots connected to [historyChanged] commute: the popup's
    writes only its rows, the tray's the tooltip and, with the same value,
    the popup's rows, the main widget's only its rows and label, and none
    reads what another writes. *)
Lemma historyChanged_slots_commute st x y a :
  x ∈ historyChangedSlots -> y ∈ historyChangedSlots -> y st (x st a) = x st (y st a).
Proof.
  unfold historyChangedSlots. rewrite !elem_of_cons, !elem_of_nil.
  intros [->|[->|[->|[]]]] [->|[->|[->|[]]]]; try reflexivity;
    unfold popupOnHistoryChanged, trayOnHistoryChanged, widgetOnHistoryChanged;
    cbn; destruct (popupVisible (app_ui a)); reflexivity.
Qed.

(** C8: the order in which [historyChanged] reaches its three slots does
    not matter: delivered in any order, the signal leaves the application
    in the state that connection order gives. *)
Theorem historyChanged_order_irrelevant slots st a :
  slots ≡ₚ historyChangedSlots ->
  fold_left (fun a slot => slot st a) slots a = emitHistoryChanged st a.
Proof.
  intros Hp. unfold emitHistoryChanged. symmetry.
  apply fold_left_perm_comm; [by symmetry|].
  intros x y b Hx Hy. symmetry. by apply historyChanged_slots_commute.
Qed.

Lemma historyChanged_order_irrelevant_witness :
  let a0 := initApp (textSnapshot "alpha") 0 in
  fold_left (fun a slot => slot (appStore a0) a) (rev historyChangedSlots) a0 =
  emitHistoryChanged (appStore a0) a0.
Proof.
  cbn zeta. apply historyChanged_order_irrelevant.
  apply Permutation_sym, Permutation_rev.
Defined.

(** ** Clearing the feedback *)

Lemma app_reachable_feedback env a : AppReachable env a -> FeedbackInv a.
Proof.
  induction 1 as [|e a a' _ IH Hs]; [left; done|].
  destruct (appStep_feedback _ _ _ _ Hs) as [[H1 H2]|[[H1 H2]|[H1 H2]]].
  - unfold FeedbackInv. rewrite H1, H2. exact IH.
  - right. done.
  - left. done.
Qed.

(** The pending timers fire one after the other; the last one leaves the
    tooltip empty. *)
Lemma feedbackTimeouts_run env a :
  appRun env (repeat FeedbackTimeout (w_feedbackTimers a)) a =
  Some (match w_feedbackTimers a with 0 => a | S _ => withFeedback [] 0 a end).
Proof.
  remember (w_feedbackTimers a) as n eqn:Hn. revert a Hn.
  induction n as [|n IH]; intros a Hn; [done|].
  cbn [repeat]. rewrite (appRun_cons env FeedbackTimeout). unfold appStep. rewrite <- Hn.
  cbv beta iota.
  rewrite (IH (withFeedback [] n a)) by done. destruct n; done.
Qed.

(** C19: the feedback of a double click never stays: from every reachable
    state, the timers already pending, as they fire, leave the list's
    tooltip empty and change nothing else. *)
Theorem feedback_cleared env a :
  AppReachable env a ->
  exists a', appRun env (repeat FeedbackTimeout (w_feedbackTimers a)) a = Some a' /\
    w_feedback a' = [] /\ w_feedbackTimers a' = 0%nat /\
    app_sys a' = app_sys a /\ app_ui a' = app_ui a /\ w_rows a' = w_rows a /\ p_rows a' = p_rows a.
Proof.
  intros Hr. rewrite feedbackTimeouts_run. eexists; split; [reflexivity|].
  destruct (w_feedbackTimers a) eqn:E.
  - destruct (app_reachable_feedback _ _ Hr) as [H|[_ H]]; [|lia]. split_and!; done.
  - split_and!; done.
Qed.

Lemma feedback_cleared_witness :
  exists a', appRun appWitnessEnv (repeat FeedbackTimeout (w_feedbackTimers (initApp (textSnapshot "alpha") 0)))
               (initApp (textSnapshot "alpha") 0) = Some a' /\ w_feedback a' = [].
Proof.
  destruct (feedback_cleared appWitnessEnv _ (app_init _ (textSnapshot "alpha") 0))
    as (a' & Hrun & Hf & _).
  exists a'. split; [exact Hrun|exact Hf].
Defined.

(** Each double click starts its own timer, and the first to fire clears
    the tooltip: after two double clicks, the first timer leaves the
    list without feedback while the second copy's timer is still
    pending, so the second feedback lasts less than a second. *)
Example feedback_cleared_early :
  match appRun appWitnessEnv
          [Interface MenuShow; WidgetDoubleClick 0 1; WidgetDoubleClick 0 2; FeedbackTimeout]
          (initApp (textSnapshot "alpha") 0) with
  | Some a => w_feedback a = [] /\ w_feedbackTimers a = 1%nat
  | None => False
  end.
Proof. vm_compute. split; reflexivity. Qed.

(** ** What a double click copies *)

Lemma deliver_sys st sigs a : app_sys (deliver st sigs a) = app_sys a.
Proof. rewrite deliver_eq. destruct (existsb _ _); [|done]. by rewrite emitHistoryChanged_eq. Qed.

Lemma ingest_clipboard sender now s : sys_clipboard (ingest sender now s) = sys_clipboard s.
Proof. unfold ingest. by destruct (onClipboardChanged _ _ _ _). Qed.

(** [CopyBack] of an entry in range writes that entry to the clipboard. *)
Lemma copyBack_clipboard (k : nat) now a it :
  m_history (appStore a) !! k = Some it ->
  exists a', managerEvent (CopyBack (Z.of_nat k) now) a = Some a' /\
    sys_clipboard (app_sys a') = Some (mimeOfWrite (copyToClipboard it)).
Proof.
  intros Hk. pose proof (lookup_lt_Some _ _ _ Hk) as Hlt.
  unfold managerEvent, step, history. fold (appStore a).
  destruct (Z.leb_spec 0 (Z.of_nat k)); [|lia].
  destruct (Z.ltb_spec (Z.of_nat k) (Z.of_nat (length (m_history (appStore a))))); [|lia].
  cbn [andb]. rewrite Nat2Z.id, Hk.
  eexists; split; [reflexivity|]. rewrite deliver_sys. unfold withSys. cbn [app_sys]. by rewrite ingest_clipboard.
Qed.

(** A double click on a row of the main widget that shows an item and
    stores the number [k] copies the entry [k] of the history. *)
Lemma doubleClick_copies_index env a (k : nat) r it now :
  mainVisible (app_ui a) = true -> w_rows a !! k = Some r -> row_item r <> None ->
  row_data r = Some (Z.of_nat k) -> m_history (appStore a) !! k = Some it ->
  exists a', appStep env (WidgetDoubleClick k now) a = Some a' /\
    sys_clipboard (app_sys a') = Some (mimeOfWrite (copyToClipboard it)) /\
    w_feedback a' = qstr "Copied to clipboard!".
Proof.
  intros Hm Er Hri Hd Hi. pose proof (lookup_lt_Some _ _ _ Hi) as Hlt.
  unfold appStep. cbv zeta. rewrite Hm, Er, bool_decide_false by done.
  assert (Hix : rowIndex r = Z.of_nat k) by (unfold rowIndex; rewrite Hd; done).
  rewrite Hix. unfold indexInRange.
  destruct (Z.leb_spec 0 (Z.of_nat k)); [|lia].
  destruct (Z.ltb_spec (Z.of_nat k) (Z.of_nat (length (m_history (appStore a))))); [|lia].
  destruct (copyBack_clipboard k now a it Hi) as (a' & Ha' & Hc). cbn [andb]. rewrite Ha'.
  eexists; split; [reflexivity|]. split; [exact Hc|reflexivity].
Qed.

(** C9: without a search text and with "All Types", double-clicking a
    row of the main widget that shows an entry puts that entry on the
    clipboard (the text, or the pixmap of an image) and sets the list's
    tooltip to "Copied to clipboard!". *)
Theorem widget_doubleClick_copies_shown env a (k : nat) it now :
  AppReachable env a -> mainVisible (app_ui a) = true ->
  w_search a = [] -> w_filter a = (-1)%Z ->
  row_item <$> w_rows a !! k = Some (Some it) ->
  exists a', appStep env (WidgetDoubleClick k now) a = Some a' /\
    sys_clipboard (app_sys a') = Some (mimeOfWrite (copyToClipboard it)) /\
    w_feedback a' = qstr "Copied to clipboard!".
Proof.
  intros Hr Hm Hs Hf Hk.
  destruct (app_reachable_inv _ _ Hr) as (_ & _ & Hw & _).
  destruct (w_rows a !! k) as [r|] eqn:Er; [|done]. injection Hk as Hri.
  pose proof Er as Ev. rewrite Hw, Hs, Hf in Ev. unfold historyWidgetView in Ev.
  change (getFilteredItems [] (-1) (appStore a)) with (m_history (appStore a)) in Ev.
  destruct (historyWidgetRows_item _ _ _ Ev) as [Hi Hd]; [by rewrite Hri|].
  rewrite Hri in Hi. symmetry in Hi.
  apply (doubleClick_copies_index env a k r); [done|done|by rewrite Hri|done|done].
Qed.

Lemma widget_doubleClick_copies_shown_witness :
  match appRun appWitnessEnv [Interface MenuShow] (initApp (textSnapshot "alpha") 0) with
  | Some a =>
      exists a', appStep appWitnessEnv (WidgetDoubleClick 0 1) a = Some a' /\
        sys_clipboard (app_sys a') = textSnapshot "alpha" /\
        w_feedback a' = qstr "Copied to clipboard!"
  | None => False
  end.
Proof.
  set (a0 := initApp (textSnapshot "alpha") 0).
  destruct (appRun appWitnessEnv [Interface MenuShow] a0) as [a|] eqn:E; [|discriminate].
  assert (Hr : AppReachable appWitnessEnv a) by (eapply appRun_reachable; [apply app_init|exact E]).
  vm_compute in E. injection E as <-.
  apply (widget_doubleClick_copies_shown appWitnessEnv _ 0 (fromMimeData (mkMime None None (Some (qstr "alpha"))) 0));
    [exact Hr|reflexivity..].
Defined.

(** C28: the main widget numbers its rows in the displayed list and
    the double click reads that number as a history index: in every
    reachable state, the row [k] shows the entry [k] of the search and
    filter result, while double-clicking it puts the entry [k] of the
    whole history on the clipboard, another entry as soon as a search or
    a filter hides an entry before it. *)
Theorem app_row_mismatch env a (k : nat) shown it now :
  AppReachable env a -> mainVisible (app_ui a) = true ->
  getFilteredItems (w_search a) (w_filter a) (appStore a) !! k = Some shown ->
  m_history (appStore a) !! k = Some it ->
  row_item <$> w_rows a !! k = Some (Some shown) /\
  exists a', appStep env (WidgetDoubleClick k now) a = Some a' /\
    sys_clipboard (app_sys a') = Some (mimeOfWrite (copyToClipboard it)).
Proof.
  intros Hr Hm Hs Hi.
  destruct (app_reachable_inv _ _ Hr) as (_ & _ & Hw & _).
  assert (Er : w_rows a !! k = Some (mkRow (Some shown) (Some (Z.of_nat k)))).
  { rewrite Hw. unfold historyWidgetView, historyWidgetRows.
    rewrite lookup_app_l by (rewrite length_numberRows; eapply lookup_lt_Some; done).
    by rewrite numberRows_lookup, Hs. }
  rewrite Er. split; [reflexivity|].
  destruct (doubleClick_copies_index env a k _ it now Hm Er) as (a' & Ha' & Hc & _);
    [done|done|done|]. eauto.
Qed.

Lemma app_row_mismatch_witness :
  match appRun appWitnessEnv
          [ClipboardChanged (textSnapshot "beta") 1; Interface MenuShow;
           WidgetSearchChanged (qstr "alpha")] (initApp (textSnapshot "alpha") 0) with
  | Some a =>
      exists a', appStep appWitnessEnv (WidgetDoubleClick 0 2) a = Some a' /\
        sys_clipboard (app_sys a') = textSnapshot "beta"
  | None => False
  end.
Proof.
  set (a0 := initApp (textSnapshot "alpha") 0).
  destruct (appRun appWitnessEnv _ a0) as [a|] eqn:E; [|discriminate].
  assert (Hr : AppReachable appWitnessEnv a) by (eapply appRun_reachable; [apply app_init|exact E]).
  vm_compute in E. injection E as <-.
  exact (proj2 (app_row_mismatch appWitnessEnv _ 0
    (fromMimeData (mkMime None None (Some (qstr "alpha"))) 0)
    (fromMimeData (mkMime None None (Some (qstr "beta"))) 1) 2 Hr eq_refl eq_refl eq_refl)).
Defined.
End App.
