(* ===== verification/TrayManager.v ===== *)
(** * TrayManager: the [SystemTrayManager] object and the objects [main] builds

    Models [src/src/SystemTrayManager.h] and the parts of
    [SystemTrayManager.cpp] that build and change the object graph: the
    constructor (the [ClipboardManager] it owns, [createTrayIcon],
    [createContextMenu], the [TrayPopupWidget], the connections, the
    manager handed to the main window, [updateTrayIcon]), [show] and
    [hide] of the tray icon, [updateTrayIcon] and the slot
    [onHistoryChanged]; and [main], which builds the [MainWindow] and the
    [SystemTrayManager] and shows the tray icon.  The one manager has
    identity [0]; the widgets read its store through [stores].

    The file holds the object model only; the behaviour of the running
    program is proved on [App], which follows the same construction
    order and delivers [historyChanged] in the same connection order. *)

From S2P Require Import Prelude QtString ClipboardItem History Manager Views Tray HistoryWidget MainWindow PopupWidget.
Import Item History Manager Views Tray HistoryWidget MainWindow PopupWidget.

Module TrayManager.

(** The [QSystemTrayIcon]: its icon, tooltip and visibility. *)
Record TrayIcon := mkTrayIcon {
  ti_icon : StandardPixmap;
  ti_tooltip : QString;
  ti_visible : bool
}.

(** An entry of the tray's [QMenu]. *)
Inductive MenuEntry := Action (text : QString) | Separator.

(** The members of [SystemTrayManager]; the main window is the one
    [main] owns, reached through [m_mainWindow]. *)
Record SystemTrayManager := mkTrayManager {
  stm_trayIcon : option TrayIcon;
  stm_trayMenu : list MenuEntry;
  stm_mainWindow : MainWindow;
  stm_clipboardManager : ManagerId;
  stm_trayPopup : option PopupWidget
}.

Definition withTrayIcon (i : option TrayIcon) (t : SystemTrayManager) : SystemTrayManager :=
  mkTrayManager i (stm_trayMenu t) (stm_mainWindow t) (stm_clipboardManager t) (stm_trayPopup t).
Definition withTrayMenu (menu : list MenuEntry) (t : SystemTrayManager) : SystemTrayManager :=
  mkTrayManager (stm_trayIcon t) menu (stm_mainWindow t) (stm_clipboardManager t) (stm_trayPopup t).
Definition withMainWindow (mw : MainWindow) (t : SystemTrayManager) : SystemTrayManager :=
  mkTrayManager (stm_trayIcon t) (stm_trayMenu t) mw (stm_clipboardManager t) (stm_trayPopup t).
Definition withTrayPopup (p : option PopupWidget) (t : SystemTrayManager) : SystemTrayManager :=
  mkTrayManager (stm_trayIcon t) (stm_trayMenu t) (stm_mainWindow t) (stm_clipboardManager t) p.

(** [createTrayIcon]: a hidden icon with [SP_ComputerIcon] and the
    tooltip "Clipboard Manager". *)
Definition createTrayIcon (t : SystemTrayManager) : SystemTrayManager :=
  withTrayIcon (Some (mkTrayIcon SP_ComputerIcon (qstr "Clipboard Manager") false)) t.

(** [createContextMenu]: the three actions and a separator. *)
Definition trayMenuEntries : list MenuEntry :=
  [Action (qstr "Show Clipboard Manager"); Separator; Action (qstr "About"); Action (qstr "Quit")].

Definition createContextMenu (t : SystemTrayManager) : SystemTrayManager :=
  withTrayMenu trayMenuEntries t.

(** [show] and [hide]: the tray icon's visibility, when there is one. *)
Definition setIconVisible (v : bool) (t : SystemTrayManager) : SystemTrayManager :=
  match stm_trayIcon t with
  | Some i => withTrayIcon (Some (mkTrayIcon (ti_icon i) (ti_tooltip i) v)) t
  | None => t
  end.
Definition trayManagerShow (t : SystemTrayManager) : SystemTrayManager := setIconVisible true t.
Definition trayManagerHide (t : SystemTrayManager) : SystemTrayManager := setIconVisible false t.

(** [updateTrayIcon]: without an icon nothing; otherwise the tooltip
    with [itemCount()]. *)
Definition updateTrayIcon (stores : ManagerId -> Store) (t : SystemTrayManager) : SystemTrayManager :=
  match stm_trayIcon t with
  | Some i =>
      let itemCount := length (m_history (stores (stm_clipboardManager t))) in
      withTrayIcon (Some (mkTrayIcon (ti_icon i) (trayTooltipText itemCount) (ti_visible i))) t
  | None => t
  end.

(** [SystemTrayManager::onHistoryChanged]: [updateTrayIcon], then
    [refreshHistory] of a visible popup. *)
Definition onTrayHistoryChanged (stores : ManagerId -> Store) (t : SystemTrayManager)
    : SystemTrayManager :=
  let t' := updateTrayIcon stores t in
  match stm_trayPopup t' with
  | Some p => if pw_visible p then withTrayPopup (Some (refreshHistory stores p)) t' else t'
  | None => t'
  end.

(** [SystemTrayManager::SystemTrayManager(mainWindow)]: the manager is
    built first (its signals have no receiver yet), then the icon, the
    menu, the popup (which connects itself to [historyChanged]), the
    tray's own connection, the manager handed to the main window (whose
    widget connects last), and [updateTrayIcon]. *)
Definition constructTrayManager (clipboard : option MimeData) (now : Z) (mw : MainWindow)
    : Manager * list Signal * SystemTrayManager :=
  let '(m, sigs) := construct clipboard now in
  let stores := fun _ : ManagerId => m_store m in
  let t0 := mkTrayManager None [] mw 0%nat None in
  let t1 := withTrayPopup (Some (constructPopup stores 0%nat)) (createContextMenu (createTrayIcon t0)) in
  let t2 := withMainWindow (setMainClipboardManager stores (Some 0%nat) (stm_mainWindow t1)) t1 in
  (m, sigs, updateTrayIcon stores t2).

(** The objects of the running program: the manager and the tray
    manager, which holds the popup and the main window. *)
Record Objects := mkObjects {
  ob_manager : Manager;
  ob_tray : SystemTrayManager
}.

(** [main] up to [app.exec()]: without a system tray no objects;
    otherwise the main window, the tray manager, and the icon shown. *)
Definition mainObjects (env : Env) (clipboard : option MimeData) (now : Z) : option Objects :=
  if trayAvailable env then
    let '(m, _, t) := constructTrayManager clipboard now constructMainWindow in
    Some (mkObjects m (trayManagerShow t))
  else None.

(** [emit historyChanged()]: the popup's [updateHistoryList], the tray
    manager's [onHistoryChanged] and the main widget's
    [onHistoryChanged], in the order of their connections. *)
Definition emitObjects (stores : ManagerId -> Store) (m : ManagerId) (t : SystemTrayManager)
    : SystemTrayManager :=
  let t1 := withTrayPopup (receivePopup stores m <$> stm_trayPopup t) t in
  let t2 := if bool_decide (stm_clipboardManager t1 = m) then onTrayHistoryChanged stores t1 else t1 in
  let mw := stm_mainWindow t2 in
  withMainWindow (mkMainWindow (mw_clipboardManager mw) (receive stores m <$> mw_historyWidget mw)
                               (mw_title mw) (mw_minimumSize mw) (mw_size mw) (mw_statusMessage mw)) t2.

End TrayManager.
